(** * Health Metrics API: goal progress and dashboard aggregation

    A shallow embedding of [metrics/models.py], [metrics/serializers.py]
    and [metrics/views.py].

    Modelling conventions.
    - A database table is the list of its rows, each row a record that
      carries its primary key; a queryset is a list of rows.
    - A [Decimal] is the rational it denotes ([Q]), and so is a Python
      [float], which is a binary64 number; numeric results are compared
      with [==]. The float arithmetic of the program, the division and the
      multiplication of the progress percentage, is binary64 arithmetic:
      each operation rounds to the nearest binary64 number, ties to the even
      significand ([Binary64]). A float that is only handed to the response
      is kept as the [Decimal] it was converted from: the response renders a
      float by its shortest decimal that reads back as the same float, and
      for the [Decimal]s of the columns here that is the [Decimal] itself.
    - The aggregates of the database ([Sum], [Avg], [Min], [Max]) are the
      exact ones. The precision in which a database computes an average is
      the backend's and is not modelled: no theorem below states the value
      of an average, but for the mean of 3 and 5, which is 4 in any
      precision.
    - The value of a create request is a [Decimal] literal, coefficient and
      exponent, since the digit checks of the serializer field count the
      digits written.
    - [datetime.date] is a (year, month, day) record and the proleptic
      Gregorian ordinal arithmetic of the [datetime] module is transcribed
      below, including the [OverflowError] of [date - timedelta].
    - [timezone.now().date()] and [date.today()] are one and the same date,
      the explicit argument [today] (the server runs in UTC).
    - A raised exception is the [Err] branch of [result]. *)

From Stdlib Require Import String ZArith QArith Qround Qabs Qminmax Qpower.
From Stdlib Require Import Bool List Lia Lqa.
From Stdlib Require Import Permutation Sorted.
Import ListNotations.

Local Open Scope Z_scope.

(** ** Exceptions and the error monad *)

Inductive exn : Type :=
| ValidationError (field : string)
| IntegrityError
| Http404
| OverflowError.

Inductive result (A : Type) : Type :=
| Ok (a : A)
| Err (e : exn).

Arguments Ok {A} a.
Arguments Err {A} e.

Definition bind {A B : Type} (r : result A) (k : A -> result B) : result B :=
  match r with
  | Ok a => k a
  | Err e => Err e
  end.

Notation "x <- c ;; k" := (bind c (fun x => k))
  (at level 61, c at next level, right associativity).

Fixpoint mapM {A B : Type} (f : A -> result B) (l : list A) : result (list B) :=
  match l with
  | [] => Ok []
  | a :: l' => b <- f a ;; bs <- mapM f l' ;; Ok (b :: bs)
  end.

(** ** [datetime.date] *)

Module Date.

Record date : Type := mkdate { year : Z; month : Z; day : Z }.

Definition MINYEAR : Z := 1.
Definition MAXYEAR : Z := 9999.
Definition MAXORDINAL : Z := 3652059.

Definition DAYS_IN_MONTH : list Z :=
  [-1; 31; 28; 31; 30; 31; 30; 31; 31; 30; 31; 30; 31].

Definition DAYS_BEFORE_MONTH : list Z :=
  [-1; 0; 31; 59; 90; 120; 151; 181; 212; 243; 273; 304; 334].

Definition index (t : list Z) (i : Z) : Z := nth (Z.to_nat i) t 0.

Definition is_leap (y : Z) : bool :=
  (y mod 4 =? 0) && (negb (y mod 100 =? 0) || (y mod 400 =? 0)).

Definition days_before_year (y : Z) : Z :=
  let y' := y - 1 in y' * 365 + y' / 4 - y' / 100 + y' / 400.

Definition days_in_month (y m : Z) : Z :=
  if (m =? 2) && is_leap y then 29 else index DAYS_IN_MONTH m.

Definition days_before_month (y m : Z) : Z :=
  index DAYS_BEFORE_MONTH m + (if (2 <? m) && is_leap y then 1 else 0).

Definition ymd2ord (y m d : Z) : Z :=
  days_before_year y + days_before_month y m + d.

Definition DI400Y : Z := 146097.
Definition DI100Y : Z := 36524.
Definition DI4Y : Z := 1461.

(** The month and day of the [n]-th day (from 0) of a year. *)
Definition month_day (n : Z) (leapyear : bool) : Z * Z :=
  let month := Z.shiftr (n + 50) 5 in
  let preceding :=
    index DAYS_BEFORE_MONTH month + (if (2 <? month) && leapyear then 1 else 0) in
  if n <? preceding then
    let month' := month - 1 in
    let preceding' :=
      preceding
      - (index DAYS_IN_MONTH month' + (if (month' =? 2) && leapyear then 1 else 0)) in
    (month', n - preceding' + 1)
  else (month, n - preceding + 1).

(** The day [k] of a year falls in a month of the year, on a day of that
    month, and as many days precede it in the year as [k] says. *)
Definition month_day_ok (leap : bool) (k : nat) : bool :=
  let n := Z.of_nat k in
  let '(m, d) := month_day n leap in
  (1 <=? m) && (m <=? 12) && (1 <=? d)
  && (d <=? (if (m =? 2) && leap then 29 else index DAYS_IN_MONTH m))
  && (index DAYS_BEFORE_MONTH m + (if (2 <? m) && leap then 1 else 0) + d =? n + 1).

Definition ord2ymd (n : Z) : date :=
  let n := n - 1 in
  let n400 := n / DI400Y in
  let n := n mod DI400Y in
  let n100 := n / DI100Y in
  let n := n mod DI100Y in
  let n4 := n / DI4Y in
  let n := n mod DI4Y in
  let n1 := n / 365 in
  let n := n mod 365 in
  let y := n400 * 400 + 1 + n100 * 100 + n4 * 4 + n1 in
  if (n1 =? 4) || (n100 =? 4) then mkdate (y - 1) 12 31
  else
    let leapyear := (n1 =? 3) && (negb (n4 =? 24) || (n100 =? 3)) in
    let '(m, d) := month_day n leapyear in
    mkdate y m d.

Definition toordinal (d : date) : Z := ymd2ord (year d) (month d) (day d).

Definition fromordinal (n : Z) : date := ord2ymd n.

(** [date.weekday()]: Monday is 0, Sunday is 6. *)
Definition weekday (d : date) : Z := (toordinal d + 6) mod 7.

(** [d - timedelta(days=n)]. *)
Definition sub_days (d : date) (n : Z) : result date :=
  let o := toordinal d - n in
  if (0 <? o) && (o <=? MAXORDINAL) then Ok (fromordinal o)
  else Err OverflowError.

(** [d.replace(day=1)]; day 1 exists in every month, so no [ValueError]. *)
Definition replace_day1 (d : date) : date := mkdate (year d) (month d) 1.

(** Comparison of dates is lexicographic on (year, month, day). *)
Definition cmp (a b : date) : comparison :=
  match year a ?= year b with
  | Eq => match month a ?= month b with
          | Eq => day a ?= day b
          | c => c
          end
  | c => c
  end.

Definition leb (a b : date) : bool :=
  match cmp a b with Gt => false | _ => true end.

Definition ltb (a b : date) : bool :=
  match cmp a b with Lt => true | _ => false end.

Definition eqb (a b : date) : bool :=
  match cmp a b with Eq => true | _ => false end.

(** The dates a [datetime.date] object can hold. *)
Definition valid (d : date) : Prop :=
  MINYEAR <= year d <= MAXYEAR /\ 1 <= month d <= 12 /\
  1 <= day d <= days_in_month (year d) (month d).

End Date.

Import Date.

(** ** Numbers: [Decimal] and [float] values as rationals *)

Definition Qltb (a b : Q) : bool := negb (Qle_bool b a).

(** [float(x)] where the result is handed to the response: the [Decimal]
    is kept, as the response shows it. The rounding of the conversion is
    done by the operations of [Binary64], which round their operands. *)
Definition float (x : Q) : Q := x.

(** [min(a, b)]: the first argument unless the second is smaller. *)
Definition min (a b : Q) : Q := if Qltb b a then b else a.

(** Rounding to the nearest integer, ties to the even one. *)
Definition round_half_even (x : Q) : Z :=
  let f := Qfloor x in
  match (x - inject_Z f ?= 1 # 2)%Q with
  | Lt => f
  | Gt => f + 1
  | Eq => if Z.even f then f else f + 1
  end.

(** [round(x, 1)]: the multiple of 0.1 nearest to the number that the
    float [x] is, ties to the even one. *)
Definition round1 (x : Q) : Q := (inject_Z (round_half_even (x * 10)) / 10)%Q.

(** Binary64 arithmetic on the rationals: a float is the rational it is,
    and an operation gives the binary64 number nearest to the exact result,
    ties to the even significand. The range of the exponent is not
    modelled: the numbers of the program, quotients and hundredfolds of
    [Decimal(10, 2)] values, are far from both of its ends. *)
Module Binary64.

Definition pow2 (e : Z) : Q := (2 ^ e)%Q.

(** The integer part of the binary logarithm of [x > 0]. *)
Definition ilog2 (x : Q) : Z :=
  let k := Z.log2 (Qnum x) - Z.log2 (Zpos (Qden x)) in
  if Qle_bool (pow2 k) x then k else k - 1.

(** Rounding of [x > 0] to a significand of 53 bits. *)
Definition rnd_pos (x : Q) : Q :=
  let e := ilog2 x - 52 in
  (inject_Z (round_half_even (x / pow2 e)) * pow2 e)%Q.

(** The binary64 number nearest to [x]: what [float(x)] is. *)
Definition rnd (x : Q) : Q :=
  match (x ?= 0)%Q with
  | Gt => rnd_pos x
  | Lt => (- rnd_pos (- x))%Q
  | Eq => 0%Q
  end.

(** [a / b] and [a * b] on floats. *)
Definition truediv (a b : Q) : Q := rnd (rnd a / rnd b).

Definition mul (a b : Q) : Q := rnd (rnd a * rnd b).

End Binary64.

(** A finite [Decimal] as [as_tuple()] shows it, with the sign in the
    coefficient: the number [coefficient * 10 ^ exponent], written with the
    digits of the coefficient. *)
Module Decimal.

Record t : Type := mk { coefficient : Z; exponent : Z }.

(** [Decimal(n)] of an integer. *)
Definition of_Z (n : Z) : t := mk n 0.

Fixpoint ndigits_aux (fuel : nat) (n : Z) : Z :=
  match fuel with
  | O => 1
  | S fuel' => if n <? 10 then 1 else 1 + ndigits_aux fuel' (n / 10)
  end.

(** [len(digittuple)]: the number of digits of the coefficient, 1 for 0. *)
Definition ndigits (n : Z) : Z :=
  ndigits_aux (S (Z.to_nat (Z.log2 (Z.abs n)))) (Z.abs n).

(** The number denoted, in lowest terms. *)
Definition to_Q (d : t) : Q :=
  if 0 <=? exponent d then inject_Z (coefficient d * 10 ^ exponent d)
  else Qred (coefficient d # Z.to_pos (10 ^ (- exponent d))).

End Decimal.

Coercion Decimal.of_Z : Z >-> Decimal.t.

(** Truth value of an optional [Decimal]: [None] and zero are false. *)
Definition truthy (o : option Q) : bool :=
  match o with
  | Some q => negb (Qeq_bool q 0)
  | None => false
  end.

(** [x or 0]. *)
Definition or_zero (o : option Q) : Q :=
  match o with
  | Some q => if truthy o then q else 0%Q
  | None => 0%Q
  end.

(** ** models.py *)

Module MetricType.
Record t : Type := mk {
  id : Z;
  name : string;
  unit : string;
  description : string;
  min_value : option Q;
  max_value : option Q;
  is_active : bool;
  created_at : Z;
  updated_at : Z
}.

(** [metric_type.min_value and value < metric_type.min_value]. *)
Definition below_min (mt : t) (value : Q) : bool :=
  truthy (min_value mt)
  && match min_value mt with
     | Some lo => Qltb value lo
     | None => false
     end.

(** [metric_type.max_value and value > metric_type.max_value]. *)
Definition above_max (mt : t) (value : Q) : bool :=
  truthy (max_value mt)
  && match max_value mt with
     | Some hi => Qltb hi value
     | None => false
     end.
End MetricType.

Module HealthMetric.
(** [user] and [metric_type] hold the primary key of the row referred to. *)
Record t : Type := mk {
  id : Z;
  user : Z;
  metric_type : Z;
  value : Q;
  recorded_date : date;
  notes : string;
  created_at : Z;
  updated_at : Z
}.

(** [Meta.ordering = ['-recorded_date', '-created_at']]. *)
Definition ordering (a b : t) : bool :=
  match Date.cmp (recorded_date a) (recorded_date b) with
  | Gt => true
  | Lt => false
  | Eq => created_at b <=? created_at a
  end.

(** The columns of the [unique_daily_metric] constraint. *)
Definition same_key (u mt : Z) (d : date) (r : t) : bool :=
  (user r =? u) && (metric_type r =? mt) && Date.eqb (recorded_date r) d.

(** [clean]; [mt] is the row [self.metric_type] refers to. *)
Definition clean (mt : option MetricType.t) (self : t) : result unit :=
  match mt with
  | Some mt =>
      if MetricType.below_min mt (value self) then Err (ValidationError "__all__")
      else if MetricType.above_max mt (value self) then Err (ValidationError "__all__")
      else Ok tt
  | None => Ok tt
  end.

(** The columns of [unique_daily_metric], as a value. *)
Definition key (r : t) : Z * Z * date := (user r, metric_type r, recorded_date r).

(** The table satisfies the [unique_daily_metric] constraint. *)
Definition unique_daily_metric (tbl : list t) : Prop := NoDup (map key tbl).

(** The primary keys of the table are distinct. *)
Definition primary_key (tbl : list t) : Prop := NoDup (map id tbl).
End HealthMetric.

Module Goal.
Inductive GoalType : Type := DAILY | WEEKLY | MONTHLY.
Inductive GoalDirection : Type := INCREASE | DECREASE | MAINTAIN.

Record t : Type := mk {
  id : Z;
  user : Z;
  metric_type : Z;
  target_value : Q;
  goal_type : GoalType;
  direction : GoalDirection;
  is_active : bool;
  start_date : date;
  end_date : option date;
  created_at : Z;
  updated_at : Z
}.

(** [Meta.ordering = ['-created_at']]. *)
Definition ordering (a b : t) : bool := created_at b <=? created_at a.

(** The [is_expired] property. *)
Definition is_expired (today : date) (self : t) : bool :=
  match end_date self with
  | Some e => Date.ltb e today
  | None => false
  end.

(** The goal [g] with the direction [d]. *)
Definition set_direction (g : t) (d : GoalDirection) : t :=
  mk (id g) (user g) (metric_type g) (target_value g) (goal_type g) d
     (is_active g) (start_date g) (end_date g) (created_at g) (updated_at g).

(** The columns of [unique_active_goal_per_type], as a value. *)
Definition key (g : t) : Z * Z * GoalType := (user g, metric_type g, goal_type g).

(** The table satisfies the [unique_active_goal_per_type] constraint: the
    rows with [is_active] true have distinct keys. *)
Definition unique_active_goal_per_type (tbl : list t) : Prop :=
  NoDup (map key (filter is_active tbl)).
End Goal.

Record Database : Type := mkdb {
  metric_types : list MetricType.t;
  health_metrics : list HealthMetric.t;
  goals : list Goal.t
}.

Module UserProfile.
Record t : Type := mk {
  id : Z;
  user : Z;
  date_of_birth : option date;
  height_cm : option Z;
  timezone : string;
  notifications_enabled : bool;
  created_at : Z;
  updated_at : Z
}.

(** [(a1, a2) < (b1, b2)] on pairs of integers. *)
Definition pair_ltb (a b : Z * Z) : bool :=
  (fst a <? fst b) || ((fst a =? fst b) && (snd a <? snd b)).

(** The [age] property; a boolean counts as 1 or 0. *)
Definition age (today : date) (self : t) : option Z :=
  match date_of_birth self with
  | Some dob =>
      Some (year today - year dob
            - (if pair_ltb (month today, day today) (month dob, day dob)
               then 1 else 0))
  | None => None
  end.
End UserProfile.

(** ** Querysets *)

Section Queryset.
Context {A : Type}.

Fixpoint insert (le : A -> A -> bool) (x : A) (l : list A) : list A :=
  match l with
  | [] => [x]
  | y :: l' => if le x y then x :: l else y :: insert le x l'
  end.

(** [order_by]: a stable sort; [le a b] says that [a] may come before [b]. *)
Definition order_by (le : A -> A -> bool) (l : list A) : list A :=
  fold_right (insert le) [] l.

(** [a] may come before [b] in the order [le]. *)
Definition precedes (le : A -> A -> bool) (a b : A) : Prop := le a b = true.

(** [count()]. *)
Definition count (l : list A) : Z := Z.of_nat (length l).

(** [exists()]. *)
Definition exists_ (l : list A) : bool :=
  match l with [] => false | _ :: _ => true end.

(** [exclude]. *)
Definition exclude (f : A -> bool) (l : list A) : list A :=
  filter (fun a => negb (f a)) l.
End Queryset.

Definition Qsum (vs : list Q) : Q := fold_right Qplus 0%Q vs.

(** [aggregate(Sum('value'))['value__sum']]: [None] over no rows. *)
Definition Sum (vs : list Q) : option Q :=
  match vs with
  | [] => None
  | _ :: _ => Some (Qsum vs)
  end.

(** [aggregate(Avg('value'))['value__avg']]: [None] over no rows, and the
    mean otherwise. The database returns the mean in the precision of its
    backend; the exact mean stands for it here. *)
Definition Avg (vs : list Q) : option Q :=
  match vs with
  | [] => None
  | _ :: _ => Some (Qsum vs / inject_Z (Z.of_nat (length vs)))%Q
  end.

(** [aggregate(Min('value'))] and [aggregate(Max('value'))]. *)
Definition Min (vs : list Q) : option Q :=
  match vs with
  | [] => None
  | v :: vs' => Some (fold_left (fun m x => if Qltb x m then x else m) vs' v)
  end.

Definition Max (vs : list Q) : option Q :=
  match vs with
  | [] => None
  | v :: vs' => Some (fold_left (fun m x => if Qltb m x then x else m) vs' v)
  end.

(** A response of an action that answers a bad request itself. *)
Inductive response (A : Type) : Type :=
| Response200 (body : A)
| Response400 (error : string).

Arguments Response200 {A} body.
Arguments Response400 {A} error.

Module HealthMetricManager.
(** The next value of the auto-increment primary key. *)
Definition next_id (tbl : list HealthMetric.t) : Z :=
  1 + fold_right (fun r m => Z.max (HealthMetric.id r) m) 0 tbl.

(** [HealthMetric.objects.create(...)]: the INSERT enforces
    [unique_daily_metric]; an omitted [recorded_date] takes the column
    default, the current date. *)
Definition create (tbl : list HealthMetric.t) (today : date) (now : Z)
    (user metric_type : Z) (value : Q) (recorded_date : option date)
    (notes : string) : result (HealthMetric.t * list HealthMetric.t) :=
  let d := match recorded_date with Some d => d | None => today end in
  if exists_ (filter (HealthMetric.same_key user metric_type d) tbl)
  then Err IntegrityError
  else
    let row := HealthMetric.mk (next_id tbl) user metric_type value d notes now now in
    Ok (row, tbl ++ [row]).
End HealthMetricManager.

Module GoalManager.
(** [goal.save()] of a row that is in the table: an UPDATE of the row with
    the goal's primary key; [updated_at] is [auto_now]. *)
Definition save (tbl : list Goal.t) (now : Z) (self : Goal.t) : list Goal.t :=
  map (fun r =>
         if Goal.id r =? Goal.id self
         then Goal.mk (Goal.id self) (Goal.user self) (Goal.metric_type self)
                (Goal.target_value self) (Goal.goal_type self)
                (Goal.direction self) (Goal.is_active self)
                (Goal.start_date self) (Goal.end_date self)
                (Goal.created_at self) now
         else r)
      tbl.
End GoalManager.

(** ** serializers.py *)

Module Progress.
(** The dictionary [get_progress] returns. The two window bounds are kept
    as dates; their ISO-8601 rendering is not modelled. *)
Record t : Type := mk {
  current_value : Q;
  target_value : Q;
  percentage : Q;
  period_start : date;
  period_end : date
}.
End Progress.

Module GoalSerializer.

Definition get_progress (metrics : list HealthMetric.t) (today : date)
    (obj : Goal.t) : result Progress.t :=
  range <- match Goal.goal_type obj with
           | Goal.DAILY => Ok (today, today)
           | Goal.WEEKLY =>
               start <- Date.sub_days today (Date.weekday today) ;;
               Ok (start, today)
           | Goal.MONTHLY => Ok (Date.replace_day1 today, today)
           end ;;
  let '(start, end_) := range in
  let metrics :=
    filter (fun m =>
              (HealthMetric.user m =? Goal.user obj)
              && (HealthMetric.metric_type m =? Goal.metric_type obj)
              && Date.leb start (HealthMetric.recorded_date m)
              && Date.leb (HealthMetric.recorded_date m) end_)
           metrics in
  let current_value :=
    match Goal.goal_type obj with
    | Goal.DAILY => or_zero (Sum (map HealthMetric.value metrics))
    | _ => or_zero (Avg (map HealthMetric.value metrics))
    end in
  let percentage :=
    if Qltb 0 (Goal.target_value obj)
    then min 100
           (Binary64.mul
              (Binary64.truediv (float current_value)
                 (float (Goal.target_value obj)))
              100)
    else 0%Q in
  Ok (Progress.mk (float current_value) (float (Goal.target_value obj))
        (round1 percentage) start end_).

(** The serialized goal: the row, [is_expired] and [progress]. *)
Record data : Type := mkdata {
  instance : Goal.t;
  is_expired : bool;
  progress : Progress.t
}.

Definition to_representation (metrics : list HealthMetric.t) (today : date)
    (obj : Goal.t) : result data :=
  p <- get_progress metrics today obj ;;
  Ok (mkdata obj (Goal.is_expired today obj) p).

(** The fields [validate] reads; [None] for a field that is absent or
    null. *)
Record attrs : Type := mkattrs {
  start_date : option date;
  end_date : option date
}.

Definition validate (today : date) (a : attrs) : result attrs :=
  let start_date := match start_date a with Some d => d | None => today end in
  match end_date a with
  | Some end_date =>
      if Date.ltb end_date start_date then Err (ValidationError "end_date")
      else Ok a
  | None => Ok a
  end.

End GoalSerializer.

(** The serializer field of a [DecimalField(max_digits, decimal_places)]
    column. *)
Module DecimalField.

(** The digit check: no more than [max_digits] digits in all, no more than
    [decimal_places] of them after the point and no more than
    [max_digits - decimal_places] before it. The digits are those written:
    a zero at the end counts. *)
Definition validate_precision (max_digits decimal_places : Z) (value : Decimal.t)
    : bool :=
  let len := Decimal.ndigits (Decimal.coefficient value) in
  let exponent := Decimal.exponent value in
  let '(total_digits, whole_digits, decimals) :=
    if 0 <=? exponent then (len + exponent, len + exponent, 0)
    else if Z.abs exponent <? len
    then (len, len - Z.abs exponent, Z.abs exponent)
    else (Z.abs exponent, 0, Z.abs exponent) in
  negb (max_digits <? total_digits)
  && negb (decimal_places <? decimals)
  && negb (max_digits - decimal_places <? whole_digits).

End DecimalField.

Module HealthMetricCreateSerializer.

(** The request body; [metric_type] is a primary key and [value] the
    [Decimal] the request gives. *)
Record data : Type := mkdata {
  data_metric_type : Z;
  data_value : Decimal.t;
  data_recorded_date : option date;
  data_notes : string
}.

(** The validated fields; [metric_type] is the row looked up. It and
    [value] are required fields, so [validate] always finds them. *)
Record attrs : Type := mkattrs {
  metric_type : MetricType.t;
  value : Q;
  recorded_date : option date;
  notes : string
}.

(** Field validation: the primary key must name a metric type, and the
    value passes the checks of its column,
    [DecimalField(max_digits=10, decimal_places=2,
    validators=[MinValueValidator(0)])]: the digit check, and not below 0.
    The value that goes on is the number of the literal (the field brings it
    to two decimal places, which does not change the number). *)
Definition to_internal_value (types : list MetricType.t) (d : data) : result attrs :=
  match find (fun mt => MetricType.id mt =? data_metric_type d) types with
  | None => Err (ValidationError "metric_type")
  | Some mt =>
      if negb (DecimalField.validate_precision 10 2 (data_value d))
      then Err (ValidationError "value")
      else
        let value := Decimal.to_Q (data_value d) in
        if Qltb value 0 then Err (ValidationError "value")
        else Ok (mkattrs mt value (data_recorded_date d) (data_notes d))
  end.

Definition validate (tbl : list HealthMetric.t) (user : Z) (today : date)
    (instance : option HealthMetric.t) (a : attrs) : result attrs :=
  let metric_type := metric_type a in
  let value := value a in
  let recorded_date :=
    match recorded_date a with Some d => d | None => today end in
  _ <- (if MetricType.below_min metric_type value
        then Err (ValidationError "value")
        else if MetricType.above_max metric_type value
        then Err (ValidationError "value")
        else Ok tt) ;;
  _ <- match instance with
       | None =>
           let existing :=
             exists_ (filter (HealthMetric.same_key user
                                (MetricType.id metric_type) recorded_date) tbl) in
           if existing then Err (ValidationError "recorded_date") else Ok tt
       | Some _ => Ok tt
       end ;;
  Ok a.

Definition create (tbl : list HealthMetric.t) (user : Z) (today : date) (now : Z)
    (a : attrs) : result (HealthMetric.t * list HealthMetric.t) :=
  HealthMetricManager.create tbl today now user (MetricType.id (metric_type a))
    (value a) (recorded_date a) (notes a).

End HealthMetricCreateSerializer.

Module HealthMetricSerializer.

Definition validate_value (value : Q) : result Q :=
  if Qltb value 0 then Err (ValidationError "value") else Ok value.

(** The fields [validate] reads with [attrs.get]. *)
Record attrs : Type := mkattrs {
  metric_type : option MetricType.t;
  value : option Q
}.

Definition validate (a : attrs) : result attrs :=
  match metric_type a, value a with
  | Some metric_type, Some value =>
      if MetricType.below_min metric_type value
      then Err (ValidationError "value")
      else if MetricType.above_max metric_type value
      then Err (ValidationError "value")
      else Ok a
  | _, _ => Ok a
  end.

End HealthMetricSerializer.

(** ** views.py *)

Module HealthMetricViewSet.
(** The [create] action: validate the body, then save; an exception leaves
    the database as it was. *)
Definition create (db : Database) (user : Z) (today : date) (now : Z)
    (d : HealthMetricCreateSerializer.data) : result HealthMetric.t * Database :=
  match
    a <- HealthMetricCreateSerializer.to_internal_value (metric_types db) d ;;
    a <- HealthMetricCreateSerializer.validate (health_metrics db) user today None a ;;
    HealthMetricCreateSerializer.create (health_metrics db) user today now a
  with
  | Ok (row, tbl) => (Ok row, mkdb (metric_types db) tbl (goals db))
  | Err e => (Err e, db)
  end.

Definition get_queryset (db : Database) (user : Z) : list HealthMetric.t :=
  filter (fun m => HealthMetric.user m =? user) (health_metrics db).

(** The row [summary] reports for one metric type. *)
Record summary_row : Type := mkrow {
  metric_type__name : string;
  metric_type__unit : string;
  row_count : Z;
  average : option Q;
  total : option Q;
  min_value : option Q;
  max_value : option Q
}.

Record summary_response : Type := mksummary {
  summary_period_start : date;
  summary_period_end : date;
  metrics : list summary_row
}.

(** The name and unit of the metric type of an observation: the join of
    [values('metric_type__name', 'metric_type__unit')]. *)
Definition joined (types : list MetricType.t) (m : HealthMetric.t)
    : option (string * string) :=
  match find (fun mt => MetricType.id mt =? HealthMetric.metric_type m) types with
  | Some mt => Some (MetricType.name mt, MetricType.unit mt)
  | None => None
  end.

Definition key_eqb (a b : string * string) : bool :=
  String.eqb (fst a) (fst b) && String.eqb (snd a) (snd b).

Definition has_key (types : list MetricType.t) (k : string * string)
    (m : HealthMetric.t) : bool :=
  match joined types m with
  | Some k' => key_eqb k k'
  | None => false
  end.

(** The keys of a list in the order of their first occurrence. *)
Fixpoint distinct (ks : list (string * string)) : list (string * string) :=
  match ks with
  | [] => []
  | k :: ks' => k :: filter (fun k' => negb (key_eqb k k')) (distinct ks')
  end.

Fixpoint keys (types : list MetricType.t) (rows : list HealthMetric.t)
    : list (string * string) :=
  match rows with
  | [] => []
  | m :: rows' =>
      match joined types m with
      | Some k => k :: keys types rows'
      | None => keys types rows'
      end
  end.

(** [values(...).annotate(...)]: one row for each name and unit, over the
    observations that have them; the grouping is by these two columns
    alone, [Meta.ordering] taking no part in it. The query asks for no
    order, so the order of the rows is the database's; the list here has
    them by first occurrence, and nothing below is about their order. *)
Definition annotate (types : list MetricType.t) (rows : list HealthMetric.t)
    : list summary_row :=
  map (fun k =>
         let vs := map HealthMetric.value (filter (has_key types k) rows) in
         mkrow (fst k) (snd k) (count vs) (Avg vs) (Sum vs) (Min vs) (Max vs))
      (distinct (keys types rows)).

(** The [summary] action; the query parameters [days] and [metric_type] are
    given as the integers they are parsed to, [None] when absent. *)
Definition summary (db : Database) (user : Z) (today : date)
    (days metric_type : option Z) : result summary_response :=
  let days := match days with Some d => d | None => 7 end in
  start_date <- Date.sub_days today days ;;
  let queryset :=
    filter (fun m => Date.leb start_date (HealthMetric.recorded_date m))
      (get_queryset db user) in
  let queryset :=
    match metric_type with
    | Some metric_type_id =>
        filter (fun m => HealthMetric.metric_type m =? metric_type_id) queryset
    | None => queryset
    end in
  Ok (mksummary start_date today (annotate (metric_types db) queryset)).

Record trends_response : Type := mktrends {
  metric_type_id : Z;
  period_start : date;
  period_end : date;
  data_points : list (date * Q)
}.

(** The [trends] action, with the query parameters as for [summary]. *)
Definition trends (db : Database) (user : Z) (today : date)
    (metric_type days : option Z) : result (response trends_response) :=
  match metric_type with
  | None => Ok (Response400 "metric_type parameter is required")
  | Some metric_type_id =>
      let days := match days with Some d => d | None => 30 end in
      start_date <- Date.sub_days today days ;;
      let metrics :=
        order_by (fun a b => Date.leb (HealthMetric.recorded_date a)
                               (HealthMetric.recorded_date b))
          (filter (fun m => (HealthMetric.metric_type m =? metric_type_id)
                            && Date.leb start_date (HealthMetric.recorded_date m))
             (get_queryset db user)) in
      let data :=
        map (fun m => (HealthMetric.recorded_date m, float (HealthMetric.value m)))
          metrics in
      Ok (Response200 (mktrends metric_type_id start_date today data))
  end.
End HealthMetricViewSet.

Module GoalViewSet.
Definition get_queryset (db : Database) (user : Z) : list Goal.t :=
  filter (fun g => Goal.user g =? user) (goals db).

Definition get_object (db : Database) (user pk : Z) : result Goal.t :=
  match find (fun g => Goal.id g =? pk) (get_queryset db user) with
  | Some g => Ok g
  | None => Err Http404
  end.

Definition deactivate (db : Database) (user pk : Z) (now : Z)
    : result string * Database :=
  match get_object db user pk with
  | Ok goal =>
      let goal :=
        Goal.mk (Goal.id goal) (Goal.user goal) (Goal.metric_type goal)
          (Goal.target_value goal) (Goal.goal_type goal) (Goal.direction goal)
          false (Goal.start_date goal) (Goal.end_date goal)
          (Goal.created_at goal) (Goal.updated_at goal) in
      (Ok "Goal deactivated"%string,
       mkdb (metric_types db) (health_metrics db)
            (GoalManager.save (goals db) now goal))
  | Err e => (Err e, db)
  end.

(** The [active] action; the queryset comes in [Meta.ordering]. *)
Definition active (db : Database) (user : Z) (today : date)
    : result (list GoalSerializer.data) :=
  let active_goals :=
    order_by Goal.ordering
      (exclude (fun g => match Goal.end_date g with
                         | Some e => Date.ltb e today
                         | None => false
                         end)
         (filter Goal.is_active (get_queryset db user))) in
  mapM (GoalSerializer.to_representation (health_metrics db) today) active_goals.
End GoalViewSet.

Module DashboardViewSet.
(** The response body; [recent_metrics] holds the rows themselves. *)
Record response : Type := mkresponse {
  total_metrics_logged : Z;
  active_goals : Z;
  metrics_this_week : Z;
  goals_on_track : Z;
  recent_metrics : list HealthMetric.t;
  goal_progress : list GoalSerializer.data
}.

(** The queryset [active_goals] of [list]. *)
Definition active_goals_queryset (db : Database) (user : Z) (today : date)
    : Datatypes.list Goal.t :=
  order_by Goal.ordering
    (exclude (fun g => match Goal.end_date g with
                       | Some e => Date.ltb e today
                       | None => false
                       end)
       (filter (fun g => (Goal.user g =? user) && Goal.is_active g) (goals db))).

Definition list (db : Database) (user : Z) (today : date) : result response :=
  week_ago <- Date.sub_days today 7 ;;
  let total_metrics :=
    count (filter (fun m => HealthMetric.user m =? user) (health_metrics db)) in
  let metrics_this_week :=
    count (filter (fun m => (HealthMetric.user m =? user)
                            && Date.leb week_ago (HealthMetric.recorded_date m))
             (health_metrics db)) in
  let active_goals := active_goals_queryset db user today in
  let recent_metrics :=
    firstn 5 (order_by HealthMetric.ordering
                (filter (fun m => HealthMetric.user m =? user) (health_metrics db))) in
  goal_data <- mapM (GoalSerializer.to_representation (health_metrics db) today)
                 active_goals ;;
  let goals_on_track :=
    fold_left (fun n gd =>
                 if Qle_bool 50 (Progress.percentage (GoalSerializer.progress gd))
                 then n + 1 else n)
      goal_data 0 in
  Ok (mkresponse total_metrics (count active_goals) metrics_this_week
        goals_on_track recent_metrics goal_data).
End DashboardViewSet.

Module UserProfileManager.
Definition next_id (tbl : list UserProfile.t) : Z :=
  1 + fold_right (fun r m => Z.max (UserProfile.id r) m) 0 tbl.

(** [UserProfile.objects.get_or_create(user=user)]: the profile of the
    user, made with the column defaults when there is none, and whether it
    was made. *)
Definition get_or_create (tbl : list UserProfile.t) (now : Z) (user : Z)
    : UserProfile.t * bool * list UserProfile.t :=
  match find (fun p => UserProfile.user p =? user) tbl with
  | Some p => (p, false, tbl)
  | None =>
      let p := UserProfile.mk (next_id tbl) user None None "UTC" true now now in
      (p, true, tbl ++ [p])
  end.
End UserProfileManager.

Module UserProfileViewSet.
Definition get_object (tbl : list UserProfile.t) (now : Z) (user : Z)
    : UserProfile.t * list UserProfile.t :=
  let '(profile, _, tbl') := UserProfileManager.get_or_create tbl now user in
  (profile, tbl').
End UserProfileViewSet.

(** ** Vocabulary of the specification *)

Module Spec.

(** [r] is [x] rounded to one decimal place: a multiple of a tenth at
    most half a tenth away. *)
Definition rounded_to_one_decimal (x r : Q) : Prop :=
  (exists k : Z, r == k # 10)%Q /\ (Qabs (r - x) <= 1 # 20)%Q.

(** An observation of the goal's user and metric type, dated in
    [start, end_]. *)
Definition in_window (g : Goal.t) (start end_ : date) (m : HealthMetric.t) : bool :=
  (HealthMetric.user m =? Goal.user g)
  && (HealthMetric.metric_type m =? Goal.metric_type g)
  && Date.leb start (HealthMetric.recorded_date m)
  && Date.leb (HealthMetric.recorded_date m) end_.

(** Not expired: [end_date] absent or [end_date >= today]. *)
Definition not_expired (today : date) (g : Goal.t) : bool :=
  match Goal.end_date g with
  | None => true
  | Some e => Date.leb today e
  end.

(** The computed progress percentage of the goal is at least 50. *)
Definition on_track (metrics : list HealthMetric.t) (today : date) (g : Goal.t) : bool :=
  match GoalSerializer.get_progress metrics today g with
  | Ok p => Qle_bool 50 (Progress.percentage p)
  | Err _ => false
  end.

(** A date among the last [n] days, today included. *)
Definition within_last_days (n : Z) (today d : date) : bool :=
  (Date.toordinal today - n <? Date.toordinal d)
  && (Date.toordinal d <=? Date.toordinal today).

(** The number of the user's observations dated among the last [n] days,
    today included. *)
Definition observations_in_last_days (n : Z) (db : Database) (user : Z)
    (today : date) : Z :=
  count (filter (fun m => (HealthMetric.user m =? user)
                          && within_last_days n today (HealthMetric.recorded_date m))
           (health_metrics db)).

(** The value violates the bounds of the metric type. *)
Definition violates_bounds (mt : MetricType.t) (value : Q) : bool :=
  match MetricType.min_value mt with
  | Some lo => Qltb value lo
  | None => false
  end
  || match MetricType.max_value mt with
     | Some hi => Qltb hi value
     | None => false
     end.

(** [a] was recorded no earlier than [b]: a later date, or the same date
    and a creation time that is not earlier. *)
Definition at_least_as_recent (a b : HealthMetric.t) : Prop :=
  Date.cmp (HealthMetric.recorded_date a) (HealthMetric.recorded_date b) = Gt
  \/ (HealthMetric.recorded_date a = HealthMetric.recorded_date b
      /\ HealthMetric.created_at b <= HealthMetric.created_at a).

(** The date a create request is for. *)
Definition date_of (today : date) (d : HealthMetricCreateSerializer.data) : date :=
  match HealthMetricCreateSerializer.data_recorded_date d with
  | Some x => x
  | None => today
  end.

(** Two goals that are the same in every field but the direction. *)
Definition same_but_direction (g1 g2 : Goal.t) : Prop :=
  Goal.id g1 = Goal.id g2 /\ Goal.user g1 = Goal.user g2 /\
  Goal.metric_type g1 = Goal.metric_type g2 /\
  Goal.target_value g1 = Goal.target_value g2 /\
  Goal.goal_type g1 = Goal.goal_type g2 /\
  Goal.is_active g1 = Goal.is_active g2 /\
  Goal.start_date g1 = Goal.start_date g2 /\
  Goal.end_date g1 = Goal.end_date g2 /\
  Goal.created_at g1 = Goal.created_at g2 /\
  Goal.updated_at g1 = Goal.updated_at g2.

(** [g'] is [g] deactivated: [is_active] is false and every field other
    than the modification time is the one of [g]. *)
Definition deactivated (g g' : Goal.t) : Prop :=
  Goal.is_active g' = false /\
  Goal.id g' = Goal.id g /\ Goal.user g' = Goal.user g /\
  Goal.metric_type g' = Goal.metric_type g /\
  Goal.target_value g' = Goal.target_value g /\
  Goal.goal_type g' = Goal.goal_type g /\
  Goal.direction g' = Goal.direction g /\
  Goal.start_date g' = Goal.start_date g /\
  Goal.end_date g' = Goal.end_date g /\
  Goal.created_at g' = Goal.created_at g.

End Spec.

(** ** Sample data *)

Module Sample.

(** Wednesday 15 May 2024. *)
Definition today : date := mkdate 2024 5 15.

Definition steps : MetricType.t :=
  MetricType.mk 1 "steps" "steps" "" (Some 0%Q) (Some 100000%Q) true 0 0.

(** A metric type whose upper bound is zero. *)
Definition fasting : MetricType.t :=
  MetricType.mk 2 "snacks" "count" "" None (Some 0%Q) true 0 0.

Definition obs (id : Z) (v : Q) (d : date) (created : Z) : HealthMetric.t :=
  HealthMetric.mk id 1 1 v d "" created created.

Definition goal (id : Z) (target : Q) (ty : Goal.GoalType) (active : bool)
    (end_date : option date) : Goal.t :=
  Goal.mk id 1 1 target ty Goal.INCREASE active (mkdate 2024 1 1) end_date id id.

(** Two observations, of 3 on Monday and of 5 on Wednesday. *)
Definition week_metrics : list HealthMetric.t :=
  [obs 1 3 (mkdate 2024 5 13) 10; obs 2 5 today 20].

(** Two observations on the same day, of 3 and of 5. *)
Definition day_metrics : list HealthMetric.t :=
  [obs 1 3 today 10; obs 2 5 today 20].

Definition db : Database :=
  mkdb [steps; fasting]
       [obs 1 8000 today 10; obs 2 4000 (mkdate 2024 5 14) 20;
        obs 3 100 (mkdate 2024 4 30) 30]
       [goal 1 10000 Goal.DAILY true None;
        goal 2 20000 Goal.WEEKLY true (Some (mkdate 2024 12 31));
        goal 3 5000 Goal.MONTHLY true (Some (mkdate 2024 5 1));
        goal 4 100 Goal.DAILY false None].

(** One observation dated tomorrow and one dated a week ago. *)
Definition db_week : Database :=
  mkdb [steps]
       [obs 1 10 (mkdate 2024 5 16) 10; obs 2 20 (mkdate 2024 5 8) 20]
       [].

(** A user with one active DAILY goal of 10000 and the given observations. *)
Definition db_goal (metrics : list HealthMetric.t) : Database :=
  mkdb [steps] metrics [goal 1 10000 Goal.DAILY true None].

(** A create request for the date [d]; a value given as an integer is
    the literal of that integer. *)
Definition request (mt : Z) (v : Decimal.t) (d : date)
    : HealthMetricCreateSerializer.data :=
  HealthMetricCreateSerializer.mkdata mt v (Some d) "".

End Sample.

(** ** Vocabulary of the further properties *)

Module Props.

(** The database with the observations and goals of one user only. *)
Definition restrict (db : Database) (user : Z) : Database :=
  mkdb (metric_types db)
       (filter (fun m => HealthMetric.user m =? user) (health_metrics db))
       (filter (fun g => Goal.user g =? user) (goals db)).

(** An observation of the goal's user and metric type. *)
Definition concerns (g : Goal.t) (m : HealthMetric.t) : bool :=
  (HealthMetric.user m =? Goal.user g)
  && (HealthMetric.metric_type m =? Goal.metric_type g).

(** The observation values are not negative, as [MinValueValidator(0)]
    has it. *)
Definition nonnegative_values (metrics : list HealthMetric.t) : Prop :=
  Forall (fun m => (0 <= HealthMetric.value m)%Q) metrics.

(** The value lies within the bounds of the metric type that are set. *)
Definition within_bounds (mt : MetricType.t) (v : Q) : Prop :=
  (forall lo, MetricType.min_value mt = Some lo -> (lo <= v)%Q) /\
  (forall hi, MetricType.max_value mt = Some hi -> (v <= hi)%Q).

(** The birthday of the year [y] of someone born on [dob]. *)
Definition birthday (dob : date) (y : Z) : date := mkdate y (month dob) (day dob).

End Props.

(** * Properties *)

(** ** The calendar *)

Module DateFacts.

Ltac month_cases m :=
  let H := fresh "Hm" in
  assert (H : m = 1 \/ m = 2 \/ m = 3 \/ m = 4 \/ m = 5 \/ m = 6 \/ m = 7
              \/ m = 8 \/ m = 9 \/ m = 10 \/ m = 11 \/ m = 12) by lia;
  repeat (destruct H as [H | H]; [subst m | ]); [ .. | subst m].

Ltac eval_tables :=
  repeat match goal with
         | |- context [index ?t ?k] =>
             let v := eval vm_compute in (index t k) in
             change (index t k) with v
         | |- context [Z.eqb ?a ?b] =>
             let v := eval vm_compute in (Z.eqb a b) in
             change (Z.eqb a b) with v
         | |- context [Z.ltb ?a ?b] =>
             let v := eval vm_compute in (Z.ltb a b) in
             change (Z.ltb a b) with v
         end;
  cbn [andb orb negb].

Lemma month_day_table :
  forallb (month_day_ok false) (seq 0 365) = true /\
  forallb (month_day_ok true) (seq 0 366) = true.
Proof. split; vm_compute; reflexivity. Qed.

Lemma month_day_spec (y n : Z) :
  0 <= n < 365 + (if is_leap y then 1 else 0) ->
  let m := fst (month_day n (is_leap y)) in
  let d := snd (month_day n (is_leap y)) in
  1 <= m <= 12 /\ 1 <= d <= days_in_month y m /\
  days_before_month y m + d = n + 1.
Proof.
  intros Hn. unfold days_in_month, days_before_month.
  destruct month_day_table as [Hf Ht].
  rewrite forallb_forall in Hf, Ht.
  assert (Hin : forall k, 0 <= n < Z.of_nat k -> In (Z.to_nat n) (seq 0 k))
    by (intros k Hk; apply in_seq; lia).
  destruct (is_leap y);
    [ specialize (Ht _ (Hin 366%nat ltac:(lia))); rename Ht into Hok
    | specialize (Hf _ (Hin 365%nat ltac:(lia))); rename Hf into Hok ];
    unfold month_day_ok in Hok; rewrite Z2Nat.id in Hok by lia;
    destruct (month_day n _) as [m d]; cbn [fst snd];
    repeat rewrite andb_true_iff in Hok;
    destruct Hok as [[[[H1 H2] H3] H4] H5]; lia.
Qed.

Lemma is_leap_parts (n400 n100 n4 n1 : Z) :
  0 <= n400 -> 0 <= n100 <= 3 -> 0 <= n4 <= 24 -> 0 <= n1 <= 3 ->
  is_leap (n400 * 400 + 1 + n100 * 100 + n4 * 4 + n1)
  = (n1 =? 3) && (negb (n4 =? 24) || (n100 =? 3)).
Proof.
  intros. unfold is_leap.
  set (y := n400 * 400 + 1 + n100 * 100 + n4 * 4 + n1).
  assert (E4 : y mod 4 = (n1 + 1) mod 4).
  { unfold y. replace (n400 * 400 + 1 + n100 * 100 + n4 * 4 + n1)
      with ((n1 + 1) + (n400 * 100 + n100 * 25 + n4) * 4) by ring.
    apply Z_mod_plus_full. }
  assert (E100 : y mod 100 = (n4 * 4 + n1 + 1) mod 100).
  { unfold y. replace (n400 * 400 + 1 + n100 * 100 + n4 * 4 + n1)
      with ((n4 * 4 + n1 + 1) + (n400 * 4 + n100) * 100) by ring.
    apply Z_mod_plus_full. }
  assert (E400 : y mod 400 = (n100 * 100 + n4 * 4 + n1 + 1) mod 400).
  { unfold y. replace (n400 * 400 + 1 + n100 * 100 + n4 * 4 + n1)
      with ((n100 * 100 + n4 * 4 + n1 + 1) + n400 * 400) by ring.
    apply Z_mod_plus_full. }
  rewrite E4, E100, E400.
  destruct (n1 =? 3) eqn:E1; destruct (n4 =? 24) eqn:E2; destruct (n100 =? 3) eqn:E3;
    cbn [andb orb negb];
    repeat match goal with
           | |- context [?a mod ?b =? 0] => destruct (a mod b =? 0) eqn:?
           end; cbn [andb orb negb]; try reflexivity; exfalso;
    clear E4 E100 E400; clear y; Z.div_mod_to_equations; lia.
Qed.

Lemma days_before_year_parts (n400 n100 n4 n1 : Z) :
  0 <= n400 -> 0 <= n100 <= 3 -> 0 <= n4 <= 24 -> 0 <= n1 <= 3 ->
  days_before_year (n400 * 400 + 1 + n100 * 100 + n4 * 4 + n1)
  = n400 * DI400Y + n100 * DI100Y + n4 * DI4Y + n1 * 365.
Proof.
  intros. unfold days_before_year, DI400Y, DI100Y, DI4Y. cbv zeta.
  replace (n400 * 400 + 1 + n100 * 100 + n4 * 4 + n1 - 1)
    with (n400 * 400 + n100 * 100 + n4 * 4 + n1) by ring.
  set (y' := n400 * 400 + n100 * 100 + n4 * 4 + n1).
  assert (Q4 : y' / 4 = n400 * 100 + n100 * 25 + n4).
  { symmetry. apply (Z.div_unique y' 4 _ n1); unfold y'; lia. }
  assert (Q100 : y' / 100 = n400 * 4 + n100).
  { symmetry. apply (Z.div_unique y' 100 _ (n4 * 4 + n1)); unfold y'; lia. }
  assert (Q400 : y' / 400 = n400).
  { symmetry. apply (Z.div_unique y' 400 _ (n100 * 100 + n4 * 4 + n1)); unfold y'; lia. }
  rewrite Q4, Q100, Q400. unfold y'. ring.
Qed.

(** Names the quotients and remainders [ord2ymd] computes from [n], with
    their ranges. *)
Ltac split_ordinal n :=
  let step a b q r D hi :=
    assert (D : a = b * q + r /\ 0 <= r < b /\ 0 <= q <= hi)
      by (subst q r; pose proof (Z.div_mod a b); pose proof (Z.mod_pos_bound a b);
          pose proof (Z.div_pos a b); lia) in
  unfold DI400Y, DI100Y, DI4Y;
  set (n400 := (n - 1) / 146097); set (r1 := (n - 1) mod 146097);
  set (n100 := r1 / 36524); set (r2 := r1 mod 36524);
  set (n4 := r2 / 1461); set (r3 := r2 mod 1461);
  set (n1 := r3 / 365); set (r4 := r3 mod 365);
  step (n - 1) 146097 n400 r1 ident:(D1) (n - 1);
  step r1 36524 n100 r2 ident:(D2) 4;
  step r2 1461 n4 r3 ident:(D3) 24;
  step r3 365 n1 r4 ident:(D4) 4;
  clearbody n400 r1 n100 r2 n4 r3 n1 r4.

Lemma ord2ymd_spec (n : Z) :
  1 <= n ->
  toordinal (ord2ymd n) = n /\
  1 <= year (ord2ymd n) /\
  1 <= month (ord2ymd n) <= 12 /\
  1 <= day (ord2ymd n) <= days_in_month (year (ord2ymd n)) (month (ord2ymd n)).
Proof.
  intros Hn. unfold ord2ymd, toordinal. cbv zeta. split_ordinal n.
  destruct ((n1 =? 4) || (n100 =? 4)) eqn:Hlast.
  - cbn [year month day].
    assert (Hy : n400 * 400 + 1 + n100 * 100 + n4 * 4 + n1 - 1
                 = n400 * 400 + 1
                   + (if n100 =? 4 then 3 else n100) * 100
                   + (if n100 =? 4 then 24 else n4) * 4 + 3).
    { destruct (n100 =? 4) eqn:E; lia. }
    rewrite Hy. unfold ymd2ord, days_in_month, days_before_month.
    rewrite days_before_year_parts by (destruct (n100 =? 4) eqn:E; lia).
    rewrite is_leap_parts by (destruct (n100 =? 4) eqn:E; lia).
    unfold DI400Y, DI100Y, DI4Y.
    change (index DAYS_BEFORE_MONTH 12) with 334.
    change (index DAYS_IN_MONTH 12) with 31.
    change (12 =? 2) with false. change (2 <? 12) with true.
    change (3 =? 3) with true. cbn [andb orb negb].
    destruct (n100 =? 4) eqn:E.
    + rewrite orb_true_r. lia.
    + assert (E4 : (n4 =? 24) = false) by lia. rewrite E4.
      cbn [andb orb negb]. lia.
  - apply orb_false_iff in Hlast. destruct Hlast as [E1 E100].
    assert (Hleap : (n1 =? 3) && (negb (n4 =? 24) || (n100 =? 3))
                    = is_leap (n400 * 400 + 1 + n100 * 100 + n4 * 4 + n1))
      by (symmetry; apply is_leap_parts; lia).
    rewrite Hleap.
    set (y := n400 * 400 + 1 + n100 * 100 + n4 * 4 + n1).
    pose proof (month_day_spec y r4) as Hmd.
    destruct (month_day r4 (is_leap y)) as [m d].
    cbn [fst snd year month day] in *.
    assert (Hr : 0 <= r4 < 365 + (if is_leap y then 1 else 0))
      by (destruct (is_leap y); lia).
    specialize (Hmd Hr). destruct Hmd as (Hm & Hd & Hsum).
    unfold ymd2ord.
    assert (Hdby : days_before_year y
                   = n400 * DI400Y + n100 * DI100Y + n4 * DI4Y + n1 * 365)
      by (apply days_before_year_parts; lia).
    assert (Hy1 : 1 <= y) by (unfold y; lia).
    rewrite Hdby. unfold DI400Y, DI100Y, DI4Y. lia.
Qed.

Lemma ord2ymd_year_bound (n : Z) :
  1 <= n <= MAXORDINAL -> year (ord2ymd n) <= MAXYEAR.
Proof.
  intros Hn. unfold ord2ymd, MAXORDINAL, MAXYEAR in *. cbv zeta.
  assert (Hn1 : 1 <= n) by lia. split_ordinal n.
  destruct ((n1 =? 4) || (n100 =? 4)) eqn:Hlast.
  - cbn [year]. lia.
  - destruct (month_day r4 _) as [m d]. cbn [year].
    apply orb_false_iff in Hlast. lia.
Qed.

Lemma days_before_year_step (y1 y2 : Z) :
  1 <= y1 < y2 ->
  days_before_year y1 + 365 + (if is_leap y1 then 1 else 0) <= days_before_year y2.
Proof.
  intros H. unfold days_before_year, is_leap. cbv zeta.
  destruct (y1 mod 4 =? 0) eqn:E4; destruct (y1 mod 100 =? 0) eqn:E100;
    destruct (y1 mod 400 =? 0) eqn:E400; cbn [andb orb negb];
    Z.div_mod_to_equations; lia.
Qed.

Lemma month_span (y m1 m2 d1 d2 : Z) :
  1 <= m1 -> m1 < m2 -> m2 <= 12 -> d1 <= days_in_month y m1 -> 1 <= d2 ->
  days_before_month y m1 + d1 < days_before_month y m2 + d2.
Proof.
  intros H1 H2 H3 Hd1 Hd2. revert Hd1.
  unfold days_before_month, days_in_month.
  destruct (is_leap y); month_cases m1; month_cases m2; try lia;
    eval_tables; lia.
Qed.

Lemma toordinal_year_bounds (d : date) :
  valid d ->
  days_before_year (year d) + 1 <= toordinal d
  <= days_before_year (year d) + 365 + (if is_leap (year d) then 1 else 0).
Proof.
  intros (Hy & Hm & Hd). unfold toordinal, ymd2ord.
  revert Hd. unfold days_before_month, days_in_month.
  set (m := month d) in *. clearbody m.
  destruct (is_leap (year d)); month_cases m; eval_tables; lia.
Qed.

(** On valid dates the lexicographic comparison is the comparison of the
    ordinals. *)
Lemma cmp_toordinal (a b : date) :
  valid a -> valid b -> Date.cmp a b = (toordinal a ?= toordinal b).
Proof.
  intros Ha Hb. unfold Date.cmp.
  pose proof (toordinal_year_bounds a Ha) as Ba.
  pose proof (toordinal_year_bounds b Hb) as Bb.
  destruct Ha as (Hya & Hma & Hda), Hb as (Hyb & Hmb & Hdb).
  unfold MINYEAR in *.
  destruct (Z.compare_spec (year a) (year b)) as [Ey | Ly | Ly].
  - unfold toordinal, ymd2ord in *. rewrite Ey in *.
    destruct (Z.compare_spec (month a) (month b)) as [Em | Lm | Lm].
    + rewrite Em. destruct (Z.compare_spec (day a) (day b)); symmetry;
        [apply Z.compare_eq_iff | apply Z.compare_lt_iff | apply Z.compare_gt_iff]; lia.
    + symmetry. apply Z.compare_lt_iff.
      pose proof (month_span (year b) (month a) (month b) (day a) (day b)). lia.
    + symmetry. apply Z.compare_gt_iff.
      pose proof (month_span (year b) (month b) (month a) (day b) (day a)). lia.
  - symmetry. apply Z.compare_lt_iff.
    pose proof (days_before_year_step (year a) (year b)). lia.
  - symmetry. apply Z.compare_gt_iff.
    pose proof (days_before_year_step (year b) (year a)). lia.
Qed.

Lemma leb_toordinal (a b : date) :
  valid a -> valid b -> Date.leb a b = (toordinal a <=? toordinal b).
Proof.
  intros Ha Hb. unfold Date.leb, Z.leb. now rewrite cmp_toordinal.
Qed.

Lemma fromordinal_valid (n : Z) :
  1 <= n <= MAXORDINAL -> valid (fromordinal n).
Proof.
  intros Hn. unfold fromordinal, valid, MINYEAR.
  pose proof (ord2ymd_spec n) as H. pose proof (ord2ymd_year_bound n Hn).
  destruct H as (_ & Hy & Hm & Hd); [lia | ]. repeat split; lia.
Qed.

Lemma toordinal_fromordinal (n : Z) :
  1 <= n -> toordinal (fromordinal n) = n.
Proof. intros Hn. apply ord2ymd_spec; assumption. Qed.

Lemma toordinal_range (d : date) :
  valid d -> 1 <= toordinal d <= MAXORDINAL.
Proof.
  intros Hd. pose proof (toordinal_year_bounds d Hd) as B.
  destruct Hd as (Hy & _). unfold MINYEAR, MAXYEAR, MAXORDINAL in *.
  assert (0 <= days_before_year (year d)).
  { unfold days_before_year. cbv zeta. Z.div_mod_to_equations. lia. }
  assert (days_before_year (year d) + 365 + (if is_leap (year d) then 1 else 0)
          <= 3652059).
  { destruct (Z.eq_dec (year d) 9999) as [E | E].
    - rewrite E. vm_compute. discriminate.
    - pose proof (days_before_year_step (year d) 9999).
      change (days_before_year 9999) with 3651694 in *. lia. }
  lia.
Qed.

(** [d - timedelta(days=n)] is the date [n] days before [d] whenever that
    date exists. *)
Lemma sub_days_ok (d : date) (n : Z) :
  valid d -> 0 <= n < toordinal d ->
  exists s, sub_days d n = Ok s /\ valid s /\ toordinal s = toordinal d - n.
Proof.
  intros Hd Hn. pose proof (toordinal_range d Hd) as R.
  unfold sub_days. cbv zeta.
  assert (E : (0 <? toordinal d - n) && (toordinal d - n <=? MAXORDINAL) = true)
    by (apply andb_true_iff; split; lia).
  rewrite E. eexists. split; [reflexivity | ]. split.
  - apply fromordinal_valid. lia.
  - apply toordinal_fromordinal. lia.
Qed.

Lemma weekday_range (d : date) : 0 <= weekday d <= 6.
Proof. unfold weekday. pose proof (Z.mod_pos_bound (toordinal d + 6) 7). lia. Qed.

Lemma weekday_lt_toordinal (d : date) : valid d -> weekday d < toordinal d.
Proof.
  intros Hd. pose proof (toordinal_range d Hd) as R. unfold weekday.
  Z.div_mod_to_equations. lia.
Qed.

(** Lexicographic comparison needs no validity for these. *)
Lemma cmp_antisym (a b : date) : Date.cmp b a = CompOpp (Date.cmp a b).
Proof.
  unfold Date.cmp.
  rewrite (Z.compare_antisym (year a) (year b)).
  rewrite (Z.compare_antisym (month a) (month b)).
  rewrite (Z.compare_antisym (day a) (day b)).
  destruct (year a ?= year b); cbn; try reflexivity.
  destruct (month a ?= month b); cbn; reflexivity.
Qed.

Lemma cmp_eq_iff (a b : date) : Date.cmp a b = Eq <-> a = b.
Proof.
  unfold Date.cmp. destruct a as [ya ma da], b as [yb mb db]. cbn [year month day].
  split.
  - destruct (Z.compare_spec ya yb); try discriminate.
    destruct (Z.compare_spec ma mb); try discriminate.
    destruct (Z.compare_spec da db); try discriminate.
    intros _. congruence.
  - intros E. injection E as -> -> ->. now rewrite !Z.compare_refl.
Qed.

Lemma eqb_eq (a b : date) : Date.eqb a b = true <-> a = b.
Proof.
  unfold Date.eqb. rewrite <- cmp_eq_iff.
  destruct (Date.cmp a b); split; congruence.
Qed.

Lemma ltb_negb_leb (a b : date) : Date.ltb a b = negb (Date.leb b a).
Proof.
  unfold Date.ltb, Date.leb. rewrite (cmp_antisym a b).
  destruct (Date.cmp a b); reflexivity.
Qed.

Lemma leb_refl (a : date) : Date.leb a a = true.
Proof.
  unfold Date.leb. replace (Date.cmp a a) with Eq; [reflexivity | ].
  symmetry. now apply cmp_eq_iff.
Qed.

End DateFacts.

(** ** Numbers *)

Module NumFacts.

Lemma Qltb_lt (a b : Q) : Qltb a b = true <-> (a < b)%Q.
Proof.
  unfold Qltb. rewrite negb_true_iff. split.
  - intros H. apply Qnot_le_lt. intros L. apply Qle_bool_iff in L. congruence.
  - intros H. destruct (Qle_bool b a) eqn:E; [ | reflexivity].
    apply Qle_bool_iff in E. exfalso. apply (Qlt_not_le _ _ H E).
Qed.

Lemma Qltb_ge (a b : Q) : Qltb a b = false <-> (b <= a)%Q.
Proof.
  unfold Qltb. rewrite negb_false_iff. apply Qle_bool_iff.
Qed.

Lemma min_Qmin (a b : Q) : (min a b == Qmin a b)%Q.
Proof.
  unfold min. destruct (Qltb b a) eqn:E.
  - apply Qltb_lt in E. symmetry. apply Q.min_r. now apply Qlt_le_weak.
  - apply Qltb_ge in E. symmetry. now apply Q.min_l.
Qed.

Lemma min_clamp (a b : Q) : (a <= b)%Q -> min a b = a.
Proof. intros H. unfold min. apply Qltb_ge in H. now rewrite H. Qed.

Lemma round_half_even_comp (x y : Q) :
  (x == y)%Q -> round_half_even x = round_half_even y.
Proof.
  intros E. unfold round_half_even. cbv zeta.
  rewrite (Qfloor_comp _ _ E).
  assert (E' : (x - inject_Z (Qfloor y) == y - inject_Z (Qfloor y))%Q)
    by (rewrite E; reflexivity).
  rewrite (Qcompare_comp _ _ E' _ _ (Qeq_refl (1 # 2))). reflexivity.
Qed.

Lemma round_half_even_mono (x y : Q) :
  (x <= y)%Q -> round_half_even x <= round_half_even y.
Proof.
  intros Hxy. unfold round_half_even. cbv zeta.
  pose proof (Qfloor_resp_le _ _ Hxy) as Hf.
  pose proof (Qfloor_le x) as Hx1. pose proof (Qlt_floor x) as Hx2.
  pose proof (Qfloor_le y) as Hy1. pose proof (Qlt_floor y) as Hy2.
  rewrite inject_Z_plus in Hx2, Hy2. change (inject_Z 1) with 1%Q in Hx2, Hy2.
  destruct (Z.eq_dec (Qfloor x) (Qfloor y)) as [E | N].
  - rewrite E in *. set (f := Qfloor y) in *. clearbody f.
    destruct (Qcompare_spec (x - inject_Z f) (1 # 2));
      destruct (Qcompare_spec (y - inject_Z f) (1 # 2));
      destruct (Z.even f); try lia; exfalso; lra.
  - assert (Hlt : Qfloor x + 1 <= Qfloor y) by lia.
    destruct (Qcompare_spec (x - inject_Z (Qfloor x)) (1 # 2));
      destruct (Qcompare_spec (y - inject_Z (Qfloor y)) (1 # 2));
      destruct (Z.even (Qfloor x)); destruct (Z.even (Qfloor y)); lia.
Qed.

Lemma round1_comp (x y : Q) : (x == y)%Q -> (round1 x == round1 y)%Q.
Proof.
  intros E. unfold round1.
  rewrite (round_half_even_comp (x * 10) (y * 10)); [reflexivity | ].
  rewrite E. reflexivity.
Qed.

Lemma round_half_even_nearest (x : Q) :
  (Qabs (inject_Z (round_half_even x) - x) <= 1 # 2)%Q.
Proof.
  unfold round_half_even. cbv zeta.
  pose proof (Qfloor_le x) as Hlo. pose proof (Qlt_floor x) as Hhi.
  set (f := Qfloor x) in *. clearbody f.
  rewrite inject_Z_plus in Hhi. change (inject_Z 1) with 1%Q in Hhi.
  apply Qabs_Qle_condition.
  destruct (Qcompare_spec (x - inject_Z f) (1 # 2)) as [E | L | G].
  - destruct (Z.even f).
    + split; lra.
    + rewrite inject_Z_plus. change (inject_Z 1) with 1%Q. split; lra.
  - split; lra.
  - rewrite inject_Z_plus. change (inject_Z 1) with 1%Q. split; lra.
Qed.

Lemma round1_rounded (x : Q) : Spec.rounded_to_one_decimal x (round1 x).
Proof.
  unfold Spec.rounded_to_one_decimal, round1. split.
  - exists (round_half_even (x * 10)).
    unfold Qdiv, Qmult, Qinv, inject_Z, Qeq. cbn. lia.
  - pose proof (round_half_even_nearest (x * 10)) as H.
    apply Qabs_Qle_condition in H. apply Qabs_Qle_condition.
    set (k := inject_Z (round_half_even (x * 10))) in *. clearbody k.
    assert (E : (k / 10 == k * (1 # 10))%Q) by (unfold Qdiv; reflexivity).
    rewrite E. split; lra.
Qed.

Lemma round1_0 : (round1 0 == 0)%Q.
Proof. vm_compute. reflexivity. Qed.

Lemma round1_100 : (round1 100 == 100)%Q.
Proof. vm_compute. reflexivity. Qed.

Lemma or_zero_Some (q : Q) : (or_zero (Some q) == q)%Q.
Proof.
  unfold or_zero, truthy. destruct (Qeq_bool q 0) eqn:E; cbn.
  - apply Qeq_bool_iff in E. now rewrite E.
  - reflexivity.
Qed.

Lemma rounded_comp (x x' r r' : Q) :
  (x == x')%Q -> (r == r')%Q ->
  Spec.rounded_to_one_decimal x r -> Spec.rounded_to_one_decimal x' r'.
Proof.
  intros Ex Er [[k Hk] Habs]. split.
  - exists k. now rewrite <- Er.
  - now rewrite <- Ex, <- Er.
Qed.

End NumFacts.

Import DateFacts NumFacts.

(** ** Binary64 rounding *)

Module Binary64Facts.
Import Binary64.

Lemma round_half_even_Z (n : Z) : round_half_even (inject_Z n) = n.
Proof.
  unfold round_half_even. cbv zeta. rewrite Qfloor_Z.
  destruct (Qcompare_spec (inject_Z n - inject_Z n) (1 # 2)) as [E | L | G];
    [exfalso; lra | reflexivity | exfalso; lra].
Qed.

Lemma pow2_pos (e : Z) : (0 < pow2 e)%Q.
Proof. apply Qpower_0_lt. reflexivity. Qed.

Lemma pow2_add (a b : Z) : (pow2 (a + b) == pow2 a * pow2 b)%Q.
Proof. apply Qpower_plus. discriminate. Qed.

Lemma pow2_le (a b : Z) : a <= b -> (pow2 a <= pow2 b)%Q.
Proof. intros H. apply Qpower_le_compat_l; [exact H | discriminate]. Qed.

Lemma pow2_inject (a : Z) : 0 <= a -> (inject_Z (2 ^ a) == pow2 a)%Q.
Proof. intros H. now apply Zpower_Qpower. Qed.

Lemma log2_bounds (n : Z) :
  0 < n -> (pow2 (Z.log2 n) <= inject_Z n < pow2 (Z.log2 n + 1))%Q.
Proof.
  intros Hn. pose proof (Z.log2_spec n Hn) as [H1 H2].
  pose proof (Z.log2_nonneg n) as H0.
  rewrite <- !pow2_inject by lia. rewrite <- Zle_Qle, <- Zlt_Qlt.
  split; [exact H1 | ]. now rewrite <- Z.add_1_r in H2.
Qed.

Lemma ilog2_spec (x : Q) :
  (0 < x)%Q -> (pow2 (ilog2 x) <= x < pow2 (ilog2 x + 1))%Q.
Proof.
  intros Hx. unfold ilog2. cbv zeta.
  destruct x as [n d]. cbn [Qnum Qden].
  assert (Hn : 0 < n) by (unfold Qlt in Hx; cbn in Hx; lia).
  pose proof (log2_bounds n Hn) as [N1 N2].
  pose proof (log2_bounds (Zpos d) (Pos2Z.is_pos d)) as [D1 D2].
  set (ln := Z.log2 n) in *. set (ld := Z.log2 (Zpos d)) in *. clearbody ln ld.
  assert (Ex : (n # d == inject_Z n / inject_Z (Zpos d))%Q) by apply Qmake_Qdiv.
  assert (HD : (0 < inject_Z (Zpos d))%Q) by (change 0%Q with (inject_Z 0); now rewrite <- Zlt_Qlt).
  destruct (Qle_bool (pow2 (ln - ld)) (n # d)) eqn:E.
  - apply Qle_bool_iff in E. split; [exact E | ].
    rewrite Ex. apply Qlt_shift_div_r; [exact HD | ].
    apply Qlt_le_trans with (pow2 (ln + 1)); [exact N2 | ].
    assert (Ep : (pow2 (ln + 1) == pow2 (ln - ld + 1) * pow2 ld)%Q)
      by (rewrite <- pow2_add; f_equiv; lia).
    rewrite Ep. apply Qmult_le_l; [apply pow2_pos | exact D1].
  - assert (L : (n # d < pow2 (ln - ld))%Q).
    { apply Qnot_le_lt. intros H. apply Qle_bool_iff in H. congruence. }
    replace (ln - ld - 1 + 1) with (ln - ld) by lia. split; [ | exact L].
    rewrite Ex. apply Qle_shift_div_l; [exact HD | ].
    apply Qle_trans with (pow2 ln); [ | exact N1].
    assert (Ep : (pow2 ln == pow2 (ln - ld - 1) * pow2 (ld + 1))%Q)
      by (rewrite <- pow2_add; f_equiv; lia).
    rewrite Ep. apply Qmult_le_l; [apply pow2_pos | now apply Qlt_le_weak].
Qed.

Lemma ilog2_unique (x : Q) (k : Z) :
  (pow2 k <= x < pow2 (k + 1))%Q -> ilog2 x = k.
Proof.
  intros [H1 H2].
  assert (Hx : (0 < x)%Q) by (apply Qlt_le_trans with (pow2 k); [apply pow2_pos | exact H1]).
  destruct (ilog2_spec x Hx) as [S1 S2].
  destruct (Z.lt_trichotomy (ilog2 x) k) as [L | [E | G]]; [ | exact E | ]; exfalso.
  - pose proof (pow2_le (ilog2 x + 1) k ltac:(lia)). lra.
  - pose proof (pow2_le (k + 1) (ilog2 x) ltac:(lia)). lra.
Qed.

Lemma ilog2_comp (x y : Q) : (0 < x)%Q -> (x == y)%Q -> ilog2 x = ilog2 y.
Proof.
  intros Hx E. apply ilog2_unique. rewrite E.
  apply ilog2_spec. now rewrite <- E.
Qed.

Lemma ilog2_mono (x y : Q) : (0 < x)%Q -> (x <= y)%Q -> ilog2 x <= ilog2 y.
Proof.
  intros Hx Hxy.
  destruct (ilog2_spec x Hx) as [S1 _].
  destruct (ilog2_spec y) as [_ T2]; [lra | ].
  destruct (Z.le_gt_cases (ilog2 x) (ilog2 y)) as [L | G]; [exact L | exfalso].
  pose proof (pow2_le (ilog2 y + 1) (ilog2 x) ltac:(lia)). lra.
Qed.

(** The significand of a positive number before rounding. *)
Lemma scaled_bounds (x : Q) :
  (0 < x)%Q ->
  (pow2 52 <= x / pow2 (ilog2 x - 52) < pow2 53)%Q.
Proof.
  intros Hx. destruct (ilog2_spec x Hx) as [S1 S2].
  set (e := ilog2 x - 52).
  assert (E1 : (pow2 (ilog2 x) == pow2 52 * pow2 e)%Q)
    by (rewrite <- pow2_add; f_equiv; unfold e; lia).
  assert (E2 : (pow2 (ilog2 x + 1) == pow2 53 * pow2 e)%Q)
    by (rewrite <- pow2_add; f_equiv; unfold e; lia).
  split.
  - apply Qle_shift_div_l; [apply pow2_pos | ]. now rewrite <- E1.
  - apply Qlt_shift_div_r; [apply pow2_pos | ]. now rewrite <- E2.
Qed.

Lemma significand_bounds (x : Q) :
  (0 < x)%Q ->
  2 ^ 52 <= round_half_even (x / pow2 (ilog2 x - 52)) <= 2 ^ 53.
Proof.
  intros Hx. destruct (scaled_bounds x Hx) as [B1 B2].
  rewrite <- (round_half_even_Z (2 ^ 52)), <- (round_half_even_Z (2 ^ 53)).
  split; apply round_half_even_mono.
  - rewrite pow2_inject by lia. exact B1.
  - rewrite pow2_inject by lia. now apply Qlt_le_weak.
Qed.

Lemma rnd_pos_pos (x : Q) : (0 < x)%Q -> (0 < rnd_pos x)%Q.
Proof.
  intros Hx. unfold rnd_pos. cbv zeta.
  apply Qmult_lt_0_compat; [ | apply pow2_pos].
  change 0%Q with (inject_Z 0). rewrite <- Zlt_Qlt.
  pose proof (significand_bounds x Hx). lia.
Qed.

Lemma rnd_pos_comp (x y : Q) : (0 < x)%Q -> (x == y)%Q -> (rnd_pos x == rnd_pos y)%Q.
Proof.
  intros Hx E. unfold rnd_pos. cbv zeta.
  rewrite <- (ilog2_comp x y Hx E).
  rewrite (round_half_even_comp (x / pow2 (ilog2 x - 52)) (y / pow2 (ilog2 x - 52)));
    [reflexivity | apply Qdiv_comp; [exact E | reflexivity]].
Qed.

Lemma rnd_pos_mono (x y : Q) :
  (0 < x)%Q -> (x <= y)%Q -> (rnd_pos x <= rnd_pos y)%Q.
Proof.
  intros Hx Hxy. assert (Hy : (0 < y)%Q) by lra.
  pose proof (ilog2_mono x y Hx Hxy) as He.
  pose proof (significand_bounds x Hx) as [_ Mx].
  pose proof (significand_bounds y Hy) as [My _].
  unfold rnd_pos. cbv zeta.
  set (ex := ilog2 x - 52) in *. set (ey := ilog2 y - 52) in *.
  destruct (Z.eq_dec ex ey) as [E | N].
  - rewrite <- E. apply Qmult_le_compat_r; [ | apply Qlt_le_weak, pow2_pos].
    rewrite <- Zle_Qle. apply round_half_even_mono.
    unfold Qdiv. apply Qmult_le_compat_r; [exact Hxy | ].
    apply Qlt_le_weak, Qinv_lt_0_compat, pow2_pos.
  - rewrite Zle_Qle in Mx, My.
    rewrite (pow2_inject 53) in Mx by lia. rewrite (pow2_inject 52) in My by lia.
    apply Qle_trans with (pow2 53 * pow2 ex)%Q.
    { apply Qmult_le_compat_r; [exact Mx | apply Qlt_le_weak, pow2_pos]. }
    apply Qle_trans with (pow2 52 * pow2 ey)%Q.
    { rewrite <- !pow2_add. apply pow2_le. lia. }
    apply Qmult_le_compat_r; [exact My | apply Qlt_le_weak, pow2_pos].
Qed.

Lemma rnd_0 : rnd 0 = 0%Q.
Proof. reflexivity. Qed.

Lemma rnd_of_pos (x : Q) : (0 < x)%Q -> rnd x = rnd_pos x.
Proof.
  intros H. unfold rnd. destruct (Qcompare_spec x 0); [exfalso; lra | exfalso; lra | reflexivity].
Qed.

Lemma rnd_of_neg (x : Q) : (x < 0)%Q -> rnd x = (- rnd_pos (- x))%Q.
Proof.
  intros H. unfold rnd. destruct (Qcompare_spec x 0); [exfalso; lra | reflexivity | exfalso; lra].
Qed.

Lemma rnd_of_zero (x : Q) : (x == 0)%Q -> rnd x = 0%Q.
Proof.
  intros H. unfold rnd. destruct (Qcompare_spec x 0); [reflexivity | exfalso; lra | exfalso; lra].
Qed.

Lemma rnd_positive (x : Q) : (0 < x)%Q -> (0 < rnd x)%Q.
Proof. intros H. rewrite (rnd_of_pos x H). now apply rnd_pos_pos. Qed.

Lemma rnd_comp (x y : Q) : (x == y)%Q -> (rnd x == rnd y)%Q.
Proof.
  intros E. destruct (Q_dec x 0) as [[L | G] | Z].
  - rewrite (rnd_of_neg x L), (rnd_of_neg y) by lra.
    apply Qopp_comp. apply rnd_pos_comp; [lra | now rewrite E].
  - rewrite (rnd_of_pos x G), (rnd_of_pos y) by lra. now apply rnd_pos_comp.
  - rewrite (rnd_of_zero x Z), (rnd_of_zero y) by lra. reflexivity.
Qed.

Lemma rnd_mono (x y : Q) : (x <= y)%Q -> (rnd x <= rnd y)%Q.
Proof.
  intros H.
  destruct (Q_dec x 0) as [[Lx | Gx] | Zx]; destruct (Q_dec y 0) as [[Ly | Gy] | Zy];
    try (exfalso; lra).
  - rewrite (rnd_of_neg x Lx), (rnd_of_neg y Ly).
    apply Qopp_le_compat. apply rnd_pos_mono; lra.
  - rewrite (rnd_of_neg x Lx), (rnd_of_pos y Gy).
    pose proof (rnd_pos_pos (- x) ltac:(lra)). pose proof (rnd_pos_pos y Gy). lra.
  - rewrite (rnd_of_neg x Lx), (rnd_of_zero y Zy).
    pose proof (rnd_pos_pos (- x) ltac:(lra)). lra.
  - rewrite (rnd_of_pos x Gx), (rnd_of_pos y Gy). now apply rnd_pos_mono.
  - rewrite (rnd_of_zero x Zx), (rnd_of_pos y Gy).
    pose proof (rnd_pos_pos y Gy). lra.
  - rewrite (rnd_of_zero x Zx), (rnd_of_zero y Zy). apply Qle_refl.
Qed.

Lemma rnd_nonneg (x : Q) : (0 <= x)%Q -> (0 <= rnd x)%Q.
Proof. intros H. rewrite <- rnd_0. now apply rnd_mono. Qed.

Lemma rnd_1 : (rnd 1 == 1)%Q.
Proof. vm_compute. reflexivity. Qed.

Lemma rnd_100 : (rnd 100 == 100)%Q.
Proof. vm_compute. reflexivity. Qed.


(** The relative error of one rounding is at most 2^-53. *)
Lemma rnd_error (x : Q) :
  (0 <= x)%Q ->
  (x * (1 - (1 # 9007199254740992)) <= rnd x <= x * (1 + (1 # 9007199254740992)))%Q.
Proof.
  intros H. destruct (Qle_lt_or_eq _ _ H) as [Hx | Hx].
  2:{ rewrite (rnd_of_zero x) by (now symmetry). split; lra. }
  rewrite (rnd_of_pos x Hx). unfold rnd_pos. cbv zeta.
  destruct (scaled_bounds x Hx) as [B1 _].
  pose proof (pow2_pos (ilog2 x - 52)) as HP.
  set (P := pow2 (ilog2 x - 52)) in *.
  pose proof (round_half_even_nearest (x / P)) as Hn.
  apply Qabs_Qle_condition in Hn. destruct Hn as [N1 N2].
  set (m := inject_Z (round_half_even (x / P))) in *. clearbody m.
  assert (E : (x / P * P == x)%Q) by (field; lra).
  set (y := (x / P)%Q) in *. clearbody y.
  rewrite <- (pow2_inject 52) in B1 by lia.
  change (inject_Z (2 ^ 52)) with 4503599627370496%Q in B1.
  assert (HPle : (0 <= P)%Q) by lra.
  pose proof (Qmult_le_compat_r _ _ P N1 HPle) as M1.
  pose proof (Qmult_le_compat_r _ _ P N2 HPle) as M2.
  pose proof (Qmult_le_compat_r _ _ P B1 HPle) as M3.
  clearbody P. split; lra.
Qed.

Lemma truediv_mono (a a' b : Q) :
  (a <= a')%Q -> (0 < b)%Q -> (truediv a b <= truediv a' b)%Q.
Proof.
  intros Ha Hb. unfold truediv. apply rnd_mono. unfold Qdiv.
  apply Qmult_le_compat_r; [now apply rnd_mono | ].
  apply Qlt_le_weak, Qinv_lt_0_compat, rnd_positive, Hb.
Qed.

Lemma truediv_nonneg (a b : Q) : (0 <= a)%Q -> (0 < b)%Q -> (0 <= truediv a b)%Q.
Proof.
  intros Ha Hb. unfold truediv. apply rnd_nonneg. unfold Qdiv.
  apply Qmult_le_0_compat; [now apply rnd_nonneg | ].
  apply Qlt_le_weak, Qinv_lt_0_compat, rnd_positive, Hb.
Qed.

Lemma mul_100_mono (x y : Q) : (x <= y)%Q -> (mul x 100 <= mul y 100)%Q.
Proof.
  intros H. unfold mul. apply rnd_mono.
  apply Qmult_le_compat_r; [now apply rnd_mono | ].
  rewrite rnd_100. discriminate.
Qed.

Lemma mul_100_nonneg (x : Q) : (0 <= x)%Q -> (0 <= mul x 100)%Q.
Proof.
  intros H. unfold mul. apply rnd_nonneg.
  apply Qmult_le_0_compat; [now apply rnd_nonneg | ].
  rewrite rnd_100. discriminate.
Qed.

(** A quotient of at least 1 stays so, and its hundredfold at least 100. *)
Lemma ratio_ge_100 (c t : Q) :
  (0 < t)%Q -> (t <= c)%Q -> (100 <= mul (truediv c t) 100)%Q.
Proof.
  intros Ht Hc.
  pose proof (rnd_positive t Ht) as Ht'. pose proof (rnd_mono t c Hc) as Hc'.
  assert (H1 : (1 <= truediv c t)%Q).
  { unfold truediv. rewrite <- rnd_1 at 1. apply rnd_mono.
    apply Qle_shift_div_l; [exact Ht' | lra]. }
  unfold mul. rewrite <- rnd_100 at 1. apply rnd_mono.
  pose proof (rnd_mono _ _ H1) as H2. rewrite rnd_1 in H2.
  rewrite rnd_100. set (q := rnd (truediv c t)) in *. lra.
Qed.

(** The relative error of the quotient times 100. *)
Lemma ratio_error (c t : Q) :
  (0 <= c)%Q -> (0 < t)%Q ->
  (c / t * 100 * (1 - (1 # 1000000000000000)) <= mul (truediv c t) 100
   <= c / t * 100 * (1 + (1 # 1000000000000000)))%Q.
Proof.
  intros Hc Ht.
  pose proof (rnd_error c Hc) as [C1 C2].
  pose proof (rnd_error t (Qlt_le_weak _ _ Ht)) as [T1 T2].
  pose proof (rnd_positive t Ht) as Ht'. pose proof (rnd_nonneg c Hc) as Hc'.
  assert (Hr : (0 <= c / t)%Q) by (apply Qle_shift_div_l; [exact Ht | lra]).
  assert (Er : (c / t * t == c)%Q) by (field; lra).
  set (r := (c / t)%Q) in *. clearbody r.
  unfold mul, truediv.
  set (c1 := rnd c) in *. set (t1 := rnd t) in *. clearbody c1 t1.
  assert (Hq0 : (r * (1 - (3 # 9007199254740992)) <= c1 / t1
                 <= r * (1 + (3 # 9007199254740992)))%Q).
  { pose proof (Qmult_le_compat_r _ _ r T1 Hr) as M1.
    pose proof (Qmult_le_compat_r _ _ r T2 Hr) as M2.
    split.
    - apply Qle_shift_div_l; [exact Ht' | ]. lra.
    - apply Qle_shift_div_r; [exact Ht' | ]. lra. }
  assert (Hq0' : (0 <= c1 / t1)%Q) by (apply Qle_shift_div_l; [exact Ht' | lra]).
  set (q0 := (c1 / t1)%Q) in *. clearbody q0.
  pose proof (rnd_error q0 Hq0') as [Q1 Q2].
  pose proof (rnd_nonneg q0 Hq0') as Hq.
  set (q := rnd q0) in *. clearbody q.
  pose proof (rnd_error q Hq) as [R1 R2].
  pose proof (rnd_nonneg q Hq) as Hq'.
  set (q' := rnd q) in *. clearbody q'.
  assert (Hp0 : (0 <= q' * rnd 100)%Q) by (rewrite rnd_100; lra).
  pose proof (rnd_error _ Hp0) as [P1 P2].
  set (p := rnd (q' * rnd 100)) in *. clearbody p.
  rewrite rnd_100 in P1, P2.
  split; lra.
Qed.

(** Clamping at 100 keeps the error small. *)
Lemma clamp_error (x y : Q) :
  (0 <= x)%Q ->
  (x * (1 - (1 # 1000000000000000)) <= y <= x * (1 + (1 # 1000000000000000)))%Q ->
  (Qabs (Qmin 100 y - Qmin 100 x) <= 1 # 1000000000000)%Q.
Proof.
  intros Hx [H1 H2]. apply Qabs_Qle_condition.
  destruct (Q.min_spec 100 y) as [[Ly ->] | [Ly ->]];
    destruct (Q.min_spec 100 x) as [[Lx ->] | [Lx ->]]; split; lra.
Qed.

End Binary64Facts.

Import Binary64Facts.

(** ** Tenths nearest to a quotient of decimals *)

Module TenthFacts.

(** Two multiples of a tenth at most half a tenth from [m] are the same,
    unless [m] is halfway between two tenths. *)
Lemma nearest_tenth_unique (m r r' : Q) :
  Spec.rounded_to_one_decimal m r -> Spec.rounded_to_one_decimal m r' ->
  (r == r')%Q \/ exists j : Z, (m == (2 * j + 1) # 20)%Q.
Proof.
  intros [[k Hk] Hr] [[k' Hk'] Hr'].
  apply Qabs_Qle_condition in Hr, Hr'.
  rewrite Hk in *. rewrite Hk' in *.
  assert (Ek : (k # 10 == inject_Z k * (1 # 10))%Q)
    by (unfold Qeq, Qmult, inject_Z; cbn; lia).
  assert (Ek' : (k' # 10 == inject_Z k' * (1 # 10))%Q)
    by (unfold Qeq, Qmult, inject_Z; cbn; lia).
  rewrite Ek in *. rewrite Ek' in *.
  destruct (Z.lt_trichotomy k k') as [L | [E | G]].
  - right. exists k.
    assert (H : (inject_Z k + 1 <= inject_Z k')%Q).
    { change 1%Q with (inject_Z 1). rewrite <- inject_Z_plus, <- Zle_Qle. lia. }
    assert (E2 : ((2 * k + 1) # 20 == inject_Z k * (1 # 10) + (1 # 20))%Q)
      by (unfold Qeq, Qmult, Qplus, inject_Z; cbn [Qnum Qden];
          change (Zpos (1 * 10 * 20)) with 200; lia).
    rewrite E2. set (a := inject_Z k) in *. set (b := inject_Z k') in *.
    clearbody a b. apply Qle_antisym; lra.
  - left. now subst.
  - right. exists k'.
    assert (H : (inject_Z k' + 1 <= inject_Z k)%Q).
    { change 1%Q with (inject_Z 1). rewrite <- inject_Z_plus, <- Zle_Qle. lia. }
    assert (E2 : ((2 * k' + 1) # 20 == inject_Z k' * (1 # 10) + (1 # 20))%Q)
      by (unfold Qeq, Qmult, Qplus, inject_Z; cbn [Qnum Qden];
          change (Zpos (1 * 10 * 20)) with 200; lia).
    rewrite E2. set (a := inject_Z k) in *. set (b := inject_Z k') in *.
    clearbody a b. apply Qle_antisym; lra.
Qed.

(** A rational with denominator [20 * T] that is more than half a tenth
    in absolute value exceeds it by [1 / (20 * T)] at least. *)
Lemma gap_of_multiple (D : Q) (z T : Z) :
  0 < T ->
  (D * inject_Z (20 * T) == inject_Z z)%Q ->
  (1 # 20 < Qabs D)%Q ->
  ((1 # 20) + 1 / inject_Z (20 * T) <= Qabs D)%Q.
Proof.
  intros HT Hz Hgap.
  assert (HW : (0 < inject_Z (20 * T))%Q)
    by (change 0%Q with (inject_Z 0); rewrite <- Zlt_Qlt; lia).
  assert (EW : (inject_Z (20 * T) == 20 * inject_Z T)%Q)
    by (rewrite inject_Z_mult; reflexivity).
  assert (Esum : ((1 # 20) + 1 / inject_Z (20 * T)
                  == (inject_Z T + 1) / inject_Z (20 * T))%Q).
  { rewrite EW in *. field. intros E. rewrite E in HW. discriminate HW. }
  rewrite Esum. apply Qle_shift_div_r; [exact HW | ].
  revert Hgap. apply Qabs_case; intros Hs Hgap.
  - assert (H1 : (inject_Z T < inject_Z z)%Q).
    { rewrite <- Hz, EW. set (t := inject_Z T) in *. clearbody t.
      assert (Ht : (0 < t)%Q) by lra.
      pose proof (Qmult_lt_compat_r _ _ (20 * t) ltac:(lra) Hgap) as H. lra. }
    rewrite <- Zlt_Qlt in H1.
    assert (H2 : T + 1 <= z) by lia. rewrite Zle_Qle, inject_Z_plus in H2.
    rewrite Hz. exact H2.
  - assert (H1 : (inject_Z T < inject_Z (- z))%Q).
    { rewrite inject_Z_opp, <- Hz, EW. set (t := inject_Z T) in *. clearbody t.
      assert (Ht : (0 < t)%Q) by lra.
      pose proof (Qmult_lt_compat_r _ _ (20 * t) ltac:(lra) Hgap) as H. lra. }
    rewrite <- Zlt_Qlt in H1.
    assert (H2 : T + 1 <= - z) by lia.
    rewrite Zle_Qle, inject_Z_plus, inject_Z_opp in H2.
    assert (E : (- D * inject_Z (20 * T) == - inject_Z z)%Q) by (rewrite <- Hz; ring).
    rewrite E. exact H2.
Qed.

(** The same for the distance of a tenth from min(100, 100 C / T). *)
Lemma decimal_ratio_gap (C T k : Z) :
  0 < T ->
  let m := Qmin 100 (inject_Z (100 * C) / inject_Z T) in
  (1 # 20 < Qabs ((k # 10) - m))%Q ->
  ((1 # 20) + 1 / inject_Z (20 * T) <= Qabs ((k # 10) - m))%Q.
Proof.
  intros HT m.
  assert (HT' : (0 < inject_Z T)%Q)
    by (change 0%Q with (inject_Z 0); rewrite <- Zlt_Qlt; lia).
  assert (Ek : (k # 10 == inject_Z k * (1 # 10))%Q)
    by (unfold Qeq, Qmult, inject_Z; cbn; lia).
  destruct (Q.min_spec 100 (inject_Z (100 * C) / inject_Z T)) as [[_ E] | [_ E]];
    fold m in E.
  - apply (gap_of_multiple _ ((2 * k - 2000) * T)); [exact HT | ].
    rewrite E, Ek. unfold Z.sub.
    repeat (rewrite inject_Z_plus || rewrite inject_Z_mult || rewrite inject_Z_opp).
    change (inject_Z 20) with 20%Q. change (inject_Z 2) with 2%Q.
    change (inject_Z 2000) with 2000%Q. ring.
  - apply (gap_of_multiple _ (2 * k * T - 2000 * C)); [exact HT | ].
    rewrite E, Ek. unfold Z.sub.
    repeat (rewrite inject_Z_plus || rewrite inject_Z_mult || rewrite inject_Z_opp).
    change (inject_Z 20) with 20%Q. change (inject_Z 2) with 2%Q.
    change (inject_Z 2000) with 2000%Q. change (inject_Z 100) with 100%Q.
    field. intros Z0. rewrite Z0 in HT'. discriminate HT'.
Qed.

(** For a current value and a target with two decimal places, the target
    below 10^8, the percentage computed in binary64 is a tenth nearest to
    the exact number, and the one [round1] gives unless the exact number is
    halfway between two tenths. *)
Lemma decimal_percentage (c t : Q) (C T : Z) :
  (c == C # 100)%Q -> (t == T # 100)%Q -> 0 <= C -> 0 < T < 10 ^ 10 ->
  let m := Qmin 100 (c / t * 100) in
  let r := round1 (min 100 (Binary64.mul (Binary64.truediv c t) 100)) in
  Spec.rounded_to_one_decimal m r /\
  ((r == round1 m)%Q \/ exists j : Z, (m == (2 * j + 1) # 20)%Q).
Proof.
  intros Ec Et HC HT m r.
  assert (Hc : (0 <= c)%Q) by (rewrite Ec; unfold Qle; cbn; lia).
  assert (Ht : (0 < t)%Q) by (rewrite Et; unfold Qlt; cbn; lia).
  assert (HT' : (0 < inject_Z T)%Q)
    by (change 0%Q with (inject_Z 0); rewrite <- Zlt_Qlt; lia).
  assert (Ex : (c / t * 100 == inject_Z (100 * C) / inject_Z T)%Q).
  { rewrite Ec, Et, !Qmake_Qdiv, inject_Z_mult.
    change (inject_Z 100) with 100%Q. change (inject_Z (Zpos 100)) with 100%Q.
    field. intros Z0. rewrite Z0 in HT'. discriminate HT'. }
  assert (Em : (m == Qmin 100 (inject_Z (100 * C) / inject_Z T))%Q)
    by (unfold m; now rewrite Ex).
  assert (R : Spec.rounded_to_one_decimal
                (Qmin 100 (Binary64.mul (Binary64.truediv c t) 100)) r).
  { apply (rounded_comp (min 100 (Binary64.mul (Binary64.truediv c t) 100)) _ r _).
    - apply min_Qmin.
    - reflexivity.
    - apply round1_rounded. }
  assert (H0 : (0 <= c / t * 100)%Q).
  { assert (H : (0 <= c / t)%Q) by (apply Qle_shift_div_l; [exact Ht | lra]).
    set (q := (c / t)%Q) in *. lra. }
  pose proof (clamp_error (c / t * 100) _ H0 (ratio_error c t Hc Ht)) as Herr.
  fold m in Herr.
  assert (Hnear : Spec.rounded_to_one_decimal m r).
  { destruct R as [[k Hk] R]. split; [now exists k | ].
    destruct (Qlt_le_dec (1 # 20) (Qabs (r - m))) as [Hgap | Hok]; [exfalso | exact Hok].
    assert (Hgap' : (1 # 20 < Qabs ((k # 10) - Qmin 100 (inject_Z (100 * C) / inject_Z T)))%Q)
      by (rewrite <- Hk, <- Em; exact Hgap).
    pose proof (decimal_ratio_gap C T k ltac:(lia) Hgap') as G.
    rewrite <- Hk, <- Em in G.
    assert (HW : (1 # 1000000000000 < 1 / inject_Z (20 * T))%Q).
    { apply Qlt_shift_div_l.
      - change 0%Q with (inject_Z 0). rewrite <- Zlt_Qlt. lia.
      - assert (H : (inject_Z (20 * T) < inject_Z (10 ^ 12))%Q)
          by (rewrite <- Zlt_Qlt; lia).
        change (inject_Z (10 ^ 12)) with 1000000000000%Q in H.
        set (w := inject_Z (20 * T)) in *. lra. }
    apply Qabs_Qle_condition in R, Herr.
    revert G. apply Qabs_case; intros Hs G;
      set (m64 := Qmin 100 (Binary64.mul (Binary64.truediv c t) 100)) in *;
      set (w := (1 / inject_Z (20 * T))%Q) in *; clearbody m m64 r w; lra. }
  split; [exact Hnear | ].
  exact (nearest_tenth_unique m r (round1 m) Hnear (round1_rounded m)).
Qed.

End TenthFacts.

Import TenthFacts.

(** ** Querysets *)

Module QuerysetFacts.
Section Lists.
Context {A B : Type}.

Lemma filter_and (f g : A -> bool) (l : list A) :
  filter f (filter g l) = filter (fun a => g a && f a) l.
Proof.
  induction l as [ | a l IH]; [reflexivity | ]. cbn.
  destruct (g a); cbn; [destruct (f a) | ]; now rewrite IH.
Qed.

Lemma filter_perm (f : A -> bool) (l l' : list A) :
  Permutation l l' -> Permutation (filter f l) (filter f l').
Proof.
  induction 1 as [ | a l l' _ IH | a b l | l l' l'' _ IH1 _ IH2 ]; cbn.
  - constructor.
  - destruct (f a); [now constructor | assumption].
  - destruct (f a), (f b); try apply Permutation_refl; apply perm_swap.
  - now transitivity (filter f l').
Qed.

Lemma count_filter_perm (f : A -> bool) (l l' : list A) :
  Permutation l l' -> count (filter f l) = count (filter f l').
Proof.
  intros H. unfold count. f_equal. apply Permutation_length. now apply filter_perm.
Qed.

Lemma insert_perm (le : A -> A -> bool) (x : A) (l : list A) :
  Permutation (insert le x l) (x :: l).
Proof.
  induction l as [ | y l IH]; cbn; [apply Permutation_refl | ].
  destruct (le x y); [apply Permutation_refl | ].
  transitivity (y :: x :: l); [now constructor | apply perm_swap].
Qed.

Lemma order_by_perm (le : A -> A -> bool) (l : list A) :
  Permutation (order_by le l) l.
Proof.
  induction l as [ | a l IH]; cbn; [constructor | ].
  transitivity (a :: order_by le l); [apply insert_perm | now constructor].
Qed.

Section Sorting.
Variable le : A -> A -> bool.
Hypothesis le_total : forall a b, le a b = true \/ le b a = true.
Hypothesis le_trans : forall a b c, le a b = true -> le b c = true -> le a c = true.

Lemma insert_sorted (x : A) (l : list A) :
  StronglySorted (precedes le) l -> StronglySorted (precedes le) (insert le x l).
Proof.
  induction 1 as [ | y l Hs IH Hall]; cbn.
  - repeat constructor.
  - destruct (le x y) eqn:E.
    + constructor; [now constructor | ].
      constructor; [exact E | ].
      apply Forall_forall. intros z Hz.
      rewrite Forall_forall in Hall. eapply le_trans; [exact E | now apply Hall].
    + constructor; [exact IH | ].
      apply Forall_forall. intros z Hz.
      apply (Permutation_in _ (insert_perm le x l)) in Hz.
      destruct Hz as [<- | Hz].
      * destruct (le_total x y) as [H | H]; [congruence | exact H].
      * rewrite Forall_forall in Hall. now apply Hall.
Qed.

Lemma order_by_sorted (l : list A) : StronglySorted (precedes le) (order_by le l).
Proof.
  induction l as [ | a l IH]; cbn; [constructor | now apply insert_sorted].
Qed.

(** The first [n] rows of a sorted queryset come before all the others. *)
Lemma firstn_before_skipn (n : nat) (l : list A) :
  StronglySorted (precedes le) l ->
  forall a b, In a (firstn n l) -> In b (skipn n l) -> precedes le a b.
Proof.
  intros Hs. revert n. induction Hs as [ | y l Hs IH Hall]; intros n a b Ha Hb.
  - destruct n; contradiction.
  - destruct n as [ | n]; [contradiction | ]. cbn in Ha, Hb.
    destruct Ha as [<- | Ha].
    + rewrite Forall_forall in Hall. apply Hall.
      rewrite <- (firstn_skipn n l). apply in_or_app. now right.
    + now apply (IH n).
Qed.

Lemma firstn_sorted (n : nat) (l : list A) :
  StronglySorted (precedes le) l -> StronglySorted (precedes le) (firstn n l).
Proof.
  intros Hs. revert n. induction Hs as [ | y l Hs IH Hall]; intros n.
  - destruct n; constructor.
  - destruct n as [ | n]; cbn; [constructor | ].
    constructor; [apply IH | ].
    rewrite Forall_forall in *. intros z Hz. apply Hall.
    rewrite <- (firstn_skipn n l). apply in_or_app. now left.
Qed.
End Sorting.

Lemma mapM_ok (f : A -> result B) (l : list A) :
  (forall a, In a l -> exists b, f a = Ok b) ->
  exists bs, mapM f l = Ok bs /\ Forall2 (fun a b => f a = Ok b) l bs.
Proof.
  induction l as [ | a l IH]; intros H; cbn.
  - exists []. split; [reflexivity | constructor].
  - destruct (H a (or_introl eq_refl)) as (b & Hb).
    destruct IH as (bs & Hbs & Hall); [intros x Hx; apply H; now right | ].
    exists (b :: bs). rewrite Hb, Hbs. cbn. split; [reflexivity | now constructor].
Qed.

Lemma fold_left_count (P : B -> bool) (l : list B) (n : Z) :
  fold_left (fun n b => if P b then n + 1 else n) l n = n + count (filter P l).
Proof.
  revert n. induction l as [ | b l IH]; intros n; cbn.
  - unfold count. cbn. lia.
  - rewrite IH. destruct (P b); unfold count; cbn [filter length]; lia.
Qed.

Lemma count_filter_Forall2 (R : A -> B -> Prop) (P : A -> bool) (P' : B -> bool)
    (l : list A) (bs : list B) :
  Forall2 R l bs -> (forall a b, R a b -> P' b = P a) ->
  count (filter P' bs) = count (filter P l).
Proof.
  intros H HP. induction H as [ | a b l bs Hab _ IH]; [reflexivity | ].
  cbn. rewrite (HP a b Hab). unfold count in *.
  destruct (P a); cbn [length]; lia.
Qed.
End Lists.
End QuerysetFacts.

Import QuerysetFacts.

(** ** Goal progress *)

Module ProgressFacts.

(** The window [get_progress] evaluates a goal of type [ty] over. *)
Lemma window_ok (today : date) (ty : Goal.GoalType) :
  valid today ->
  exists start,
    match ty with
    | Goal.DAILY => Ok (today, today)
    | Goal.WEEKLY =>
        start <- Date.sub_days today (Date.weekday today) ;; Ok (start, today)
    | Goal.MONTHLY => Ok (Date.replace_day1 today, today)
    end = Ok (start, today)
    /\ match ty with
       | Goal.DAILY => start = today
       | Goal.WEEKLY =>
           valid start /\ toordinal start = toordinal today - weekday today
       | Goal.MONTHLY => start = mkdate (year today) (month today) 1
       end.
Proof.
  intros Hv. destruct ty.
  - exists today. split; reflexivity.
  - destruct (sub_days_ok today (weekday today) Hv) as (s & Hs & Hvs & Hord).
    { pose proof (weekday_range today). pose proof (weekday_lt_toordinal today Hv). lia. }
    exists s. rewrite Hs. cbn. auto.
  - eexists. split; reflexivity.
Qed.

Lemma get_progress_ok (metrics : list HealthMetric.t) (today : date) (g : Goal.t) :
  valid today ->
  exists p, GoalSerializer.get_progress metrics today g = Ok p.
Proof.
  intros Hv. unfold GoalSerializer.get_progress.
  destruct (window_ok today (Goal.goal_type g) Hv) as (start & -> & _).
  cbn [bind]. eexists. reflexivity.
Qed.

End ProgressFacts.
Import ProgressFacts.

(** C2: the evaluation window ends today and starts today for a DAILY
    goal, on the Monday of today's week for a WEEKLY goal (a Monday that is
    today or one of the six days before it), and on the first day of
    today's month for a MONTHLY goal. *)
Theorem window_by_goal_period (metrics : list HealthMetric.t) (today : date)
    (g : Goal.t) :
  valid today ->
  exists p,
    GoalSerializer.get_progress metrics today g = Ok p /\
    Progress.period_end p = today /\
    match Goal.goal_type g with
    | Goal.DAILY => Progress.period_start p = today
    | Goal.WEEKLY =>
        valid (Progress.period_start p) /\
        weekday (Progress.period_start p) = 0 /\
        toordinal (Progress.period_start p) <= toordinal today
          <= toordinal (Progress.period_start p) + 6 /\
        Date.leb (Progress.period_start p) today = true
    | Goal.MONTHLY =>
        year (Progress.period_start p) = year today /\
        month (Progress.period_start p) = month today /\
        day (Progress.period_start p) = 1 /\
        Date.leb (Progress.period_start p) today = true
    end.
Proof.
  intros Hv. unfold GoalSerializer.get_progress.
  destruct (window_ok today (Goal.goal_type g) Hv) as (start & -> & Hstart).
  cbn [bind]. eexists. split; [reflexivity | ].
  cbn [Progress.period_end Progress.period_start]. split; [reflexivity | ].
  destruct (Goal.goal_type g).
  - exact Hstart.
  - destruct Hstart as [Hvs Hord]. pose proof (weekday_range today) as Hw.
    assert (Hle : toordinal start <= toordinal today <= toordinal start + 6) by lia.
    split; [exact Hvs | ]. split; [ | split; [exact Hle | ]].
    + unfold weekday in *. rewrite Hord. Z.div_mod_to_equations. lia.
    + rewrite leb_toordinal by assumption. apply Z.leb_le. lia.
  - subst start. cbn [year month day]. repeat split.
    unfold Date.leb, Date.cmp. cbn [year month day].
    rewrite !Z.compare_refl. destruct Hv as (_ & _ & Hd).
    destruct (Z.compare_spec 1 (day today)); try reflexivity. lia.
Qed.

Lemma window_by_goal_period_witness :
  valid Sample.today /\
  exists p,
    GoalSerializer.get_progress Sample.week_metrics Sample.today
      (Sample.goal 2 20000 Goal.WEEKLY true None) = Ok p /\
    Progress.period_end p = Sample.today /\
    valid (Progress.period_start p) /\
    weekday (Progress.period_start p) = 0 /\
    toordinal (Progress.period_start p) <= toordinal Sample.today
      <= toordinal (Progress.period_start p) + 6 /\
    Date.leb (Progress.period_start p) Sample.today = true.
Proof.
  assert (Hv : valid Sample.today) by (repeat split; discriminate).
  split; [exact Hv | ].
  exact (window_by_goal_period Sample.week_metrics Sample.today
           (Sample.goal 2 20000 Goal.WEEKLY true None) Hv).
Defined.

(** C1: with a positive target the percentage is the number
    min(100, current_value / target_value * 100) as binary64 arithmetic
    computes it, rounded to one decimal place; for a current value that is
    not negative the computed number is within 10^-12 of the exact one and
    the percentage within 0.05 + 10^-12 of it. The percentage is 0 when the
    target is 0, and exactly 100 once the current value reaches a positive
    target. When the current value and the target have two decimal places
    (as every sum of observation values and every target has; the target
    below 10^8), the percentage is a tenth nearest to the exact number, and
    it is the rounding of the exact number unless that number is halfway
    between two tenths. *)
Theorem percentage_formula (metrics : list HealthMetric.t) (today : date)
    (g : Goal.t) :
  valid today ->
  exists p,
    GoalSerializer.get_progress metrics today g = Ok p /\
    Progress.target_value p = Goal.target_value g /\
    let c := Progress.current_value p in
    let t := Goal.target_value g in
    let x := Binary64.mul (Binary64.truediv c t) 100 in
    ((0 < t)%Q ->
     (Progress.percentage p == round1 (Qmin 100 x))%Q /\
     Spec.rounded_to_one_decimal (Qmin 100 x) (Progress.percentage p) /\
     ((0 <= c)%Q ->
      (Qabs (Qmin 100 x - Qmin 100 (c / t * 100)) <= 1 # 1000000000000)%Q /\
      (Qabs (Progress.percentage p - Qmin 100 (c / t * 100))
       <= (1 # 20) + (1 # 1000000000000))%Q)) /\
    ((t == 0)%Q -> (Progress.percentage p == 0)%Q) /\
    ((0 < t)%Q -> (t <= c)%Q -> (Progress.percentage p == 100)%Q) /\
    (forall C T : Z,
       (c == C # 100)%Q -> (t == T # 100)%Q -> 0 <= C -> 0 < T < 10 ^ 10 ->
       Spec.rounded_to_one_decimal (Qmin 100 (c / t * 100)) (Progress.percentage p) /\
       ((Progress.percentage p == round1 (Qmin 100 (c / t * 100)))%Q \/
        exists j : Z, (Qmin 100 (c / t * 100) == (2 * j + 1) # 20)%Q)).
Proof.
  intros Hv. unfold GoalSerializer.get_progress.
  destruct (window_ok today (Goal.goal_type g) Hv) as (start & -> & _).
  cbn [bind]. eexists. split; [reflexivity | ].
  cbn [Progress.target_value Progress.current_value Progress.percentage].
  unfold float. split; [reflexivity | ]. cbv zeta.
  set (c := match Goal.goal_type g with Goal.DAILY => _ | _ => _ end).
  set (t := Goal.target_value g). clearbody c t.
  set (x := Binary64.mul (Binary64.truediv c t) 100).
  split; [ | split; [ | split]].
  - intros Ht. pose proof Ht as Hb. apply Qltb_lt in Hb. rewrite Hb.
    assert (E : (round1 (min 100 x) == round1 (Qmin 100 x))%Q)
      by (apply round1_comp, min_Qmin).
    assert (R : Spec.rounded_to_one_decimal (Qmin 100 x) (round1 (min 100 x))).
    { apply (rounded_comp (min 100 x) _ (round1 (min 100 x)) _).
      - apply min_Qmin.
      - reflexivity.
      - apply round1_rounded. }
    split; [exact E | ]. split; [exact R | ].
    intros Hc.
    pose proof (clamp_error (c / t * 100) x) as Herr.
    assert (H0 : (0 <= c / t * 100)%Q).
    { assert (H : (0 <= c / t)%Q) by (apply Qle_shift_div_l; [exact Ht | lra]).
      set (r := (c / t)%Q) in *. lra. }
    specialize (Herr H0 (ratio_error c t Hc Ht)).
    split; [exact Herr | ].
    destruct R as [_ R]. apply Qabs_Qle_condition in R, Herr.
    apply Qabs_Qle_condition.
    set (m := Qmin 100 x) in *. set (m' := Qmin 100 (c / t * 100)) in *.
    set (r := round1 (min 100 x)) in *. clearbody m m' r. split; lra.
  - intros Ht. assert (E : Qltb 0 t = false) by (apply Qltb_ge; lra).
    rewrite E. apply round1_0.
  - intros Ht Hc. pose proof (ratio_ge_100 c t Ht Hc) as H.
    apply Qltb_lt in Ht. rewrite Ht. fold x in H. rewrite (min_clamp _ _ H).
    apply round1_100.
  - intros C T Ec Et HC HT.
    assert (Ht : Qltb 0 t = true)
      by (apply Qltb_lt; rewrite Et; unfold Qlt; cbn; lia).
    rewrite Ht. exact (decimal_percentage c t C T Ec Et HC HT).
Qed.

Lemma percentage_formula_witness :
  valid Sample.today /\
  exists p,
    GoalSerializer.get_progress [Sample.obs 1 23 Sample.today 10] Sample.today
      (Sample.goal 1 80 Goal.DAILY true None) = Ok p /\
    (Progress.percentage p == 287 # 10)%Q /\
    (Qabs (Progress.percentage p - (115 # 4)) <= (1 # 20) + (1 # 1000000000000))%Q /\
    Spec.rounded_to_one_decimal (115 # 4) (Progress.percentage p).
Proof.
  assert (Hv : valid Sample.today) by (repeat split; discriminate).
  split; [exact Hv | ].
  destruct (percentage_formula [Sample.obs 1 23 Sample.today 10] Sample.today
              (Sample.goal 1 80 Goal.DAILY true None) Hv)
    as (p & Hp & _ & Hformula & _ & _ & Hdecimal).
  exists p. split; [exact Hp | ].
  cbv zeta in Hformula, Hdecimal.
  change (Goal.target_value (Sample.goal 1 80 Goal.DAILY true None)) with 80%Q
    in Hformula, Hdecimal.
  assert (Ex : (Qmin 100 (Progress.current_value p / 80 * 100) == 115 # 4)%Q)
    by (injection Hp as <-; vm_compute; reflexivity).
  destruct Hformula as (E & _ & Hnear); [reflexivity | ].
  destruct Hnear as [_ Hnear].
  { injection Hp as <-. vm_compute. discriminate. }
  destruct (Hdecimal 2300 8000) as [Hrounded _].
  { injection Hp as <-. vm_compute. reflexivity. }
  { reflexivity. }
  { lia. }
  { lia. }
  split; [ | split].
  - rewrite E. injection Hp as <-. vm_compute. reflexivity.
  - apply Qabs_Qle_condition in Hnear. apply Qabs_Qle_condition.
    set (m := Qmin 100 (Progress.current_value p / 80 * 100)) in *. clearbody m.
    split; lra.
  - exact (rounded_comp _ _ _ _ Ex (Qeq_refl _) Hrounded).
Defined.

(** The percentage is not always the rounding of the exact number: with a
    current value of 23 and a target of 80 the exact number is 28.75,
    halfway between two tenths, which rounds to 28.8; the quotient computed
    in binary64 is a little under 0.2875, its hundredfold a little under
    28.75, and the percentage is 28.7. *)
Lemma percentage_tie_counterexample :
  exists p,
    GoalSerializer.get_progress [Sample.obs 1 23 Sample.today 10] Sample.today
      (Sample.goal 1 80 Goal.DAILY true None) = Ok p /\
    (Progress.current_value p == 23)%Q /\
    (Progress.target_value p == 80)%Q /\
    (Qmin 100 (Progress.current_value p / Progress.target_value p * 100)
     == 115 # 4)%Q /\
    (115 # 4 == (2 * 287 + 1) # 20)%Q /\
    (round1 (115 # 4) == 288 # 10)%Q /\
    (Binary64.mul (Binary64.truediv 23 80) 100 < 115 # 4)%Q /\
    (Progress.percentage p == 287 # 10)%Q /\
    ~ (Progress.percentage p
       == round1 (Qmin 100 (Progress.current_value p
                            / Progress.target_value p * 100)))%Q.
Proof.
  eexists. split; [vm_compute; reflexivity | ].
  repeat split; try (vm_compute; reflexivity); vm_compute; discriminate.
Qed.

(** The example of the specification: observations of 3 and 5 in the
    window give a DAILY goal the value 8 and a WEEKLY or MONTHLY goal the
    value 4. *)
Example aggregation_3_5 :
  forall ty,
    exists p,
      GoalSerializer.get_progress
        (match ty with Goal.DAILY => Sample.day_metrics | _ => Sample.week_metrics end)
        Sample.today (Sample.goal 1 10 ty true None) = Ok p /\
      (Progress.current_value p
       == match ty with Goal.DAILY => 8 | _ => 4 end)%Q.
Proof.
  intros []; eexists; (split; [vm_compute; reflexivity | vm_compute; reflexivity]).
Qed.

(** C6: two goals that are the same in every field but the direction have
    the same progress snapshot. *)
Theorem progress_ignores_direction (metrics : list HealthMetric.t) (today : date)
    (g1 g2 : Goal.t) :
  Spec.same_but_direction g1 g2 ->
  GoalSerializer.get_progress metrics today g1
  = GoalSerializer.get_progress metrics today g2.
Proof.
  intros (_ & Hu & Hmt & Ht & Hty & _).
  unfold GoalSerializer.get_progress. now rewrite Hu, Hmt, Ht, Hty.
Qed.

Lemma progress_ignores_direction_witness :
  GoalSerializer.get_progress Sample.day_metrics Sample.today
    (Sample.goal 1 10 Goal.DAILY true None)
  = GoalSerializer.get_progress Sample.day_metrics Sample.today
      (Goal.set_direction (Sample.goal 1 10 Goal.DAILY true None) Goal.DECREASE).
Proof.
  apply progress_ignores_direction. repeat split.
Defined.

(** ** The dashboard *)

Module OrderingFacts.

Lemma cmp_Gt_iff (a b : date) :
  Date.cmp a b = Gt <->
  year b < year a
  \/ (year a = year b /\ (month b < month a
                          \/ (month a = month b /\ day b < day a))).
Proof.
  unfold Date.cmp.
  destruct (Z.compare_spec (year a) (year b));
    destruct (Z.compare_spec (month a) (month b));
    destruct (Z.compare_spec (day a) (day b));
    split; intros; try discriminate; try reflexivity; try lia.
Qed.

Lemma metric_ordering_iff (a b : HealthMetric.t) :
  HealthMetric.ordering a b = true <-> Spec.at_least_as_recent a b.
Proof.
  unfold HealthMetric.ordering, Spec.at_least_as_recent.
  destruct (Date.cmp (HealthMetric.recorded_date a) (HealthMetric.recorded_date b)) eqn:E.
  - apply cmp_eq_iff in E. rewrite Z.leb_le. split.
    + intros H. right. now split.
    + intros [H | [_ H]]; [discriminate | exact H].
  - split; [discriminate | ].
    intros [H | [H _]]; [discriminate | ].
    apply cmp_eq_iff in H. congruence.
  - split; [now left | reflexivity].
Qed.

Lemma at_least_as_recent_iff (a b : HealthMetric.t) :
  Spec.at_least_as_recent a b <->
  let da := HealthMetric.recorded_date a in
  let db := HealthMetric.recorded_date b in
  year db < year da
  \/ (year da = year db
      /\ (month db < month da
          \/ (month da = month db
              /\ (day db < day da
                  \/ (day da = day db
                      /\ HealthMetric.created_at b <= HealthMetric.created_at a))))).
Proof.
  unfold Spec.at_least_as_recent. cbv zeta. rewrite cmp_Gt_iff.
  destruct (HealthMetric.recorded_date a) as [ya ma da].
  destruct (HealthMetric.recorded_date b) as [yb mb db].
  cbn [year month day]. split.
  - intros [H | [H Hc]]; [lia | ]. injection H as -> -> ->. lia.
  - intros H.
    destruct (Z.eq_dec ya yb) as [-> | ]; [ | lia].
    destruct (Z.eq_dec ma mb) as [-> | ]; [ | lia].
    destruct (Z.eq_dec da db) as [-> | ]; [ | lia].
    right. split; [reflexivity | lia].
Qed.

Lemma metric_ordering_total (a b : HealthMetric.t) :
  HealthMetric.ordering a b = true \/ HealthMetric.ordering b a = true.
Proof.
  rewrite !metric_ordering_iff, !at_least_as_recent_iff. cbv zeta. lia.
Qed.

Lemma metric_ordering_trans (a b c : HealthMetric.t) :
  HealthMetric.ordering a b = true -> HealthMetric.ordering b c = true ->
  HealthMetric.ordering a c = true.
Proof.
  rewrite !metric_ordering_iff, !at_least_as_recent_iff. cbv zeta. lia.
Qed.

Lemma StronglySorted_weaken {A : Type} (R R' : A -> A -> Prop) (l : list A) :
  (forall a b, R a b -> R' a b) -> StronglySorted R l -> StronglySorted R' l.
Proof.
  intros HR. induction 1 as [ | a l _ IH Hall]; constructor; [exact IH | ].
  rewrite Forall_forall in *. auto.
Qed.

End OrderingFacts.
Import OrderingFacts.

Module DashboardFacts.

(** The dashboard of a user on a date from 8 January of year 1 on is
    computed without an exception; [week_ago] and the serialized goals are
    as named here. *)
Lemma list_ok (db : Database) (user : Z) (today : date) :
  valid today -> 7 < toordinal today ->
  exists week_ago goal_data r,
    valid week_ago /\ toordinal week_ago = toordinal today - 7 /\
    Forall2 (fun g gd =>
               GoalSerializer.to_representation (health_metrics db) today g = Ok gd)
      (DashboardViewSet.active_goals_queryset db user today) goal_data /\
    DashboardViewSet.list db user today = Ok r /\
    DashboardViewSet.total_metrics_logged r
    = count (filter (fun m => HealthMetric.user m =? user) (health_metrics db)) /\
    DashboardViewSet.metrics_this_week r
    = count (filter (fun m => (HealthMetric.user m =? user)
                              && Date.leb week_ago (HealthMetric.recorded_date m))
               (health_metrics db)) /\
    DashboardViewSet.active_goals r
    = count (DashboardViewSet.active_goals_queryset db user today) /\
    DashboardViewSet.goals_on_track r
    = count (filter (fun gd =>
                       Qle_bool 50 (Progress.percentage (GoalSerializer.progress gd)))
               goal_data) /\
    DashboardViewSet.recent_metrics r
    = firstn 5 (order_by HealthMetric.ordering
                  (filter (fun m => HealthMetric.user m =? user) (health_metrics db))) /\
    DashboardViewSet.goal_progress r = goal_data.
Proof.
  intros Hv H7.
  destruct (sub_days_ok today 7 Hv) as (w & Hw & Hvw & Hord); [lia | ].
  destruct (mapM_ok (GoalSerializer.to_representation (health_metrics db) today)
              (DashboardViewSet.active_goals_queryset db user today))
    as (gd & Hgd & Hall).
  { intros g _. unfold GoalSerializer.to_representation.
    destruct (get_progress_ok (health_metrics db) today g Hv) as (p & ->).
    cbn. eexists. reflexivity. }
  exists w, gd. unfold DashboardViewSet.list. rewrite Hw. cbn [bind]. rewrite Hgd.
  cbn [bind]. eexists.
  split; [exact Hvw | ]. split; [exact Hord | ]. split; [exact Hall | ].
  split; [reflexivity | ]. cbn. rewrite fold_left_count.
  repeat split; reflexivity.
Qed.

Lemma not_expired_is_expired (today : date) (g : Goal.t) :
  Spec.not_expired today g = negb (Goal.is_expired today g).
Proof.
  unfold Spec.not_expired, Goal.is_expired.
  destruct (Goal.end_date g) as [e | ]; [ | reflexivity].
  rewrite ltb_negb_leb. now rewrite negb_involutive.
Qed.

Lemma active_goals_queryset_spec (db : Database) (user : Z) (today : date) :
  Permutation (DashboardViewSet.active_goals_queryset db user today)
    (filter (fun g => (Goal.user g =? user) && Goal.is_active g
                      && Spec.not_expired today g) (goals db)).
Proof.
  unfold DashboardViewSet.active_goals_queryset, exclude.
  etransitivity; [apply order_by_perm | ].
  rewrite filter_and. apply Permutation_refl'.
  apply filter_ext. intros g. f_equal.
  rewrite not_expired_is_expired. reflexivity.
Qed.

End DashboardFacts.
Import DashboardFacts.

(** C4: the dashboard counts as active the user's goals that are active
    and not expired, and as on track those of them whose progress
    percentage is at least 50. *)
Theorem dashboard_goal_counts (db : Database) (user : Z) (today : date) :
  valid today -> 7 < toordinal today ->
  exists r,
    DashboardViewSet.list db user today = Ok r /\
    DashboardViewSet.goals_on_track r
    = count (filter (fun g => (Goal.user g =? user) && Goal.is_active g
                              && Spec.not_expired today g
                              && Spec.on_track (health_metrics db) today g)
               (goals db)) /\
    DashboardViewSet.active_goals r
    = count (filter (fun g => (Goal.user g =? user) && Goal.is_active g
                              && Spec.not_expired today g)
               (goals db)).
Proof.
  intros Hv H7.
  destruct (list_ok db user today Hv H7)
    as (w & gd & r & _ & _ & Hall & Hr & _ & _ & Hactive & Htrack & _).
  exists r. split; [exact Hr | ]. split.
  - rewrite Htrack.
    rewrite (count_filter_Forall2 _ (Spec.on_track (health_metrics db) today) _ _ _ Hall).
    + rewrite (count_filter_perm _ _ _ (active_goals_queryset_spec db user today)).
      now rewrite filter_and.
    + intros g d Hgd. unfold GoalSerializer.to_representation in Hgd.
      unfold Spec.on_track.
      destruct (GoalSerializer.get_progress (health_metrics db) today g); cbn in Hgd;
        [ | discriminate].
      injection Hgd as <-. reflexivity.
  - rewrite Hactive. unfold count. f_equal. apply Permutation_length.
    apply active_goals_queryset_spec.
Qed.

Lemma dashboard_goal_counts_witness :
  valid Sample.today /\ 7 < toordinal Sample.today /\
  exists r,
    DashboardViewSet.list Sample.db 1 Sample.today = Ok r /\
    DashboardViewSet.goals_on_track r = 1 /\
    DashboardViewSet.active_goals r = 2.
Proof.
  assert (Hv : valid Sample.today) by (repeat split; discriminate).
  assert (H7 : 7 < toordinal Sample.today) by reflexivity.
  split; [exact Hv | ]. split; [exact H7 | ].
  destruct (dashboard_goal_counts Sample.db 1 Sample.today Hv H7)
    as (r & Hr & Htrack & Hactive).
  exists r. split; [exact Hr | ]. rewrite Htrack, Hactive.
  split; vm_compute; reflexivity.
Defined.

(** The scenarios of the specification: with no observation the goal of
    10000 is at 0 percent and not on track; with 8000 logged today it is at
    80 percent and on track. *)
Example scenario_no_observation :
  exists r gd,
    DashboardViewSet.list (Sample.db_goal []) 1 Sample.today = Ok r /\
    DashboardViewSet.active_goals r = 1 /\
    DashboardViewSet.goals_on_track r = 0 /\
    DashboardViewSet.total_metrics_logged r = 0 /\
    DashboardViewSet.recent_metrics r = [] /\
    DashboardViewSet.goal_progress r = [gd] /\
    (Progress.current_value (GoalSerializer.progress gd) == 0)%Q /\
    (Progress.target_value (GoalSerializer.progress gd) == 10000)%Q /\
    (Progress.percentage (GoalSerializer.progress gd) == 0)%Q.
Proof.
  eexists. eexists. split; [vm_compute; reflexivity | ].
  cbn [DashboardViewSet.active_goals DashboardViewSet.goals_on_track
       DashboardViewSet.total_metrics_logged DashboardViewSet.recent_metrics
       DashboardViewSet.goal_progress GoalSerializer.progress
       Progress.current_value Progress.target_value Progress.percentage].
  repeat split; reflexivity.
Qed.

Example scenario_8000_logged :
  exists r gd,
    DashboardViewSet.list (Sample.db_goal [Sample.obs 1 8000 Sample.today 10])
      1 Sample.today = Ok r /\
    DashboardViewSet.active_goals r = 1 /\
    DashboardViewSet.goals_on_track r = 1 /\
    DashboardViewSet.goal_progress r = [gd] /\
    (Progress.percentage (GoalSerializer.progress gd) == 80)%Q.
Proof.
  eexists. eexists. split; [vm_compute; reflexivity | ].
  cbn [DashboardViewSet.active_goals DashboardViewSet.goals_on_track
       DashboardViewSet.goal_progress GoalSerializer.progress Progress.percentage].
  repeat split; reflexivity.
Qed.

(** C5, as the code has it: the dashboard counts as this week's the user's
    observations dated seven days before today or later, and as the total
    all the observations of the user. *)
Theorem dashboard_observation_counts (db : Database) (user : Z) (today : date) :
  valid today -> 7 < toordinal today ->
  Forall (fun m => valid (HealthMetric.recorded_date m)) (health_metrics db) ->
  exists r,
    DashboardViewSet.list db user today = Ok r /\
    DashboardViewSet.metrics_this_week r
    = count (filter (fun m => (HealthMetric.user m =? user)
                              && (toordinal today - 7
                                  <=? toordinal (HealthMetric.recorded_date m)))
               (health_metrics db)) /\
    DashboardViewSet.total_metrics_logged r
    = count (filter (fun m => HealthMetric.user m =? user) (health_metrics db)).
Proof.
  intros Hv H7 Hrows.
  destruct (list_ok db user today Hv H7)
    as (w & gd & r & Hvw & Hord & _ & Hr & Htotal & Hweek & _).
  exists r. split; [exact Hr | ]. split; [ | exact Htotal].
  rewrite Hweek. f_equal. apply filter_ext_in. intros m Hm.
  rewrite Forall_forall in Hrows.
  rewrite (leb_toordinal _ _ Hvw (Hrows m Hm)), Hord. reflexivity.
Qed.

Lemma dashboard_observation_counts_witness :
  valid Sample.today /\ 7 < toordinal Sample.today /\
  Forall (fun m => valid (HealthMetric.recorded_date m)) (health_metrics Sample.db) /\
  exists r,
    DashboardViewSet.list Sample.db 1 Sample.today = Ok r /\
    DashboardViewSet.metrics_this_week r = 2 /\
    DashboardViewSet.total_metrics_logged r = 3.
Proof.
  assert (Hv : valid Sample.today) by (repeat split; discriminate).
  assert (H7 : 7 < toordinal Sample.today) by reflexivity.
  assert (Hrows : Forall (fun m => valid (HealthMetric.recorded_date m))
                    (health_metrics Sample.db))
    by (repeat constructor; discriminate).
  split; [exact Hv | ]. split; [exact H7 | ]. split; [exact Hrows | ].
  destruct (dashboard_observation_counts Sample.db 1 Sample.today Hv H7 Hrows)
    as (r & Hr & Hweek & Htotal).
  exists r. split; [exact Hr | ]. rewrite Hweek, Htotal.
  split; vm_compute; reflexivity.
Defined.

(** With an observation dated tomorrow and one dated seven days ago the
    dashboard counts two observations this week; none of them is dated
    among the last 7 days, and one among the last 8. *)
Lemma observations_this_week_counterexample :
  exists r,
    DashboardViewSet.list Sample.db_week 1 Sample.today = Ok r /\
    DashboardViewSet.metrics_this_week r
    <> Spec.observations_in_last_days 7 Sample.db_week 1 Sample.today /\
    DashboardViewSet.metrics_this_week r
    <> Spec.observations_in_last_days 8 Sample.db_week 1 Sample.today.
Proof.
  eexists. split; [vm_compute; reflexivity | ].
  split; vm_compute; discriminate.
Qed.

(** C9: the dashboard lists the user's five most recently recorded
    observations (all of them when there are fewer), the most recent
    first: by date, and by creation time within a date. *)
Theorem recent_observations_top5 (db : Database) (user : Z) (today : date) :
  valid today -> 7 < toordinal today ->
  exists r,
    DashboardViewSet.list db user today = Ok r /\
    let mine := filter (fun m => HealthMetric.user m =? user) (health_metrics db) in
    let recent := DashboardViewSet.recent_metrics r in
    length recent = Nat.min 5 (length mine) /\
    StronglySorted Spec.at_least_as_recent recent /\
    exists rest,
      Permutation (recent ++ rest) mine /\
      forall a b, In a recent -> In b rest -> Spec.at_least_as_recent a b.
Proof.
  intros Hv H7.
  destruct (list_ok db user today Hv H7)
    as (w & gd & r & _ & _ & _ & Hr & _ & _ & _ & _ & Hrecent & _).
  exists r. split; [exact Hr | ]. cbv zeta. rewrite Hrecent.
  set (mine := filter (fun m => HealthMetric.user m =? user) (health_metrics db)).
  pose proof (order_by_perm HealthMetric.ordering mine) as Hperm.
  pose proof (order_by_sorted HealthMetric.ordering
                metric_ordering_total metric_ordering_trans mine) as Hsorted.
  set (sorted := order_by HealthMetric.ordering mine) in *. clearbody sorted.
  split; [ | split].
  - rewrite length_firstn. now rewrite (Permutation_length Hperm).
  - apply (StronglySorted_weaken (fun a b => HealthMetric.ordering a b = true)).
    + intros a b. apply metric_ordering_iff.
    + now apply firstn_sorted.
  - exists (skipn 5 sorted). split.
    + now rewrite firstn_skipn.
    + intros a b Ha Hb. apply metric_ordering_iff.
      exact (firstn_before_skipn HealthMetric.ordering 5 sorted Hsorted a b Ha Hb).
Qed.

Lemma recent_observations_top5_witness :
  valid Sample.today /\ 7 < toordinal Sample.today /\
  exists r,
    DashboardViewSet.list Sample.db 1 Sample.today = Ok r /\
    length (DashboardViewSet.recent_metrics r) = 3%nat /\
    StronglySorted Spec.at_least_as_recent (DashboardViewSet.recent_metrics r).
Proof.
  assert (Hv : valid Sample.today) by (repeat split; discriminate).
  assert (H7 : 7 < toordinal Sample.today) by reflexivity.
  split; [exact Hv | ]. split; [exact H7 | ].
  destruct (recent_observations_top5 Sample.db 1 Sample.today Hv H7)
    as (r & Hr & Hlen & Hsorted & _).
  exists r. split; [exact Hr | ]. split; [ | exact Hsorted].
  rewrite Hlen. reflexivity.
Defined.

(** ** Creating observations *)

Module CreateFacts.

Lemma same_key_iff (u mt : Z) (d : date) (r : HealthMetric.t) :
  HealthMetric.same_key u mt d r = true <->
  HealthMetric.user r = u /\ HealthMetric.metric_type r = mt
  /\ HealthMetric.recorded_date r = d.
Proof.
  unfold HealthMetric.same_key. rewrite !andb_true_iff, !Z.eqb_eq, eqb_eq. tauto.
Qed.

Lemma exists_filter {A : Type} (f : A -> bool) (l : list A) :
  exists_ (filter f l) = true <-> exists a, In a l /\ f a = true.
Proof.
  split.
  - destruct (filter f l) as [ | a l'] eqn:E; [discriminate | ]. intros _.
    exists a. apply filter_In. rewrite E. now left.
  - intros (a & Ha & Hf).
    assert (Hin : In a (filter f l)) by (apply filter_In; now split).
    destruct (filter f l); [contradiction | reflexivity].
Qed.

(** The duplicate check of [validate] and of the INSERT. *)
Lemma existing_iff (tbl : list HealthMetric.t) (u mt : Z) (d : date) :
  exists_ (filter (HealthMetric.same_key u mt d) tbl) = true <->
  exists r, In r tbl /\ HealthMetric.user r = u /\ HealthMetric.metric_type r = mt
            /\ HealthMetric.recorded_date r = d.
Proof.
  rewrite exists_filter. split; intros (r & Hin & H); exists r; split; try assumption;
    now apply same_key_iff.
Qed.

Lemma find_metric_type (types : list MetricType.t) (pk : Z) (mt : MetricType.t) :
  find (fun mt => MetricType.id mt =? pk) types = Some mt -> MetricType.id mt = pk.
Proof. intros H. apply find_some in H. now apply Z.eqb_eq. Qed.

(** What the bounds check of the serializers and of [clean] rejects: a
    bound that is zero does not count. *)
Lemma bounds_check_spec (mt : MetricType.t) (v : Q) :
  MetricType.below_min mt v || MetricType.above_max mt v = true <->
  (exists lo, MetricType.min_value mt = Some lo /\ ~ (lo == 0)%Q /\ (v < lo)%Q)
  \/ (exists hi, MetricType.max_value mt = Some hi /\ ~ (hi == 0)%Q /\ (hi < v)%Q).
Proof.
  unfold MetricType.below_min, MetricType.above_max, truthy.
  rewrite orb_true_iff, !andb_true_iff. split.
  - intros [[Ht Hlt] | [Ht Hlt]]; [left | right].
    + destruct (MetricType.min_value mt) as [lo | ]; [ | discriminate].
      exists lo. split; [reflexivity | ]. split; [ | now apply Qltb_lt].
      intros E. apply Qeq_bool_iff in E. rewrite E in Ht. discriminate.
    + destruct (MetricType.max_value mt) as [hi | ]; [ | discriminate].
      exists hi. split; [reflexivity | ]. split; [ | now apply Qltb_lt].
      intros E. apply Qeq_bool_iff in E. rewrite E in Ht. discriminate.
  - intros [(lo & -> & Hz & Hlt) | (hi & -> & Hz & Hlt)]; [left | right];
      (split; [ | now apply Qltb_lt]); apply negb_true_iff;
      apply not_true_iff_false; intros E; apply Qeq_bool_iff in E; contradiction.
Qed.

(** With bounds that are not zero the check is the one of the
    specification. *)
Lemma bounds_check_nonzero (mt : MetricType.t) (v : Q) :
  (forall lo, MetricType.min_value mt = Some lo -> ~ (lo == 0)%Q) ->
  (forall hi, MetricType.max_value mt = Some hi -> ~ (hi == 0)%Q) ->
  MetricType.below_min mt v || MetricType.above_max mt v = Spec.violates_bounds mt v.
Proof.
  intros Hlo Hhi.
  unfold MetricType.below_min, MetricType.above_max, Spec.violates_bounds, truthy.
  destruct (MetricType.min_value mt) as [lo | ], (MetricType.max_value mt) as [hi | ];
    cbn [andb orb];
    repeat match goal with
           | |- context [Qeq_bool ?q 0] =>
               let E := fresh in
               destruct (Qeq_bool q 0) eqn:E;
               [apply Qeq_bool_iff in E; exfalso;
                first [now apply (Hlo q) | now apply (Hhi q)] | ]
           end; reflexivity.
Qed.

Ltac simp_attrs :=
  cbn [bind HealthMetricCreateSerializer.metric_type
       HealthMetricCreateSerializer.value
       HealthMetricCreateSerializer.recorded_date
       HealthMetricCreateSerializer.notes].

End CreateFacts.
Import CreateFacts.



(** The digit check of the value column: a value with three decimal
    places, or with nine digits before the point, is answered with a
    validation error and not stored, also as the first of its day. *)
Example digit_check_rejects :
  forall lit,
    In lit [Decimal.mk 1234 (-3); Decimal.of_Z 123456789] ->
    HealthMetricViewSet.create Sample.db 1 Sample.today 100
      (Sample.request 1 lit (mkdate 2024 5 16))
    = (Err (ValidationError "value"), Sample.db).
Proof.
  intros lit [<- | [<- | []]]; reflexivity.
Qed.

(** Values the digit check lets pass: 12.5, 12.50, 0.07 and 99999999.99. *)
Example digit_check_accepts :
  forall lit,
    In lit [Decimal.mk 125 (-1); Decimal.mk 1250 (-2); Decimal.mk 7 (-2);
            Decimal.mk 9999999999 (-2)] ->
    DecimalField.validate_precision 10 2 lit = true.
Proof.
  intros lit [<- | [<- | [<- | [<- | []]]]]; reflexivity.
Qed.

(** C8 on a metric type whose maximum is 0: the value 5 violates the
    bounds, and the create request is accepted and the observation
    stored. *)
Theorem zero_bound_not_enforced :
  MetricType.max_value Sample.fasting = Some 0%Q /\
  Spec.violates_bounds Sample.fasting 5 = true /\
  exists row db',
    HealthMetricViewSet.create Sample.db 1 Sample.today 100
      (Sample.request 2 5 Sample.today) = (Ok row, db') /\
    HealthMetric.metric_type row = MetricType.id Sample.fasting /\
    HealthMetric.value row = 5%Q /\
    In row (health_metrics db').
Proof.
  split; [reflexivity | ]. split; [reflexivity | ].
  eexists. eexists. split; [vm_compute; reflexivity | ].
  split; [reflexivity | ]. split; [reflexivity | ].
  cbn. do 3 right. left. reflexivity.
Qed.

(** [clean] has the same check. *)
Lemma clean_zero_bound :
  HealthMetric.clean (Some Sample.fasting)
    (HealthMetric.mk 9 1 2 5 Sample.today "" 0 0) = Ok tt.
Proof. reflexivity. Qed.

Module DeactivateFacts.

Lemma unique_by_id (l : list Goal.t) (a b : Goal.t) :
  NoDup (map Goal.id l) -> In a l -> In b l -> Goal.id a = Goal.id b -> a = b.
Proof.
  induction l as [ | x l IH]; cbn; intros Hnd Ha Hb E; [contradiction | ].
  inversion Hnd as [ | ? ? Hx Hnd']; subst.
  destruct Ha as [<- | Ha], Hb as [<- | Hb]; auto.
  - exfalso. apply Hx. rewrite E. now apply in_map.
  - exfalso. apply Hx. rewrite <- E. now apply in_map.
Qed.

Lemma get_object_found (db : Database) (user pk : Z) (g : Goal.t) :
  NoDup (map Goal.id (goals db)) ->
  In g (goals db) -> Goal.id g = pk -> Goal.user g = user ->
  GoalViewSet.get_object db user pk = Ok g.
Proof.
  intros Hnd Hin Hid Hu. unfold GoalViewSet.get_object, GoalViewSet.get_queryset.
  destruct (find _ _) as [h | ] eqn:Hfind.
  - apply find_some in Hfind. destruct Hfind as [Hh Hpk].
    apply filter_In in Hh. destruct Hh as [Hh _]. apply Z.eqb_eq in Hpk.
    f_equal. apply (unique_by_id (goals db)); congruence.
  - assert (Hq : In g (filter (fun h => Goal.user h =? user) (goals db)))
      by (apply filter_In; split; [exact Hin | now apply Z.eqb_eq]).
    pose proof (find_none _ _ Hfind g Hq) as E. cbn in E.
    rewrite Hid, Z.eqb_refl in E. discriminate.
Qed.

End DeactivateFacts.
Import DeactivateFacts.

(** C10: deactivating a goal of the user succeeds whether or not the goal
    is active; afterwards the table has the same rows in the same places,
    the goal with [is_active] false and its other fields as before, and
    every other goal as it was. *)
Theorem deactivate_frame (db : Database) (user pk now : Z) (g : Goal.t) :
  NoDup (map Goal.id (goals db)) ->
  In g (goals db) -> Goal.id g = pk -> Goal.user g = user ->
  exists response db',
    GoalViewSet.deactivate db user pk now = (Ok response, db') /\
    metric_types db' = metric_types db /\
    health_metrics db' = health_metrics db /\
    Forall2 (fun r r' => if Goal.id r =? pk then Spec.deactivated r r' else r' = r)
      (goals db) (goals db').
Proof.
  intros Hnd Hin Hid Hu. unfold GoalViewSet.deactivate.
  rewrite (get_object_found db user pk g Hnd Hin Hid Hu).
  eexists. eexists. split; [reflexivity | ].
  cbn [metric_types health_metrics goals]. split; [reflexivity | ].
  split; [reflexivity | ].
  assert (Huniq : forall r, In r (goals db) -> Goal.id r = pk -> r = g).
  { intros r Hr Hrid. apply (unique_by_id (goals db)); congruence. }
  clear Hin Hnd. subst pk. unfold GoalManager.save. cbn [Goal.id].
  induction (goals db) as [ | r l IH]; cbn [map]; constructor.
  - destruct (Goal.id r =? Goal.id g) eqn:E; [ | reflexivity].
    apply Z.eqb_eq in E.
    assert (Er : r = g) by (apply Huniq; [now left | exact E]).
    rewrite Er. unfold Spec.deactivated. cbn. repeat split; reflexivity.
  - apply IH. intros x Hx. apply Huniq. now right.
Qed.

Lemma deactivate_frame_witness :
  exists response db',
    GoalViewSet.deactivate Sample.db 1 4 500 = (Ok response, db') /\
    Forall2 (fun r r' => if Goal.id r =? 4 then Spec.deactivated r r' else r' = r)
      (goals Sample.db) (goals db').
Proof.
  destruct (deactivate_frame Sample.db 1 4 500 (Sample.goal 4 100 Goal.DAILY false None))
    as (response & db' & Hd & _ & _ & Hall).
  - repeat constructor; cbn; intuition discriminate.
  - cbn. do 3 right. left. reflexivity.
  - reflexivity.
  - reflexivity.
  - exists response, db'. split; assumption.
Defined.

(** ** Further properties: goal progress *)

Module MoreNumFacts.

Lemma round1_mono (x y : Q) : (x <= y)%Q -> (round1 x <= round1 y)%Q.
Proof.
  intros H. unfold round1.
  assert (H10 : (x * 10 <= y * 10)%Q) by lra.
  pose proof (round_half_even_mono _ _ H10) as Hm.
  rewrite Zle_Qle in Hm.
  set (a := inject_Z (round_half_even (x * 10))) in *.
  set (b := inject_Z (round_half_even (y * 10))) in *. clearbody a b.
  unfold Qdiv. change (/ 10)%Q with (1 # 10)%Q. lra.
Qed.

Lemma round1_le_100 (x : Q) : (x <= 100)%Q -> (round1 x <= 100)%Q.
Proof.
  intros H. apply Qle_trans with (round1 100); [now apply round1_mono | ].
  apply Qle_lteq. right. apply round1_100.
Qed.

Lemma round1_nonneg (x : Q) : (0 <= x)%Q -> (0 <= round1 x)%Q.
Proof.
  intros H. apply Qle_trans with (round1 0); [ | now apply round1_mono].
  apply Qle_lteq. right. symmetry. apply round1_0.
Qed.

Lemma min_le_l (a b : Q) : (min a b <= a)%Q.
Proof.
  unfold min. destruct (Qltb b a) eqn:E; [ | apply Qle_refl].
  apply Qltb_lt in E. now apply Qlt_le_weak.
Qed.

Lemma min_mono_r (a b b' : Q) : (b <= b')%Q -> (min a b <= min a b')%Q.
Proof.
  intros H. unfold min.
  destruct (Qltb b a) eqn:E; destruct (Qltb b' a) eqn:E';
    try apply Qltb_lt in E; try apply Qltb_lt in E';
    try apply Qltb_ge in E; try apply Qltb_ge in E'; lra.
Qed.

Lemma min_nonneg (a b : Q) : (0 <= a)%Q -> (0 <= b)%Q -> (0 <= min a b)%Q.
Proof. intros Ha Hb. unfold min. destruct (Qltb b a); assumption. Qed.

Lemma Qsum_nonneg (vs : list Q) :
  Forall (fun v => (0 <= v)%Q) vs -> (0 <= Qsum vs)%Q.
Proof.
  unfold Qsum. induction 1 as [ | v vs Hv _ IH]; cbn [fold_right];
    [apply Qle_refl | lra].
Qed.

Lemma or_zero_Sum (vs : list Q) : (or_zero (Sum vs) == Qsum vs)%Q.
Proof.
  destruct vs as [ | v vs]; [reflexivity | ]. unfold Sum. apply or_zero_Some.
Qed.

Lemma or_zero_nonneg (o : option Q) :
  (forall q, o = Some q -> (0 <= q)%Q) -> (0 <= or_zero o)%Q.
Proof.
  intros H. destruct o as [q | ]; [ | apply Qle_refl].
  rewrite or_zero_Some. now apply H.
Qed.

Lemma Avg_nonneg (vs : list Q) (q : Q) :
  Forall (fun v => (0 <= v)%Q) vs -> Avg vs = Some q -> (0 <= q)%Q.
Proof.
  intros Hvs E. destruct vs as [ | v vs]; [discriminate | ].
  injection E as <-. apply Qle_shift_div_l.
  - change 0%Q with (inject_Z 0). rewrite <- Zlt_Qlt. cbn [length]. lia.
  - rewrite Qmult_0_l. exact (Qsum_nonneg (v :: vs) Hvs).
Qed.

End MoreNumFacts.
Import MoreNumFacts.

Module MoreProgressFacts.

(** The observations [get_progress] aggregates, and its result in terms
    of them. *)
Lemma get_progress_eq (metrics : list HealthMetric.t) (today : date) (g : Goal.t)
    (p : Progress.t) :
  GoalSerializer.get_progress metrics today g = Ok p ->
  let vals :=
    map HealthMetric.value
      (filter (Spec.in_window g (Progress.period_start p) (Progress.period_end p))
         metrics) in
  let c := match Goal.goal_type g with
           | Goal.DAILY => or_zero (Sum vals)
           | _ => or_zero (Avg vals)
           end in
  Progress.current_value p = c /\
  Progress.percentage p
  = round1 (if Qltb 0 (Goal.target_value g)
            then min 100
                   (Binary64.mul (Binary64.truediv c (Goal.target_value g)) 100)
            else 0%Q).
Proof.
  unfold GoalSerializer.get_progress.
  destruct (match Goal.goal_type g with
            | Goal.DAILY => _ | Goal.WEEKLY => _ | Goal.MONTHLY => _ end)
    as [[start end_] | e]; cbn [bind]; [ | discriminate].
  intros E. injection E as <-. cbn. unfold float. split; reflexivity.
Qed.

End MoreProgressFacts.
Import MoreProgressFacts.

Module MoreProgressFacts2.

Lemma percentage_range_of (metrics : list HealthMetric.t) (today : date)
    (g : Goal.t) (p : Progress.t) :
  GoalSerializer.get_progress metrics today g = Ok p ->
  (Progress.percentage p <= 100)%Q /\
  (Props.nonnegative_values metrics ->
   (0 <= Progress.current_value p)%Q /\ (0 <= Progress.percentage p)%Q).
Proof.
  intros Hp. destruct (get_progress_eq _ _ _ _ Hp) as [Hc Hpct].
  cbv zeta in Hc, Hpct. rewrite Hpct, Hc. clear Hpct Hc.
  set (vals := map HealthMetric.value _).
  set (c := match Goal.goal_type g with Goal.DAILY => _ | _ => _ end).
  split.
  - apply round1_le_100.
    destruct (Qltb 0 (Goal.target_value g)); [apply min_le_l | lra].
  - intros Hnn.
    assert (Hvals : Forall (fun v => (0 <= v)%Q) vals).
    { unfold vals. apply Forall_forall. intros v Hv.
      apply in_map_iff in Hv. destruct Hv as (m & <- & Hm).
      apply filter_In in Hm. destruct Hm as [Hm _].
      unfold Props.nonnegative_values in Hnn. rewrite Forall_forall in Hnn. auto. }
    assert (Hc : (0 <= c)%Q).
    { unfold c. destruct (Goal.goal_type g); apply or_zero_nonneg; intros q Hq.
      - unfold Sum in Hq. destruct vals as [ | v0 vs0] eqn:Ev; [discriminate | ].
        injection Hq as <-. exact (Qsum_nonneg (v0 :: vs0) Hvals).
      - now apply (Avg_nonneg vals).
      - now apply (Avg_nonneg vals). }
    split; [exact Hc | ].
    apply round1_nonneg.
    destruct (Qltb 0 (Goal.target_value g)) eqn:Ht; [ | lra].
    apply Qltb_lt in Ht. apply min_nonneg; [lra | ].
    now apply mul_100_nonneg, truediv_nonneg.
Qed.

End MoreProgressFacts2.
Import MoreProgressFacts2.

(** X1: the percentage never exceeds 100, and with observation values
    that are not negative neither it nor the current value is negative. *)
Theorem percentage_range (metrics : list HealthMetric.t) (today : date)
    (g : Goal.t) :
  valid today ->
  exists p,
    GoalSerializer.get_progress metrics today g = Ok p /\
    (Progress.percentage p <= 100)%Q /\
    (Props.nonnegative_values metrics ->
     (0 <= Progress.current_value p)%Q /\ (0 <= Progress.percentage p)%Q).
Proof.
  intros Hv. destruct (get_progress_ok metrics today g Hv) as (p & Hp).
  exists p. split; [exact Hp | ]. exact (percentage_range_of _ _ _ _ Hp).
Qed.

Lemma percentage_range_witness :
  valid Sample.today /\
  exists p,
    GoalSerializer.get_progress Sample.week_metrics Sample.today
      (Sample.goal 2 20000 Goal.WEEKLY true None) = Ok p /\
    (0 <= Progress.percentage p <= 100)%Q.
Proof.
  assert (Hv : valid Sample.today) by (repeat split; discriminate).
  split; [exact Hv | ].
  destruct (percentage_range Sample.week_metrics Sample.today
              (Sample.goal 2 20000 Goal.WEEKLY true None) Hv)
    as (p & Hp & Hhi & Hlo).
  exists p. split; [exact Hp | ]. split; [ | exact Hhi]. apply Hlo.
  repeat constructor; discriminate.
Defined.

Module IsolationFacts.

Lemma in_window_concerns (g : Goal.t) (start end_ : date) (l : list HealthMetric.t) :
  filter (Spec.in_window g start end_) l
  = filter (fun m => Date.leb start (HealthMetric.recorded_date m)
                     && Date.leb (HealthMetric.recorded_date m) end_)
      (filter (Props.concerns g) l).
Proof.
  rewrite filter_and. apply filter_ext. intros m.
  unfold Spec.in_window, Props.concerns. now rewrite <- !andb_assoc.
Qed.

Lemma get_progress_concerns (metrics metrics' : list HealthMetric.t) (today : date)
    (g : Goal.t) :
  filter (Props.concerns g) metrics = filter (Props.concerns g) metrics' ->
  GoalSerializer.get_progress metrics today g
  = GoalSerializer.get_progress metrics' today g.
Proof.
  intros E. unfold GoalSerializer.get_progress.
  destruct (match Goal.goal_type g with
            | Goal.DAILY => _ | Goal.WEEKLY => _ | Goal.MONTHLY => _ end)
    as [[start end_] | e]; cbn [bind]; [ | reflexivity].
  change (fun m : HealthMetric.t =>
            (HealthMetric.user m =? Goal.user g)
            && (HealthMetric.metric_type m =? Goal.metric_type g)
            && Date.leb start (HealthMetric.recorded_date m)
            && Date.leb (HealthMetric.recorded_date m) end_)
    with (Spec.in_window g start end_).
  rewrite (in_window_concerns g start end_ metrics).
  rewrite (in_window_concerns g start end_ metrics'). now rewrite E.
Qed.

End IsolationFacts.
Import IsolationFacts.

(** X2: the progress of a goal depends on the observations of the goal's
    user and metric type only: two histories with the same such
    observations give the same snapshot. *)
Theorem progress_of_own_observations (metrics metrics' : list HealthMetric.t)
    (today : date) (g : Goal.t) :
  filter (Props.concerns g) metrics = filter (Props.concerns g) metrics' ->
  GoalSerializer.get_progress metrics today g
  = GoalSerializer.get_progress metrics' today g.
Proof. apply get_progress_concerns. Qed.

Lemma progress_of_own_observations_witness :
  GoalSerializer.get_progress
    (HealthMetric.mk 7 2 1 900 Sample.today "" 5 5 :: Sample.day_metrics)
    Sample.today (Sample.goal 1 10 Goal.DAILY true None)
  = GoalSerializer.get_progress Sample.day_metrics Sample.today
      (Sample.goal 1 10 Goal.DAILY true None).
Proof.
  apply progress_of_own_observations. reflexivity.
Defined.

(** X3: one more observation with a value that is not negative never
    lowers the current value or the percentage of a DAILY goal. *)
Theorem daily_progress_grows (metrics : list HealthMetric.t) (today : date)
    (g : Goal.t) (m : HealthMetric.t) :
  valid today ->
  Goal.goal_type g = Goal.DAILY ->
  (0 <= HealthMetric.value m)%Q ->
  exists p p',
    GoalSerializer.get_progress metrics today g = Ok p /\
    GoalSerializer.get_progress (m :: metrics) today g = Ok p' /\
    (Progress.current_value p <= Progress.current_value p')%Q /\
    (Progress.percentage p <= Progress.percentage p')%Q.
Proof.
  intros Hv Hty Hm.
  destruct (get_progress_ok metrics today g Hv) as (p & Hp).
  destruct (get_progress_ok (m :: metrics) today g Hv) as (p' & Hp').
  exists p, p'. split; [exact Hp | ]. split; [exact Hp' | ].
  destruct (get_progress_eq _ _ _ _ Hp) as [Hc Hpct].
  destruct (get_progress_eq _ _ _ _ Hp') as [Hc' Hpct'].
  cbv zeta in *. rewrite Hty in *.
  assert (Hs : Progress.period_start p = today /\ Progress.period_end p = today
               /\ Progress.period_start p' = today /\ Progress.period_end p' = today).
  { unfold GoalSerializer.get_progress in Hp, Hp'. rewrite Hty in Hp, Hp'.
    cbn [bind] in Hp, Hp'. injection Hp as <-. injection Hp' as <-.
    repeat split; reflexivity. }
  destruct Hs as (E1 & E2 & E3 & E4).
  rewrite E1, E2 in Hc, Hpct. rewrite E3, E4 in Hc', Hpct'.
  assert (Hle : (or_zero (Sum (map HealthMetric.value
                                 (filter (Spec.in_window g today today) metrics)))
                 <= or_zero (Sum (map HealthMetric.value
                                    (filter (Spec.in_window g today today)
                                       (m :: metrics)))))%Q).
  { rewrite !or_zero_Sum. cbn [filter].
    destruct (Spec.in_window g today today m); [ | apply Qle_refl].
    cbn [map]. unfold Qsum. cbn [fold_right]. lra. }
  rewrite <- Hc, <- Hc' in Hle. split; [exact Hle | ].
  rewrite Hpct, Hpct', <- Hc, <- Hc'. apply round1_mono.
  destruct (Qltb 0 (Goal.target_value g)) eqn:Ht; [ | apply Qle_refl].
  apply Qltb_lt in Ht. now apply min_mono_r, mul_100_mono, truediv_mono.
Qed.

Lemma daily_progress_grows_witness :
  valid Sample.today /\
  exists p p',
    GoalSerializer.get_progress [] Sample.today
      (Sample.goal 1 10000 Goal.DAILY true None) = Ok p /\
    GoalSerializer.get_progress [Sample.obs 1 8000 Sample.today 10] Sample.today
      (Sample.goal 1 10000 Goal.DAILY true None) = Ok p' /\
    (Progress.percentage p <= Progress.percentage p')%Q.
Proof.
  assert (Hv : valid Sample.today) by (repeat split; discriminate).
  split; [exact Hv | ].
  destruct (daily_progress_grows [] Sample.today
              (Sample.goal 1 10000 Goal.DAILY true None)
              (Sample.obs 1 8000 Sample.today 10) Hv eq_refl ltac:(discriminate))
    as (p & p' & Hp & Hp' & _ & Hpct).
  exists p, p'. repeat split; assumption.
Defined.

(** ** Further properties: dates of goals and profiles *)

Module MoreDateFacts.

Lemma ltb_toordinal (a b : date) :
  valid a -> valid b -> Date.ltb a b = (toordinal a <? toordinal b).
Proof.
  intros Ha Hb. unfold Date.ltb, Z.ltb. now rewrite cmp_toordinal.
Qed.

(** The lexicographic comparisons, spelled out. *)
Lemma leb_lex (a b : date) :
  Date.leb a b = true <->
  year a < year b
  \/ (year a = year b
      /\ (month a < month b \/ (month a = month b /\ day a <= day b))).
Proof.
  unfold Date.leb, Date.cmp.
  destruct (Z.compare_spec (year a) (year b));
    destruct (Z.compare_spec (month a) (month b));
    destruct (Z.compare_spec (day a) (day b));
    split; intros; try discriminate; try reflexivity; try lia.
Qed.

Lemma ltb_lex (a b : date) :
  Date.ltb a b = true <->
  year a < year b
  \/ (year a = year b
      /\ (month a < month b \/ (month a = month b /\ day a < day b))).
Proof.
  unfold Date.ltb, Date.cmp.
  destruct (Z.compare_spec (year a) (year b));
    destruct (Z.compare_spec (month a) (month b));
    destruct (Z.compare_spec (day a) (day b));
    split; intros; try discriminate; try reflexivity; try lia.
Qed.

End MoreDateFacts.
Import MoreDateFacts.

(** X4: with valid dates a goal is expired exactly when it has an end
    date that lies before today, so not on the end date itself, and a goal
    that is expired stays expired on every later day. *)
Theorem expiry_by_date (today : date) (g : Goal.t) :
  valid today ->
  (forall e, Goal.end_date g = Some e -> valid e) ->
  (Goal.is_expired today g = true <->
   exists e, Goal.end_date g = Some e /\ toordinal e < toordinal today) /\
  (forall today',
     valid today' -> toordinal today <= toordinal today' ->
     Goal.is_expired today g = true -> Goal.is_expired today' g = true).
Proof.
  intros Hv He. unfold Goal.is_expired.
  destruct (Goal.end_date g) as [e | ].
  - specialize (He e eq_refl). split.
    + rewrite (ltb_toordinal _ _ He Hv), Z.ltb_lt. split.
      * intros H. now exists e.
      * intros (e' & E & H). now injection E as <-.
    + intros today' Hv' Hle.
      rewrite (ltb_toordinal _ _ He Hv), (ltb_toordinal _ _ He Hv'), !Z.ltb_lt. lia.
  - split.
    + split; [discriminate | intros (e & E & _); discriminate].
    + intros; assumption.
Qed.

Lemma expiry_by_date_witness :
  Goal.is_expired Sample.today
    (Sample.goal 3 5000 Goal.MONTHLY true (Some (mkdate 2024 5 1))) = true /\
  Goal.is_expired (mkdate 2024 6 1)
    (Sample.goal 3 5000 Goal.MONTHLY true (Some (mkdate 2024 5 1))) = true.
Proof.
  assert (Hv : valid Sample.today) by (repeat split; discriminate).
  assert (He : forall e,
             Goal.end_date (Sample.goal 3 5000 Goal.MONTHLY true
                              (Some (mkdate 2024 5 1))) = Some e -> valid e).
  { intros e E. injection E as <-. repeat split; discriminate. }
  destruct (expiry_by_date Sample.today _ Hv He) as [Hiff Hlater].
  assert (H : Goal.is_expired Sample.today
                (Sample.goal 3 5000 Goal.MONTHLY true (Some (mkdate 2024 5 1)))
              = true).
  { apply Hiff. eexists. split; [reflexivity | reflexivity]. }
  split; [exact H | ].
  apply Hlater; [repeat split; discriminate | discriminate | exact H].
Defined.

(** X5: [validate] of a goal accepts exactly the requests without end date
    or with an end date that is not before the start date, today when no
    start date is given; an end date equal to the start date is accepted.
    A goal accepted without a start date is not expired today. *)
Theorem goal_dates_checked (today : date) (a : GoalSerializer.attrs) :
  valid today ->
  (forall d, GoalSerializer.start_date a = Some d -> valid d) ->
  (forall e, GoalSerializer.end_date a = Some e -> valid e) ->
  let start := match GoalSerializer.start_date a with
               | Some d => d
               | None => today
               end in
  (GoalSerializer.validate today a = Ok a <->
   forall e, GoalSerializer.end_date a = Some e -> toordinal start <= toordinal e) /\
  (GoalSerializer.validate today a <> Ok a ->
   GoalSerializer.validate today a = Err (ValidationError "end_date")) /\
  (GoalSerializer.start_date a = None ->
   GoalSerializer.validate today a = Ok a ->
   forall g, Goal.end_date g = GoalSerializer.end_date a ->
             Goal.is_expired today g = false).
Proof.
  intros Hv Hs He. cbv zeta. unfold GoalSerializer.validate.
  assert (Hvs : valid match GoalSerializer.start_date a with
                      | Some d => d | None => today end)
    by (destruct (GoalSerializer.start_date a); auto).
  set (start := match GoalSerializer.start_date a with
                | Some d => d | None => today end) in *.
  destruct (GoalSerializer.end_date a) as [e | ] eqn:Ee.
  - specialize (He e eq_refl). rewrite (ltb_toordinal _ _ He Hvs).
    destruct (toordinal e <? toordinal start) eqn:Hlt.
    + apply Z.ltb_lt in Hlt. repeat split; try discriminate; try reflexivity.
      intros H. specialize (H e eq_refl). lia.
    + apply Z.ltb_ge in Hlt. split; [ | split].
      * split; [ | reflexivity]. intros _ e' E. now injection E as <-.
      * intros H. now contradiction H.
      * intros Hnone _ g Hg. unfold Goal.is_expired. rewrite Hg.
        unfold start in Hlt. rewrite Hnone in Hlt.
        rewrite (ltb_toordinal _ _ He Hv). apply Z.ltb_ge. exact Hlt.
  - split; [ | split].
    + split; [discriminate | reflexivity].
    + intros H. now contradiction H.
    + intros _ _ g Hg. unfold Goal.is_expired. now rewrite Hg.
Qed.

Lemma goal_dates_checked_witness :
  GoalSerializer.validate Sample.today
    (GoalSerializer.mkattrs None (Some Sample.today))
  = Ok (GoalSerializer.mkattrs None (Some Sample.today)) /\
  GoalSerializer.validate Sample.today
    (GoalSerializer.mkattrs None (Some (mkdate 2024 5 14)))
  = Err (ValidationError "end_date").
Proof.
  assert (Hv : valid Sample.today) by (repeat split; discriminate).
  split.
  - apply (goal_dates_checked Sample.today
             (GoalSerializer.mkattrs None (Some Sample.today)) Hv).
    + discriminate.
    + intros e E. injection E as <-. exact Hv.
    + intros e E. injection E as <-. cbn. lia.
  - apply (goal_dates_checked Sample.today
             (GoalSerializer.mkattrs None (Some (mkdate 2024 5 14))) Hv).
    + discriminate.
    + intros e E. injection E as <-. repeat split; discriminate.
    + discriminate.
Defined.

(** X6: the age of a profile with a date of birth is the number of
    birthdays passed: the birthday of the year of birth plus the age is
    today or earlier and the next one lies after today. A profile without
    date of birth has no age. *)
Theorem age_counts_birthdays (today : date) (self : UserProfile.t) :
  match UserProfile.date_of_birth self with
  | Some dob =>
      exists a,
        UserProfile.age today self = Some a /\
        Date.leb (Props.birthday dob (year dob + a)) today = true /\
        Date.ltb today (Props.birthday dob (year dob + a + 1)) = true /\
        (Date.leb dob today = true -> 0 <= a)
  | None => UserProfile.age today self = None
  end.
Proof.
  unfold UserProfile.age. destruct (UserProfile.date_of_birth self) as [dob | ];
    [ | reflexivity].
  eexists. split; [reflexivity | ].
  rewrite !leb_lex, ltb_lex. unfold Props.birthday, UserProfile.pair_ltb.
  cbn [year month day fst snd].
  destruct (month today <? month dob) eqn:E1;
    destruct (month today =? month dob) eqn:E2;
    destruct (day today <? day dob) eqn:E3; cbn [orb andb]; lia.
Qed.

(** ** Further properties: the goal actions *)

Module MoreQuerysetFacts.
Section Lists.
Context {A B : Type}.

Lemma mapM_map (f : A -> result B) (g : B -> A) (l : list A) (bs : list B) :
  (forall a b, f a = Ok b -> g b = a) -> mapM f l = Ok bs -> map g bs = l.
Proof.
  intros Hg. revert bs. induction l as [ | a l IH]; intros bs; cbn.
  - intros E. now injection E as <-.
  - destruct (f a) as [b | e] eqn:Eb; cbn; [ | discriminate].
    destruct (mapM f l) as [bs' | e]; cbn; [ | discriminate].
    intros E. injection E as <-. cbn. now rewrite (Hg a b Eb), (IH bs' eq_refl).
Qed.

Lemma mapM_In (f : A -> result B) (l : list A) (bs : list B) (b : B) :
  mapM f l = Ok bs -> (In b bs <-> exists a, In a l /\ f a = Ok b).
Proof.
  revert bs. induction l as [ | a l IH]; intros bs; cbn.
  - intros E. injection E as <-. split; [contradiction | now intros (a & [] & _)].
  - destruct (f a) as [b0 | e] eqn:Eb; cbn; [ | discriminate].
    destruct (mapM f l) as [bs' | e]; cbn; [ | discriminate].
    intros E. injection E as <-. cbn. rewrite (IH bs' eq_refl). split.
    + intros [<- | (x & Hx & Hfx)]; [exists a; auto | exists x; auto].
    + intros (x & [<- | Hx] & Hfx); [left; congruence | right; now exists x].
Qed.

Lemma mapM_length (f : A -> result B) (l : list A) (bs : list B) :
  mapM f l = Ok bs -> length bs = length l.
Proof.
  revert bs. induction l as [ | a l IH]; intros bs; cbn.
  - intros E. now injection E as <-.
  - destruct (f a) as [b0 | e]; cbn; [ | discriminate].
    destruct (mapM f l) as [bs' | e]; cbn; [ | discriminate].
    intros E. injection E as <-. cbn. now rewrite (IH bs' eq_refl).
Qed.

Lemma mapM_ext_in (f g : A -> result B) (l : list A) :
  (forall a, In a l -> f a = g a) -> mapM f l = mapM g l.
Proof.
  induction l as [ | a l IH]; intros H; cbn; [reflexivity | ].
  rewrite (H a (or_introl eq_refl)), IH; [reflexivity | ].
  intros x Hx. apply H. now right.
Qed.

Lemma In_order_by (le : A -> A -> bool) (l : list A) (a : A) :
  In a (order_by le l) <-> In a l.
Proof.
  split; apply Permutation_in;
    [apply order_by_perm | apply Permutation_sym, order_by_perm].
Qed.

Lemma filter_idem (f : A -> bool) (l : list A) :
  filter f (filter f l) = filter f l.
Proof.
  rewrite filter_and. apply filter_ext. intros a. now destruct (f a).
Qed.

Lemma NoDup_map_filter (k : A -> B) (f : A -> bool) (l : list A) :
  NoDup (map k l) -> NoDup (map k (filter f l)).
Proof.
  induction l as [ | a l IH]; cbn; intros H; [constructor | ].
  inversion H as [ | ? ? Hnin Hnd]; subst.
  destruct (f a); cbn; [ | now apply IH].
  constructor; [ | now apply IH].
  intros Hin. apply Hnin. apply in_map_iff in Hin. destruct Hin as (x & Ex & Hx).
  apply filter_In in Hx. apply in_map_iff. exists x. tauto.
Qed.
End Lists.
End MoreQuerysetFacts.
Import MoreQuerysetFacts.

Module GoalFacts.

Lemma to_representation_Ok (metrics : list HealthMetric.t) (today : date)
    (g : Goal.t) (gd : GoalSerializer.data) :
  GoalSerializer.to_representation metrics today g = Ok gd ->
  GoalSerializer.instance gd = g /\
  GoalSerializer.is_expired gd = Goal.is_expired today g /\
  GoalSerializer.get_progress metrics today g = Ok (GoalSerializer.progress gd).
Proof.
  unfold GoalSerializer.to_representation.
  destruct (GoalSerializer.get_progress metrics today g) as [p | e]; cbn;
    [ | discriminate].
  intros E. injection E as <-. repeat split.
Qed.

(** The queryset of [active] is the one of the dashboard. *)
Lemma active_queryset (db : Database) (user : Z) (today : date) :
  order_by Goal.ordering
    (exclude (fun g => match Goal.end_date g with
                       | Some e => Date.ltb e today
                       | None => false
                       end)
       (filter Goal.is_active (GoalViewSet.get_queryset db user)))
  = DashboardViewSet.active_goals_queryset db user today.
Proof.
  unfold DashboardViewSet.active_goals_queryset, GoalViewSet.get_queryset.
  now rewrite filter_and.
Qed.

Lemma active_eq (db : Database) (user : Z) (today : date) :
  GoalViewSet.active db user today
  = mapM (GoalSerializer.to_representation (health_metrics db) today)
      (DashboardViewSet.active_goals_queryset db user today).
Proof. unfold GoalViewSet.active. cbv zeta. now rewrite active_queryset. Qed.

Lemma In_active_goals_queryset (db : Database) (user : Z) (today : date) (g : Goal.t) :
  In g (DashboardViewSet.active_goals_queryset db user today) <->
  In g (goals db) /\ Goal.user g = user /\ Goal.is_active g = true
  /\ Goal.is_expired today g = false.
Proof.
  unfold DashboardViewSet.active_goals_queryset, exclude.
  rewrite In_order_by, !filter_In, andb_true_iff, Z.eqb_eq, negb_true_iff.
  unfold Goal.is_expired. tauto.
Qed.

Lemma goal_ordering_total (a b : Goal.t) :
  Goal.ordering a b = true \/ Goal.ordering b a = true.
Proof. unfold Goal.ordering. rewrite !Z.leb_le. lia. Qed.

Lemma goal_ordering_trans (a b c : Goal.t) :
  Goal.ordering a b = true -> Goal.ordering b c = true -> Goal.ordering a c = true.
Proof. unfold Goal.ordering. rewrite !Z.leb_le. lia. Qed.

Lemma active_ok (db : Database) (user : Z) (today : date) :
  valid today -> exists gds, GoalViewSet.active db user today = Ok gds.
Proof.
  intros Hv. rewrite active_eq.
  destruct (mapM_ok (GoalSerializer.to_representation (health_metrics db) today)
              (DashboardViewSet.active_goals_queryset db user today))
    as (gds & Hgds & _); [ | now exists gds].
  intros g _. unfold GoalSerializer.to_representation.
  destruct (get_progress_ok (health_metrics db) today g Hv) as (p & ->).
  cbn. eexists. reflexivity.
Qed.

End GoalFacts.
Import GoalFacts.

(** X7: the goal progress list of the dashboard is the response of the
    [active] action of the goals, and the dashboard's number of active
    goals is its length. *)
Theorem dashboard_lists_active_goals (db : Database) (user : Z) (today : date)
    (r : DashboardViewSet.response) :
  DashboardViewSet.list db user today = Ok r ->
  GoalViewSet.active db user today = Ok (DashboardViewSet.goal_progress r) /\
  DashboardViewSet.active_goals r = count (DashboardViewSet.goal_progress r).
Proof.
  rewrite active_eq. unfold DashboardViewSet.list.
  destruct (Date.sub_days today 7) as [w | e]; cbn [bind]; [ | discriminate].
  destruct (mapM _ (DashboardViewSet.active_goals_queryset db user today))
    as [gd | e] eqn:Hgd; cbn [bind]; [ | discriminate].
  intros E. injection E as <-. cbn. split; [reflexivity | ].
  unfold count. now rewrite (mapM_length _ _ _ Hgd).
Qed.

Lemma dashboard_lists_active_goals_witness :
  exists r,
    DashboardViewSet.list Sample.db 1 Sample.today = Ok r /\
    GoalViewSet.active Sample.db 1 Sample.today
    = Ok (DashboardViewSet.goal_progress r).
Proof.
  eexists. split; [vm_compute; reflexivity | ].
  apply (dashboard_lists_active_goals Sample.db 1 Sample.today _ eq_refl).
Defined.

(** X8: the [active] action lists the user's goals that are active and
    not expired, every one of them and no other, the newest first; none of
    the goals listed is marked expired. *)
Theorem active_goals_listed (db : Database) (user : Z) (today : date) :
  valid today ->
  exists gds,
    GoalViewSet.active db user today = Ok gds /\
    (forall g,
       In g (map GoalSerializer.instance gds) <->
       In g (goals db) /\ Goal.user g = user /\ Goal.is_active g = true
       /\ Spec.not_expired today g = true) /\
    Forall (fun gd => GoalSerializer.is_expired gd = false) gds /\
    StronglySorted (fun a b => Goal.created_at b <= Goal.created_at a)
      (map GoalSerializer.instance gds).
Proof.
  intros Hv. rewrite active_eq.
  destruct (mapM_ok (GoalSerializer.to_representation (health_metrics db) today)
              (DashboardViewSet.active_goals_queryset db user today))
    as (gds & Hgds & Hall).
  { intros g _. unfold GoalSerializer.to_representation.
    destruct (get_progress_ok (health_metrics db) today g Hv) as (p & ->).
    cbn. eexists. reflexivity. }
  exists gds. split; [exact Hgds | ].
  assert (Hmap : map GoalSerializer.instance gds
                 = DashboardViewSet.active_goals_queryset db user today).
  { apply (mapM_map _ _ _ _ (fun g gd H => proj1 (to_representation_Ok _ _ _ _ H)) Hgds). }
  split; [ | split].
  - intros g. rewrite Hmap, In_active_goals_queryset, not_expired_is_expired.
    rewrite negb_true_iff. tauto.
  - apply Forall_forall. intros gd Hgd.
    apply (mapM_In _ _ _ gd Hgds) in Hgd. destruct Hgd as (g & Hg & Hrep).
    apply to_representation_Ok in Hrep. destruct Hrep as (_ & -> & _).
    now apply In_active_goals_queryset in Hg.
  - rewrite Hmap. unfold DashboardViewSet.active_goals_queryset.
    apply (StronglySorted_weaken (precedes Goal.ordering)).
    + intros a b H. unfold precedes, Goal.ordering in H. now apply Z.leb_le.
    + apply order_by_sorted; [apply goal_ordering_total | apply goal_ordering_trans].
Qed.

Lemma active_goals_listed_witness :
  valid Sample.today /\
  exists gds,
    GoalViewSet.active Sample.db 1 Sample.today = Ok gds /\
    map (fun gd => Goal.id (GoalSerializer.instance gd)) gds = [2; 1].
Proof.
  assert (Hv : valid Sample.today) by (repeat split; discriminate).
  split; [exact Hv | ].
  destruct (active_goals_listed Sample.db 1 Sample.today Hv) as (gds & Hgds & _).
  exists gds. split; [exact Hgds | ].
  vm_compute in Hgds. injection Hgds as <-. reflexivity.
Defined.

Module MoreDeactivateFacts.

(** The goal [deactivate] writes back at time [now]. *)
Lemma deactivate_inv (db : Database) (user pk now : Z) :
  match GoalViewSet.get_object db user pk with
  | Ok goal =>
      In goal (goals db) /\ Goal.id goal = pk /\ Goal.user goal = user /\
      GoalViewSet.deactivate db user pk now
      = (Ok "Goal deactivated"%string,
         mkdb (metric_types db) (health_metrics db)
           (map (fun r =>
                   if Goal.id r =? pk
                   then Goal.mk pk user (Goal.metric_type goal)
                          (Goal.target_value goal) (Goal.goal_type goal)
                          (Goal.direction goal) false (Goal.start_date goal)
                          (Goal.end_date goal) (Goal.created_at goal) now
                   else r)
              (goals db)))
  | Err e => e = Http404 /\ GoalViewSet.deactivate db user pk now = (Err Http404, db)
  end.
Proof.
  unfold GoalViewSet.deactivate, GoalViewSet.get_object, GoalViewSet.get_queryset.
  destruct (find _ _) as [goal | ] eqn:Hfind.
  - apply find_some in Hfind. destruct Hfind as [Hin Hid].
    apply filter_In in Hin. destruct Hin as [Hin Hu].
    apply Z.eqb_eq in Hid, Hu. subst pk user.
    repeat split; assumption.
  - split; reflexivity.
Qed.

Lemma get_object_none (db : Database) (user pk : Z) :
  (forall g, In g (goals db) -> Goal.id g = pk -> Goal.user g <> user) ->
  GoalViewSet.get_object db user pk = Err Http404.
Proof.
  intros H. unfold GoalViewSet.get_object, GoalViewSet.get_queryset.
  destruct (find _ _) as [goal | ] eqn:Hfind; [ | reflexivity].
  apply find_some in Hfind. destruct Hfind as [Hin Hid].
  apply filter_In in Hin. destruct Hin as [Hin Hu].
  apply Z.eqb_eq in Hid, Hu. exfalso. exact (H goal Hin Hid Hu).
Qed.

(** After the write the goal found under [pk] is the written one. *)
Lemma get_object_after (l : list Goal.t) (user pk : Z) (goal w : Goal.t) :
  find (fun g => Goal.id g =? pk) (filter (fun g => Goal.user g =? user) l)
  = Some goal ->
  Goal.id w = pk -> Goal.user w = user ->
  find (fun g => Goal.id g =? pk)
    (filter (fun g => Goal.user g =? user)
       (map (fun r => if Goal.id r =? pk then w else r) l))
  = Some w.
Proof.
  intros Hfind Hid Hu. induction l as [ | r l IH]; cbn in *; [discriminate | ].
  destruct (Goal.id r =? pk) eqn:Er.
  - rewrite Hu, Z.eqb_refl. cbn. now rewrite Hid, Z.eqb_refl.
  - destruct (Goal.user r =? user); cbn in *.
    + rewrite Er in *. now apply IH.
    + now apply IH.
Qed.

Lemma map_write_twice (l : list Goal.t) (pk : Z) (w : Goal.t) :
  Goal.id w = pk ->
  map (fun r => if Goal.id r =? pk then w else r)
    (map (fun r => if Goal.id r =? pk then w else r) l)
  = map (fun r => if Goal.id r =? pk then w else r) l.
Proof.
  intros Hid. rewrite map_map. apply map_ext. intros r.
  destruct (Goal.id r =? pk) eqn:Er; [ | now rewrite Er].
  now rewrite Hid, Z.eqb_refl.
Qed.

Lemma active_after_write (l : list Goal.t) (pk : Z) (w : Goal.t) :
  Goal.is_active w = false ->
  filter Goal.is_active (map (fun r => if Goal.id r =? pk then w else r) l)
  = filter (fun r => negb (Goal.id r =? pk)) (filter Goal.is_active l).
Proof.
  intros Hw. induction l as [ | r l IH]; cbn; [reflexivity | ].
  destruct (Goal.id r =? pk) eqn:Er.
  - rewrite Hw. destruct (Goal.is_active r); cbn; [rewrite Er; cbn | ]; exact IH.
  - destruct (Goal.is_active r); cbn; [rewrite Er; cbn | ]; now rewrite IH.
Qed.

End MoreDeactivateFacts.
Import MoreDeactivateFacts.

(** X9: deactivating a goal that does not exist or that belongs to another
    user answers 404 and changes nothing. *)
Theorem deactivate_not_found (db : Database) (user pk now : Z) :
  (forall g, In g (goals db) -> Goal.id g = pk -> Goal.user g <> user) ->
  GoalViewSet.deactivate db user pk now = (Err Http404, db).
Proof.
  intros H. pose proof (deactivate_inv db user pk now) as Hinv.
  rewrite (get_object_none db user pk H) in Hinv. apply Hinv.
Qed.

Lemma deactivate_not_found_witness :
  GoalViewSet.deactivate Sample.db 2 1 500 = (Err Http404, Sample.db).
Proof.
  apply deactivate_not_found. intros g Hin _.
  cbn in Hin. repeat (destruct Hin as [<- | Hin]; [discriminate | ]). contradiction.
Defined.

(** X10: deactivating twice is deactivating once: the second request gets
    the same answer and leaves the database as the first one left it. *)
Theorem deactivate_idempotent (db : Database) (user pk now : Z) :
  GoalViewSet.deactivate (snd (GoalViewSet.deactivate db user pk now)) user pk now
  = GoalViewSet.deactivate db user pk now.
Proof.
  pose proof (deactivate_inv db user pk now) as Hinv.
  destruct (GoalViewSet.get_object db user pk) as [goal | e] eqn:Hget.
  - destruct Hinv as (Hin & Hid & Hu & ->). cbn [snd].
    set (w := Goal.mk pk user (Goal.metric_type goal) (Goal.target_value goal)
                (Goal.goal_type goal) (Goal.direction goal) false
                (Goal.start_date goal) (Goal.end_date goal)
                (Goal.created_at goal) now).
    set (db' := mkdb (metric_types db) (health_metrics db)
                  (map (fun r => if Goal.id r =? pk then w else r) (goals db))).
    pose proof (deactivate_inv db' user pk now) as Hinv'.
    assert (Hget' : GoalViewSet.get_object db' user pk = Ok w).
    { unfold GoalViewSet.get_object, GoalViewSet.get_queryset in *. cbn [goals db'].
      destruct (find _ (filter _ (goals db))) as [g0 | ] eqn:Hf; [ | discriminate].
      now rewrite (get_object_after (goals db) user pk g0 w Hf eq_refl eq_refl). }
    rewrite Hget' in Hinv'. destruct Hinv' as (_ & _ & _ & ->).
    unfold db'. cbn [metric_types health_metrics goals Goal.metric_type
      Goal.target_value Goal.goal_type Goal.direction Goal.start_date Goal.end_date
      Goal.created_at w].
    fold w. now rewrite (map_write_twice (goals db) pk w eq_refl).
  - destruct Hinv as [_ ->]. cbn [snd].
    pose proof (deactivate_inv db user pk now) as Hinv'.
    rewrite Hget in Hinv'. apply Hinv'.
Qed.

(** X11: deactivating a goal keeps the primary keys of the goals and the
    constraint [unique_active_goal_per_type]. *)
Theorem deactivate_keeps_constraints (db : Database) (user pk now : Z) :
  let db' := snd (GoalViewSet.deactivate db user pk now) in
  map Goal.id (goals db') = map Goal.id (goals db) /\
  (Goal.unique_active_goal_per_type (goals db) ->
   Goal.unique_active_goal_per_type (goals db')).
Proof.
  cbv zeta. pose proof (deactivate_inv db user pk now) as Hinv.
  destruct (GoalViewSet.get_object db user pk) as [goal | e].
  - destruct Hinv as (_ & _ & _ & ->). cbn [snd goals]. split.
    + rewrite map_map. apply map_ext. intros r.
      destruct (Goal.id r =? pk) eqn:Er; [ | reflexivity].
      apply Z.eqb_eq in Er. now rewrite Er.
    + unfold Goal.unique_active_goal_per_type.
      rewrite active_after_write by reflexivity. apply NoDup_map_filter.
  - destruct Hinv as [_ ->]. cbn [snd]. split; [reflexivity | auto].
Qed.

Lemma deactivate_keeps_constraints_witness :
  Goal.unique_active_goal_per_type
    (goals (snd (GoalViewSet.deactivate Sample.db 1 1 500))).
Proof.
  apply (deactivate_keeps_constraints Sample.db 1 1 500).
  unfold Goal.unique_active_goal_per_type. cbn.
  repeat constructor; cbn; intuition discriminate.
Defined.

(** X12: after a goal is deactivated the [active] action lists what it
    listed before without the goal. *)
Theorem deactivated_goal_not_active (db db' : Database) (user pk now : Z)
    (response : string) (today : date) :
  GoalViewSet.deactivate db user pk now = (Ok response, db') ->
  valid today ->
  exists gds gds',
    GoalViewSet.active db user today = Ok gds /\
    GoalViewSet.active db' user today = Ok gds' /\
    forall gd,
      In gd gds' <->
      In gd gds /\ Goal.id (GoalSerializer.instance gd) <> pk.
Proof.
  intros Hd Hv.
  destruct (active_ok db user today Hv) as (gds & Hgds).
  destruct (active_ok db' user today Hv) as (gds' & Hgds').
  exists gds, gds'. split; [exact Hgds | ]. split; [exact Hgds' | ].
  rewrite active_eq in Hgds, Hgds'.
  pose proof (deactivate_inv db user pk now) as Hinv.
  destruct (GoalViewSet.get_object db user pk) as [goal | e];
    [ | destruct Hinv as [_ Hinv]; rewrite Hinv in Hd; discriminate].
  destruct Hinv as (_ & _ & _ & Hinv). rewrite Hinv in Hd. injection Hd as _ <-.
  cbn [health_metrics] in Hgds'.
  intros gd. rewrite (mapM_In _ _ _ gd Hgds'), (mapM_In _ _ _ gd Hgds). split.
  - intros (g & Hg & Hrep). apply In_active_goals_queryset in Hg.
    cbn [goals] in Hg. destruct Hg as (Hin & Hu & Hact & Hexp).
    apply in_map_iff in Hin. destruct Hin as (r & Hr & Hrin).
    destruct (Goal.id r =? pk) eqn:Er.
    + subst g. discriminate Hact.
    + subst g. split.
      * exists r. split; [ | exact Hrep]. now apply In_active_goals_queryset.
      * apply to_representation_Ok in Hrep. destruct Hrep as (-> & _).
        now apply Z.eqb_neq.
  - intros ((g & Hg & Hrep) & Hne). exists g. split; [ | exact Hrep].
    apply In_active_goals_queryset in Hg. destruct Hg as (Hin & Hu & Hact & Hexp).
    apply In_active_goals_queryset. cbn [goals]. repeat split; try assumption.
    apply in_map_iff. exists g. split; [ | exact Hin].
    apply to_representation_Ok in Hrep. destruct Hrep as (Hi & _).
    rewrite Hi in Hne. apply Z.eqb_neq in Hne. now rewrite Hne.
Qed.

Lemma deactivated_goal_not_active_witness :
  valid Sample.today /\
  exists gds',
    GoalViewSet.active (snd (GoalViewSet.deactivate Sample.db 1 1 500)) 1 Sample.today
    = Ok gds' /\
    map (fun gd => Goal.id (GoalSerializer.instance gd)) gds' = [2].
Proof.
  assert (Hv : valid Sample.today) by (repeat split; discriminate).
  split; [exact Hv | ].
  destruct (deactivated_goal_not_active Sample.db
              (snd (GoalViewSet.deactivate Sample.db 1 1 500)) 1 1 500
              "Goal deactivated" Sample.today eq_refl Hv)
    as (gds & gds' & _ & Hgds' & _).
  exists gds'. split; [exact Hgds' | ].
  vm_compute in Hgds'. injection Hgds' as <-. reflexivity.
Defined.

(** ** Further properties: observations and the dashboard *)

Module MoreCreateFacts.

(** The two outcomes of a create request. *)
Lemma create_inv (db : Database) (user : Z) (today : date) (now : Z)
    (d : HealthMetricCreateSerializer.data) :
  (exists e, HealthMetricViewSet.create db user today now d = (Err e, db))
  \/
  (exists mt,
     let pk := HealthMetricCreateSerializer.data_metric_type d in
     let v := Decimal.to_Q (HealthMetricCreateSerializer.data_value d) in
     let row :=
       HealthMetric.mk (HealthMetricManager.next_id (health_metrics db)) user pk v
         (Spec.date_of today d) (HealthMetricCreateSerializer.data_notes d) now now in
     HealthMetricViewSet.create db user today now d
     = (Ok row, mkdb (metric_types db) (health_metrics db ++ [row]) (goals db)) /\
     find (fun m => MetricType.id m =? pk) (metric_types db) = Some mt /\
     DecimalField.validate_precision 10 2
       (HealthMetricCreateSerializer.data_value d) = true /\
     (0 <= v)%Q /\
     MetricType.below_min mt v = false /\ MetricType.above_max mt v = false /\
     forall r, In r (health_metrics db) -> HealthMetric.key r <> HealthMetric.key row).
Proof.
  unfold HealthMetricViewSet.create,
    HealthMetricCreateSerializer.to_internal_value,
    HealthMetricCreateSerializer.validate, HealthMetricCreateSerializer.create,
    HealthMetricManager.create, Spec.date_of.
  destruct d as [pk lit rd notes]. cbn [HealthMetricCreateSerializer.data_metric_type
    HealthMetricCreateSerializer.data_value HealthMetricCreateSerializer.data_recorded_date
    HealthMetricCreateSerializer.data_notes].
  set (date := match rd with Some x => x | None => today end).
  set (v := Decimal.to_Q lit).
  destruct (find _ (metric_types db)) as [m | ] eqn:Hfind; cbn [bind];
    [ | left; eexists; reflexivity].
  pose proof (find_metric_type _ _ _ Hfind) as Hid.
  destruct (DecimalField.validate_precision 10 2 lit) eqn:Hdigits; cbn [negb bind];
    [ | left; eexists; reflexivity].
  destruct (Qltb v 0) eqn:Hv; cbn [bind]; [left; eexists; reflexivity | ].
  simp_attrs.
  destruct (MetricType.below_min m v) eqn:Hlo; cbn [bind];
    [left; eexists; reflexivity | ].
  destruct (MetricType.above_max m v) eqn:Hhi; cbn [bind];
    [left; eexists; reflexivity | ].
  fold date. rewrite Hid.
  destruct (exists_ (filter (HealthMetric.same_key user pk date) (health_metrics db)))
    eqn:Hex; cbn [bind]; [left; eexists; reflexivity | ].
  simp_attrs. fold date. rewrite Hid, Hex.
  right. exists m. cbv zeta. split; [reflexivity | ].
  split; [reflexivity | ]. split; [reflexivity | ]. split; [now apply Qltb_ge | ].
  split; [exact Hlo | ]. split; [exact Hhi | ].
  intros r Hr Hkey. apply not_true_iff_false in Hex. apply Hex.
  apply existing_iff. exists r. split; [exact Hr | ].
  unfold HealthMetric.key in Hkey. cbn in Hkey. now injection Hkey as -> -> ->.
Qed.

Lemma next_id_above (tbl : list HealthMetric.t) (r : HealthMetric.t) :
  In r tbl -> HealthMetric.id r < HealthMetricManager.next_id tbl.
Proof.
  unfold HealthMetricManager.next_id.
  induction tbl as [ | x tbl IH]; cbn [fold_right In]; [contradiction | ].
  intros [-> | H]; [lia | ]. specialize (IH H). lia.
Qed.

Lemma NoDup_map_snoc {A B : Type} (f : A -> B) (l : list A) (x : A) :
  NoDup (map f l) -> (forall a, In a l -> f a <> f x) -> NoDup (map f (l ++ [x])).
Proof.
  intros Hnd Hx. rewrite map_app. cbn.
  apply (Permutation_NoDup (Permutation_cons_append (map f l) (f x))).
  constructor; [ | exact Hnd].
  intros Hin. apply in_map_iff in Hin. destruct Hin as (a & Ea & Ha).
  exact (Hx a Ha Ea).
Qed.

End MoreCreateFacts.
Import MoreCreateFacts.

(** X13: whatever its outcome, a create request leaves the observations
    that exist as they are, and keeps the primary keys distinct and the
    constraint [unique_daily_metric]. *)
Theorem create_keeps_constraints (db : Database) (user : Z) (today : date)
    (now : Z) (d : HealthMetricCreateSerializer.data) :
  let db' := snd (HealthMetricViewSet.create db user today now d) in
  (exists added, health_metrics db' = health_metrics db ++ added) /\
  metric_types db' = metric_types db /\ goals db' = goals db /\
  (HealthMetric.primary_key (health_metrics db) ->
   HealthMetric.primary_key (health_metrics db')) /\
  (HealthMetric.unique_daily_metric (health_metrics db) ->
   HealthMetric.unique_daily_metric (health_metrics db')).
Proof.
  cbv zeta. destruct (create_inv db user today now d) as [(e & ->) | (mt & H)].
  - cbn [snd]. split; [exists []; now rewrite app_nil_r | ]. tauto.
  - cbv zeta in H. destruct H as (-> & _ & _ & _ & _ & _ & Hkey).
    cbn [snd health_metrics metric_types goals].
    split; [eexists; reflexivity | ]. split; [reflexivity | ].
    split; [reflexivity | ]. split.
    + intros Hpk. apply NoDup_map_snoc; [exact Hpk | ].
      intros a Ha. pose proof (next_id_above _ _ Ha). cbn [HealthMetric.id]. lia.
    + intros Hu. apply NoDup_map_snoc; [exact Hu | exact Hkey].
Qed.

Lemma create_keeps_constraints_witness :
  HealthMetric.unique_daily_metric
    (health_metrics
       (snd (HealthMetricViewSet.create Sample.db 1 Sample.today 100
               (Sample.request 1 7000 (mkdate 2024 5 16))))).
Proof.
  apply (create_keeps_constraints Sample.db 1 Sample.today 100).
  unfold HealthMetric.unique_daily_metric. cbn.
  repeat constructor; cbn; intuition discriminate.
Defined.

Module MoreDashboardFacts.

Lemma restrict_progress (metrics : list HealthMetric.t) (today : date) (g : Goal.t) :
  GoalSerializer.get_progress
    (filter (fun m => HealthMetric.user m =? Goal.user g) metrics) today g
  = GoalSerializer.get_progress metrics today g.
Proof.
  apply get_progress_concerns. rewrite filter_and. apply filter_ext. intros m.
  unfold Props.concerns.
  destruct (HealthMetric.user m =? Goal.user g); reflexivity.
Qed.

Lemma active_goals_queryset_restrict (db : Database) (user : Z) (today : date) :
  DashboardViewSet.active_goals_queryset (Props.restrict db user) user today
  = DashboardViewSet.active_goals_queryset db user today.
Proof.
  unfold DashboardViewSet.active_goals_queryset, Props.restrict. cbn [goals].
  do 2 f_equal. rewrite filter_and. apply filter_ext. intros g.
  destruct (Goal.user g =? user); reflexivity.
Qed.

(** The dashboard reads the user's rows only. *)
Lemma list_restrict (db : Database) (user : Z) (today : date) :
  DashboardViewSet.list (Props.restrict db user) user today
  = DashboardViewSet.list db user today.
Proof.
  unfold DashboardViewSet.list. rewrite active_goals_queryset_restrict.
  destruct (Date.sub_days today 7) as [w | e]; cbn [bind]; [ | reflexivity].
  assert (Hmap : mapM (GoalSerializer.to_representation
                         (health_metrics (Props.restrict db user)) today)
                   (DashboardViewSet.active_goals_queryset db user today)
                 = mapM (GoalSerializer.to_representation (health_metrics db) today)
                     (DashboardViewSet.active_goals_queryset db user today)).
  { apply mapM_ext_in. intros g Hg. apply In_active_goals_queryset in Hg.
    destruct Hg as (_ & Hu & _). unfold GoalSerializer.to_representation.
    cbn [Props.restrict health_metrics]. rewrite <- Hu.
    now rewrite restrict_progress. }
  rewrite Hmap. cbn [Props.restrict health_metrics].
  rewrite filter_idem.
  assert (Hweek : filter (fun m => (HealthMetric.user m =? user)
                                   && Date.leb w (HealthMetric.recorded_date m))
                    (filter (fun m => HealthMetric.user m =? user) (health_metrics db))
                  = filter (fun m => (HealthMetric.user m =? user)
                                     && Date.leb w (HealthMetric.recorded_date m))
                      (health_metrics db)).
  { rewrite filter_and. apply filter_ext. intros m.
    destruct (HealthMetric.user m =? user); reflexivity. }
  now rewrite Hweek.
Qed.

Lemma list_of_own_rows (db db' : Database) (user : Z) (today : date) :
  filter (fun m => HealthMetric.user m =? user) (health_metrics db)
  = filter (fun m => HealthMetric.user m =? user) (health_metrics db') ->
  filter (fun g => Goal.user g =? user) (goals db)
  = filter (fun g => Goal.user g =? user) (goals db') ->
  DashboardViewSet.list db user today = DashboardViewSet.list db' user today.
Proof.
  intros Em Eg. rewrite <- (list_restrict db), <- (list_restrict db').
  unfold Props.restrict. rewrite Em, Eg. reflexivity.
Qed.

End MoreDashboardFacts.
Import MoreDashboardFacts.



Module CountFacts.

Lemma filter_none {A : Type} (f : A -> bool) (l : list A) :
  (forall a, In a l -> f a = false) -> filter f l = [].
Proof.
  induction l as [ | a l IH]; intros H; cbn; [reflexivity | ].
  rewrite (H a (or_introl eq_refl)). apply IH. intros x Hx. apply H. now right.
Qed.

Lemma count_filter_le {A : Type} (f : A -> bool) (l : list A) :
  0 <= count (filter f l) <= count l.
Proof.
  unfold count. pose proof (filter_length_le f l). lia.
Qed.

End CountFacts.
Import CountFacts.

(** X15: after an observation is created the user's dashboard shows one
    observation more in total and as many active goals as before, and the
    dashboard of every other user is what it was. *)
Theorem create_updates_dashboard (db db' : Database) (user : Z) (today : date)
    (now : Z) (d : HealthMetricCreateSerializer.data) (row : HealthMetric.t)
    (today' : date) :
  HealthMetricViewSet.create db user today now d = (Ok row, db') ->
  valid today' -> 7 < toordinal today' ->
  (exists r r',
     DashboardViewSet.list db user today' = Ok r /\
     DashboardViewSet.list db' user today' = Ok r' /\
     DashboardViewSet.total_metrics_logged r'
     = DashboardViewSet.total_metrics_logged r + 1 /\
     DashboardViewSet.active_goals r' = DashboardViewSet.active_goals r) /\
  (forall other,
     other <> user ->
     DashboardViewSet.list db' other today' = DashboardViewSet.list db other today').
Proof.
  intros Hc Hv H7.
  assert (Hdb : exists added,
            health_metrics db' = health_metrics db ++ [added] /\
            HealthMetric.user added = user /\ goals db' = goals db).
  { destruct (create_inv db user today now d) as [(e & He) | (mt & H)];
      [rewrite He in Hc; discriminate | ].
    cbv zeta in H. destruct H as (Hc' & _). rewrite Hc' in Hc.
    injection Hc as _ <-. eexists. cbn [health_metrics goals].
    split; [reflexivity | ]. split; reflexivity. }
  destruct Hdb as (added & Hm & Hu & Hg). split.
  - destruct (list_ok db user today' Hv H7)
      as (w & gd & r & _ & _ & _ & Hr & Htotal & _ & Hactive & _).
    destruct (list_ok db' user today' Hv H7)
      as (w' & gd' & r' & _ & _ & _ & Hr' & Htotal' & _ & Hactive' & _).
    exists r, r'. split; [exact Hr | ]. split; [exact Hr' | ].
    rewrite Htotal, Htotal', Hactive, Hactive'. split.
    + rewrite Hm, filter_app. cbn [filter]. rewrite Hu, Z.eqb_refl.
      unfold count. rewrite length_app. cbn [length]. lia.
    + unfold DashboardViewSet.active_goals_queryset. now rewrite Hg.
  - intros other Hne. apply list_of_own_rows; [ | now rewrite Hg].
    rewrite Hm, filter_app. cbn [filter].
    apply Z.eqb_neq in Hne. rewrite Z.eqb_sym in Hne. rewrite Hu, Hne.
    now rewrite app_nil_r.
Qed.

Lemma create_updates_dashboard_witness :
  exists r r',
    DashboardViewSet.list Sample.db 1 Sample.today = Ok r /\
    DashboardViewSet.list
      (snd (HealthMetricViewSet.create Sample.db 1 Sample.today 100
              (Sample.request 1 7000 (mkdate 2024 5 16)))) 1 Sample.today = Ok r' /\
    DashboardViewSet.total_metrics_logged r'
    = DashboardViewSet.total_metrics_logged r + 1.
Proof.
  assert (Hv : valid Sample.today) by (repeat split; discriminate).
  destruct (create_updates_dashboard Sample.db _ 1 Sample.today 100
              (Sample.request 1 7000 (mkdate 2024 5 16)) _ Sample.today
              eq_refl Hv eq_refl)
    as [(r & r' & Hr & Hr' & Ht & _) _].
  exists r, r'. repeat split; assumption.
Defined.

(** X16: on a dashboard the goals on track are among the active goals,
    one entry of the goal progress list each, and this week's observations
    are among all the observations. *)
Theorem dashboard_counts_consistent (db : Database) (user : Z) (today : date) :
  valid today -> 7 < toordinal today ->
  exists r,
    DashboardViewSet.list db user today = Ok r /\
    0 <= DashboardViewSet.goals_on_track r <= DashboardViewSet.active_goals r /\
    DashboardViewSet.active_goals r = count (DashboardViewSet.goal_progress r) /\
    0 <= DashboardViewSet.metrics_this_week r
      <= DashboardViewSet.total_metrics_logged r /\
    count (DashboardViewSet.recent_metrics r)
      <= DashboardViewSet.total_metrics_logged r.
Proof.
  intros Hv H7.
  destruct (list_ok db user today Hv H7)
    as (w & gd & r & _ & _ & Hall & Hr & Htotal & Hweek & Hactive & Htrack
        & Hrecent & Hgp).
  exists r. split; [exact Hr | ].
  assert (Hlen : count gd = count (DashboardViewSet.active_goals_queryset db user today)).
  { unfold count. f_equal. symmetry. exact (Forall2_length Hall). }
  rewrite Htrack, Hactive, Hgp, Hweek, Htotal, Hrecent, <- Hlen.
  split; [apply count_filter_le | ]. split; [reflexivity | ]. split.
  - assert (E : filter (fun m => (HealthMetric.user m =? user)
                                 && Date.leb w (HealthMetric.recorded_date m))
                  (health_metrics db)
                = filter (fun m => Date.leb w (HealthMetric.recorded_date m))
                    (filter (fun m => HealthMetric.user m =? user) (health_metrics db)))
      by (now rewrite filter_and).
    rewrite E. apply count_filter_le.
  - unfold count. rewrite length_firstn.
    rewrite (Permutation_length (order_by_perm HealthMetric.ordering _)). lia.
Qed.

Lemma dashboard_counts_consistent_witness :
  valid Sample.today /\ 7 < toordinal Sample.today /\
  exists r,
    DashboardViewSet.list Sample.db 1 Sample.today = Ok r /\
    DashboardViewSet.goals_on_track r <= DashboardViewSet.active_goals r.
Proof.
  assert (Hv : valid Sample.today) by (repeat split; discriminate).
  assert (H7 : 7 < toordinal Sample.today) by reflexivity.
  split; [exact Hv | ]. split; [exact H7 | ].
  destruct (dashboard_counts_consistent Sample.db 1 Sample.today Hv H7)
    as (r & Hr & Htrack & _).
  exists r. split; [exact Hr | lia].
Defined.

(** X17: a user without observations and without goals gets a dashboard of
    zero counts and empty lists, not an error. *)
Theorem dashboard_of_new_user (db : Database) (user : Z) (today : date) :
  valid today -> 7 < toordinal today ->
  (forall m, In m (health_metrics db) -> HealthMetric.user m <> user) ->
  (forall g, In g (goals db) -> Goal.user g <> user) ->
  DashboardViewSet.list db user today
  = Ok (DashboardViewSet.mkresponse 0 0 0 0 [] []).
Proof.
  intros Hv H7 Hm Hg.
  rewrite (list_of_own_rows db (mkdb [] [] []) user today).
  - unfold DashboardViewSet.list.
    destruct (sub_days_ok today 7 Hv) as (w & -> & _); [lia | ]. reflexivity.
  - cbn [health_metrics filter]. apply filter_none. intros m Hin.
    apply Z.eqb_neq. now apply Hm.
  - cbn [goals filter]. apply filter_none. intros g Hin.
    apply Z.eqb_neq. now apply Hg.
Qed.

Lemma dashboard_of_new_user_witness :
  DashboardViewSet.list Sample.db 2 Sample.today
  = Ok (DashboardViewSet.mkresponse 0 0 0 0 [] []).
Proof.
  apply dashboard_of_new_user.
  - repeat split; discriminate.
  - reflexivity.
  - intros m Hin. cbn in Hin.
    repeat (destruct Hin as [<- | Hin]; [discriminate | ]). contradiction.
  - intros g Hin. cbn in Hin.
    repeat (destruct Hin as [<- | Hin]; [discriminate | ]). contradiction.
Defined.

(** ** Further properties: profiles and bounds *)

Module ProfileFacts.

Lemma find_snoc {A : Type} (f : A -> bool) (l : list A) (x : A) :
  find f l = None -> f x = true -> find f (l ++ [x]) = Some x.
Proof.
  intros Hn Hx. induction l as [ | a l IH]; cbn in *; [now rewrite Hx | ].
  destruct (f a); [discriminate | now apply IH].
Qed.

Lemma profile_next_id_above (tbl : list UserProfile.t) (r : UserProfile.t) :
  In r tbl -> UserProfile.id r < UserProfileManager.next_id tbl.
Proof.
  unfold UserProfileManager.next_id.
  induction tbl as [ | x tbl IH]; cbn [fold_right In]; [contradiction | ].
  intros [-> | H]; [lia | ]. specialize (IH H). lia.
Qed.

End ProfileFacts.
Import ProfileFacts.

(** X18: the profile of a user is made on the first access and found on
    every later one. [get_object] returns a profile of the user that is in
    the table afterwards. For a user who has a profile it is a profile of
    the table, which stays as it is; for a user who has none it is a new row
    at the end of the table, with a new primary key and the defaults of
    the columns: no date of birth, no height, time zone UTC, notifications
    enabled. No profile that exists is changed, a second call gives the
    same profile and table, and one profile per user is kept. *)
Theorem profile_made_once (tbl : list UserProfile.t) (now : Z) (user : Z) :
  let p := fst (UserProfileViewSet.get_object tbl now user) in
  let tbl' := snd (UserProfileViewSet.get_object tbl now user) in
  let has_profile := exists q, In q tbl /\ UserProfile.user q = user in
  UserProfile.user p = user /\ In p tbl' /\
  (has_profile -> In p tbl /\ tbl' = tbl) /\
  (~ has_profile ->
   tbl' = tbl ++ [p] /\
   (forall q, In q tbl -> UserProfile.id q <> UserProfile.id p) /\
   UserProfile.date_of_birth p = None /\
   UserProfile.height_cm p = None /\
   UserProfile.timezone p = "UTC"%string /\
   UserProfile.notifications_enabled p = true) /\
  (exists added, tbl' = tbl ++ added) /\
  (forall later, UserProfileViewSet.get_object tbl' later user = (p, tbl')) /\
  (NoDup (map UserProfile.user tbl) -> NoDup (map UserProfile.user tbl')).
Proof.
  cbv zeta. unfold UserProfileViewSet.get_object, UserProfileManager.get_or_create.
  destruct (find (fun p => UserProfile.user p =? user) tbl) as [p | ] eqn:Hfind.
  - cbn [fst snd]. pose proof (find_some _ _ Hfind) as [Hin Hu].
    apply Z.eqb_eq in Hu. split; [exact Hu | ]. split; [exact Hin | ].
    split; [intros _; split; [exact Hin | reflexivity] | ].
    split; [intros Hno; exfalso; apply Hno; now exists p | ].
    split; [exists []; now rewrite app_nil_r | ]. split; [ | auto].
    intros later. now rewrite Hfind.
  - cbn [fst snd UserProfile.user]. split; [reflexivity | ].
    split; [apply in_or_app; right; now left | ].
    split.
    { intros (q & Hq & Hu). exfalso.
      pose proof (find_none _ _ Hfind q Hq) as E. cbn in E.
      rewrite Hu, Z.eqb_refl in E. discriminate. }
    split.
    { intros _. split; [reflexivity | ].
      cbn [UserProfile.id UserProfile.date_of_birth UserProfile.height_cm
           UserProfile.timezone UserProfile.notifications_enabled].
      split; [ | repeat split; reflexivity].
      intros q Hq. pose proof (profile_next_id_above tbl q Hq). lia. }
    split; [eexists; reflexivity | ]. split.
    + intros later. rewrite (find_snoc _ tbl _ Hfind); [reflexivity | ].
      cbn [UserProfile.user]. apply Z.eqb_refl.
    + intros Hnd. apply NoDup_map_snoc; [exact Hnd | ].
      intros a Ha. cbn [UserProfile.user]. apply Z.eqb_neq.
      exact (find_none _ _ Hfind a Ha).
Qed.

Lemma profile_made_once_witness :
  let tbl := [UserProfile.mk 1 5 None (Some 180) "Europe/Paris" false 0 0] in
  let p := fst (UserProfileViewSet.get_object tbl 10 6) in
  UserProfile.timezone p = "UTC"%string /\
  UserProfile.height_cm p = None /\
  UserProfile.notifications_enabled p = true /\
  snd (UserProfileViewSet.get_object tbl 10 6) = tbl ++ [p] /\
  NoDup (map UserProfile.user (snd (UserProfileViewSet.get_object tbl 10 6))).
Proof.
  cbv zeta.
  destruct (profile_made_once
              [UserProfile.mk 1 5 None (Some 180) "Europe/Paris" false 0 0] 10 6)
    as (_ & _ & _ & Hnew & _ & _ & Hnd).
  destruct Hnew as (Htbl & _ & _ & Hh & Htz & Hn).
  { intros (q & [<- | []] & Hu). discriminate Hu. }
  split; [exact Htz | ]. split; [exact Hh | ]. split; [exact Hn | ].
  split; [exact Htbl | ]. apply Hnd.
  repeat constructor; cbn; intuition discriminate.
Defined.

Module BoundsFacts.

Lemma within_bounds_checks (mt : MetricType.t) (v : Q) :
  Props.within_bounds mt v ->
  MetricType.below_min mt v = false /\ MetricType.above_max mt v = false.
Proof.
  intros [Hlo Hhi]. unfold MetricType.below_min, MetricType.above_max. split.
  - destruct (MetricType.min_value mt) as [lo | ]; [ | apply andb_false_r].
    apply andb_false_iff. right. apply Qltb_ge. now apply Hlo.
  - destruct (MetricType.max_value mt) as [hi | ]; [ | apply andb_false_r].
    apply andb_false_iff. right. apply Qltb_ge. now apply Hhi.
Qed.

Lemma checks_within_bounds (mt : MetricType.t) (v : Q) :
  (forall lo, MetricType.min_value mt = Some lo -> ~ (lo == 0)%Q) ->
  (forall hi, MetricType.max_value mt = Some hi -> ~ (hi == 0)%Q) ->
  MetricType.below_min mt v = false -> MetricType.above_max mt v = false ->
  Props.within_bounds mt v.
Proof.
  intros Hlo Hhi Eb Ea.
  pose proof (bounds_check_nonzero mt v Hlo Hhi) as E. rewrite Eb, Ea in E.
  cbn in E. symmetry in E. unfold Spec.violates_bounds in E.
  apply orb_false_iff in E. destruct E as [E1 E2]. split.
  - intros lo El. rewrite El in E1. now apply Qltb_ge.
  - intros hi Eh. rewrite Eh in E2. now apply Qltb_ge.
Qed.

End BoundsFacts.
Import BoundsFacts.

(** X19: a value within the bounds of its metric type is never rejected by
    the bounds check, be it [clean], [validate] of the metric serializer or
    [validate] of the create serializer on an update, where no duplicate is
    looked for; with bounds other than zero these accept no other value. *)
Theorem bounds_check_sound (mt : MetricType.t) (row : HealthMetric.t) :
  let v := HealthMetric.value row in
  let a := HealthMetricSerializer.mkattrs (Some mt) (Some v) in
  let accepted :=
    HealthMetric.clean (Some mt) row = Ok tt /\
    HealthMetricSerializer.validate a = Ok a /\
    forall tbl user today inst notes date,
      HealthMetricCreateSerializer.validate tbl user today (Some inst)
        (HealthMetricCreateSerializer.mkattrs mt v date notes)
      = Ok (HealthMetricCreateSerializer.mkattrs mt v date notes) in
  (Props.within_bounds mt v -> accepted) /\
  ((forall lo, MetricType.min_value mt = Some lo -> ~ (lo == 0)%Q) ->
   (forall hi, MetricType.max_value mt = Some hi -> ~ (hi == 0)%Q) ->
   HealthMetric.clean (Some mt) row = Ok tt -> Props.within_bounds mt v).
Proof.
  cbv zeta. split.
  - intros H. destruct (within_bounds_checks mt _ H) as [Eb Ea].
    unfold HealthMetric.clean, HealthMetricSerializer.validate,
      HealthMetricCreateSerializer.validate.
    cbn [HealthMetricSerializer.metric_type HealthMetricSerializer.value
         HealthMetricCreateSerializer.metric_type HealthMetricCreateSerializer.value].
    rewrite Eb, Ea. repeat split.
  - intros Hlo Hhi Hc. unfold HealthMetric.clean in Hc.
    destruct (MetricType.below_min mt (HealthMetric.value row)) eqn:Eb;
      [discriminate | ].
    destruct (MetricType.above_max mt (HealthMetric.value row)) eqn:Ea;
      [discriminate | ].
    now apply checks_within_bounds.
Qed.

Lemma bounds_check_sound_witness :
  HealthMetric.clean (Some Sample.steps) (Sample.obs 1 8000 Sample.today 10) = Ok tt.
Proof.
  apply (bounds_check_sound Sample.steps (Sample.obs 1 8000 Sample.today 10)).
  split; intros b E; injection E as <-; discriminate.
Defined.

(** ** Further properties: trends and summary *)

Module TrendsFacts.

Lemma date_leb_total (a b : date) : Date.leb a b = true \/ Date.leb b a = true.
Proof. rewrite !leb_lex. lia. Qed.

Lemma date_leb_trans (a b c : date) :
  Date.leb a b = true -> Date.leb b c = true -> Date.leb a c = true.
Proof. rewrite !leb_lex. lia. Qed.

Lemma leb_neq_ltb (a b : date) :
  Date.leb a b = true -> a <> b -> Date.ltb a b = true.
Proof.
  unfold Date.leb, Date.ltb. intros H N.
  destruct (Date.cmp a b) eqn:E; try discriminate; [ | reflexivity].
  apply cmp_eq_iff in E. contradiction.
Qed.

Lemma StronglySorted_map {A B : Type} (f : A -> B) (R : B -> B -> Prop)
    (l : list A) :
  StronglySorted (fun a b => R (f a) (f b)) l -> StronglySorted R (map f l).
Proof.
  induction 1 as [ | a l _ IH Hall]; cbn; constructor; [exact IH | ].
  apply Forall_forall. intros b Hb. apply in_map_iff in Hb.
  destruct Hb as (x & <- & Hx). rewrite Forall_forall in Hall. now apply Hall.
Qed.

Lemma StronglySorted_strict {A K : Type} (k : A -> K) (R R' : A -> A -> Prop)
    (l : list A) :
  (forall a b, R a b -> k a <> k b -> R' a b) ->
  StronglySorted R l -> NoDup (map k l) -> StronglySorted R' l.
Proof.
  intros HR. induction 1 as [ | a l _ IH Hall]; cbn; intros Hnd; constructor.
  - apply IH. now inversion Hnd.
  - inversion Hnd as [ | ? ? Hnin _]; subst.
    rewrite Forall_forall in *. intros b Hb. apply HR; [now apply Hall | ].
    intros E. apply Hnin. rewrite E. now apply in_map.
Qed.

(** Under [unique_daily_metric] the observations of one user and metric
    type have distinct dates. *)
Lemma distinct_dates (tbl l : list HealthMetric.t) (u mt : Z) :
  HealthMetric.unique_daily_metric tbl ->
  Permutation l (filter (fun m => (HealthMetric.user m =? u)
                                  && (HealthMetric.metric_type m =? mt)) tbl) ->
  NoDup (map HealthMetric.recorded_date l).
Proof.
  intros Hu Hp.
  apply (Permutation_NoDup (Permutation_map _ (Permutation_sym Hp))).
  apply (NoDup_map_inv (fun d => (u, mt, d))). rewrite map_map.
  pose proof (NoDup_map_filter HealthMetric.key
                (fun m => (HealthMetric.user m =? u)
                          && (HealthMetric.metric_type m =? mt)) tbl Hu) as H.
  erewrite map_ext_in; [exact H | ].
  intros m Hm. apply filter_In in Hm. destruct Hm as [_ Hm].
  apply andb_true_iff in Hm. destruct Hm as [E1 E2].
  apply Z.eqb_eq in E1, E2. unfold HealthMetric.key. now rewrite E1, E2.
Qed.

End TrendsFacts.
Import TrendsFacts.

(** X20: [trends] answers a request without metric type with 400.
    Otherwise the period ends today and starts the given number of days
    (30 by default) earlier, and the data points are the user's
    observations of the metric type dated from the start of the period on,
    in the order of their dates; under [unique_daily_metric] no two points
    have the same date. *)
Theorem trends_points (db : Database) (user : Z) (today : date) (mt : Z)
    (days : option Z) :
  let n := match days with Some d => d | None => 30 end in
  valid today -> 0 <= n < toordinal today ->
  HealthMetricViewSet.trends db user today None days
  = Ok (Response400 "metric_type parameter is required") /\
  exists resp,
    HealthMetricViewSet.trends db user today (Some mt) days = Ok (Response200 resp) /\
    HealthMetricViewSet.metric_type_id resp = mt /\
    HealthMetricViewSet.period_end resp = today /\
    valid (HealthMetricViewSet.period_start resp) /\
    toordinal (HealthMetricViewSet.period_start resp) = toordinal today - n /\
    (forall pt,
       In pt (HealthMetricViewSet.data_points resp) <->
       exists m,
         In m (health_metrics db) /\ HealthMetric.user m = user /\
         HealthMetric.metric_type m = mt /\
         Date.leb (HealthMetricViewSet.period_start resp)
           (HealthMetric.recorded_date m) = true /\
         pt = (HealthMetric.recorded_date m, HealthMetric.value m)) /\
    StronglySorted (fun a b => Date.leb (fst a) (fst b) = true)
      (HealthMetricViewSet.data_points resp) /\
    (HealthMetric.unique_daily_metric (health_metrics db) ->
     StronglySorted (fun a b => Date.ltb (fst a) (fst b) = true)
       (HealthMetricViewSet.data_points resp)).
Proof.
  cbv zeta. intros Hv Hn. split; [reflexivity | ].
  unfold HealthMetricViewSet.trends.
  destruct (sub_days_ok today _ Hv Hn) as (start & -> & Hvs & Hord).
  cbn [bind]. eexists. split; [reflexivity | ].
  cbn [HealthMetricViewSet.metric_type_id HealthMetricViewSet.period_end
       HealthMetricViewSet.period_start HealthMetricViewSet.data_points].
  unfold float, HealthMetricViewSet.get_queryset.
  set (le := fun a b : HealthMetric.t =>
               Date.leb (HealthMetric.recorded_date a) (HealthMetric.recorded_date b)).
  set (rows := filter (fun m => (HealthMetric.metric_type m =? mt)
                                && Date.leb start (HealthMetric.recorded_date m))
                 (filter (fun m => HealthMetric.user m =? user) (health_metrics db))).
  pose proof (order_by_sorted le
                (fun a b => date_leb_total _ _)
                (fun a b c => date_leb_trans _ _ _) rows) as Hsorted.
  pose proof (order_by_perm le rows) as Hperm.
  split; [reflexivity | ]. split; [reflexivity | ]. split; [exact Hvs | ].
  split; [exact Hord | ]. split; [ | split].
  - intros pt. rewrite in_map_iff. split.
    + intros (m & <- & Hm). apply In_order_by in Hm. unfold rows in Hm.
      rewrite !filter_In, andb_true_iff, !Z.eqb_eq in Hm.
      exists m. tauto.
    + intros (m & Hin & Hu & Hmt & Hd & ->). exists m. split; [reflexivity | ].
      apply In_order_by. unfold rows.
      rewrite !filter_In, andb_true_iff, !Z.eqb_eq. tauto.
  - apply StronglySorted_map. exact Hsorted.
  - intros Huniq. apply StronglySorted_map. cbn [fst].
    apply (StronglySorted_strict HealthMetric.recorded_date (precedes le)).
    + intros a b Hab Hne. now apply leb_neq_ltb.
    + exact Hsorted.
    + apply (Permutation_NoDup (Permutation_map _ (Permutation_sym Hperm))).
      assert (Erows : rows
                      = filter (fun m => Date.leb start (HealthMetric.recorded_date m))
                          (filter (fun m => (HealthMetric.user m =? user)
                                            && (HealthMetric.metric_type m =? mt))
                             (health_metrics db))).
      { unfold rows. rewrite !filter_and. apply filter_ext. intros m.
        apply andb_assoc. }
      rewrite Erows. apply NoDup_map_filter.
      apply (distinct_dates (health_metrics db) _ user mt Huniq).
      apply Permutation_refl.
Qed.

Lemma trends_points_witness :
  valid Sample.today /\
  exists resp,
    HealthMetricViewSet.trends Sample.db 1 Sample.today (Some 1) None
    = Ok (Response200 resp) /\
    map fst (HealthMetricViewSet.data_points resp)
    = [mkdate 2024 4 30; mkdate 2024 5 14; Sample.today].
Proof.
  assert (Hv : valid Sample.today) by (repeat split; discriminate).
  split; [exact Hv | ].
  destruct (trends_points Sample.db 1 Sample.today 1 None Hv)
    as (_ & resp & Hresp & _); [split; [discriminate | reflexivity] | ].
  exists resp. split; [exact Hresp | ].
  vm_compute in Hresp. injection Hresp as <-. reflexivity.
Defined.

Module SummaryFacts.

Lemma key_eqb_eq (a b : string * string) :
  HealthMetricViewSet.key_eqb a b = true <-> a = b.
Proof.
  unfold HealthMetricViewSet.key_eqb. destruct a as [a1 a2], b as [b1 b2]. cbn.
  rewrite andb_true_iff, !String.eqb_eq. split; [intros [-> ->] | intros E];
    [reflexivity | now injection E as -> ->].
Qed.

Lemma key_eqb_refl (a : string * string) : HealthMetricViewSet.key_eqb a a = true.
Proof. now apply key_eqb_eq. Qed.

Lemma has_key_iff (types : list MetricType.t) (k : string * string)
    (m : HealthMetric.t) :
  HealthMetricViewSet.has_key types k m = true
  <-> HealthMetricViewSet.joined types m = Some k.
Proof.
  unfold HealthMetricViewSet.has_key.
  destruct (HealthMetricViewSet.joined types m) as [k' | ].
  - rewrite key_eqb_eq. split; congruence.
  - split; discriminate.
Qed.

Lemma In_distinct (ks : list (string * string)) (k : string * string) :
  In k (HealthMetricViewSet.distinct ks) <-> In k ks.
Proof.
  induction ks as [ | k0 ks IH]; cbn; [tauto | ].
  rewrite filter_In, IH, negb_true_iff. split.
  - tauto.
  - intros [-> | H]; [now left | ].
    destruct (HealthMetricViewSet.key_eqb k0 k) eqn:E; [ | tauto].
    apply key_eqb_eq in E. now left.
Qed.

Lemma NoDup_distinct (ks : list (string * string)) :
  NoDup (HealthMetricViewSet.distinct ks).
Proof.
  induction ks as [ | k0 ks IH]; cbn; constructor.
  - rewrite filter_In, key_eqb_refl. cbn. intros [_ H]. discriminate.
  - now apply NoDup_filter.
Qed.

Lemma In_keys (types : list MetricType.t) (rows : list HealthMetric.t)
    (k : string * string) :
  In k (HealthMetricViewSet.keys types rows) <->
  exists m, In m rows /\ HealthMetricViewSet.joined types m = Some k.
Proof.
  induction rows as [ | m rows IH]; cbn.
  - split; [contradiction | now intros (m & [] & _)].
  - destruct (HealthMetricViewSet.joined types m) as [k0 | ] eqn:E; cbn; rewrite ?IH.
    + split.
      * intros [<- | (x & Hx & Ex)]; [exists m; auto | exists x; auto].
      * intros (x & [<- | Hx] & Ex); [left; congruence | right; now exists x].
    + split.
      * intros (x & Hx & Ex). exists x; auto.
      * intros (x & [<- | Hx] & Ex); [congruence | now exists x].
Qed.

(** Each observation that has a metric type is counted in one group. *)
Lemma ones (ks : list (string * string)) (k0 : string * string) :
  NoDup ks -> In k0 ks ->
  fold_right Z.add 0
    (map (fun k => if HealthMetricViewSet.key_eqb k k0 then 1 else 0) ks) = 1.
Proof.
  induction 1 as [ | k ks Hnin Hnd IH]; cbn [map fold_right In]; [contradiction | ].
  assert (Hzero : forall l, ~ In k0 l ->
            fold_right Z.add 0
              (map (fun k => if HealthMetricViewSet.key_eqb k k0 then 1 else 0) l) = 0).
  { induction l as [ | x l IHl]; cbn [map fold_right In]; intros Hn; [reflexivity | ].
    destruct (HealthMetricViewSet.key_eqb x k0) eqn:E.
    - apply key_eqb_eq in E. exfalso. apply Hn. now left.
    - rewrite IHl; [reflexivity | ]. intros H. apply Hn. now right. }
  intros [-> | Hin].
  - rewrite key_eqb_refl, (Hzero ks Hnin). reflexivity.
  - destruct (HealthMetricViewSet.key_eqb k k0) eqn:E.
    + apply key_eqb_eq in E. subst k. contradiction.
    + rewrite (IH Hin). reflexivity.
Qed.

Lemma sum_map_add {A : Type} (f g : A -> Z) (l : list A) :
  fold_right Z.add 0 (map (fun a => f a + g a) l)
  = fold_right Z.add 0 (map f l) + fold_right Z.add 0 (map g l).
Proof. induction l as [ | a l IH]; cbn [map fold_right]; lia. Qed.

Lemma group_counts (types : list MetricType.t) (rows : list HealthMetric.t)
    (ks : list (string * string)) :
  NoDup ks ->
  (forall k, In k (HealthMetricViewSet.keys types rows) -> In k ks) ->
  fold_right Z.add 0
    (map (fun k => count (filter (HealthMetricViewSet.has_key types k) rows)) ks)
  = count (HealthMetricViewSet.keys types rows).
Proof.
  intros Hnd. induction rows as [ | m rows IH]; intros Hks.
  - cbn. induction ks as [ | k ks IHk]; cbn; [reflexivity | ].
    inversion Hnd; subst. now rewrite IHk.
  - cbn [HealthMetricViewSet.keys filter] in *.
    unfold HealthMetricViewSet.has_key at 1.
    destruct (HealthMetricViewSet.joined types m) as [k0 | ] eqn:E.
    + rewrite (map_ext _ (fun k => (if HealthMetricViewSet.key_eqb k k0 then 1 else 0)
                                   + count (filter (HealthMetricViewSet.has_key types k)
                                              rows))).
      * rewrite sum_map_add, (ones ks k0 Hnd (Hks k0 (or_introl eq_refl))), IH.
        -- unfold count. cbn [length]. lia.
        -- intros k Hk. apply Hks. now right.
      * intros k. destruct (HealthMetricViewSet.key_eqb k k0); unfold count;
          cbn [length]; lia.
    + now apply IH.
Qed.

Lemma keys_all (types : list MetricType.t) (rows : list HealthMetric.t) :
  (forall m, In m rows -> HealthMetricViewSet.joined types m <> None) ->
  count (HealthMetricViewSet.keys types rows) = count rows.
Proof.
  unfold count. induction rows as [ | m rows IH]; intros H;
    cbn [HealthMetricViewSet.keys]; [reflexivity | ].
  destruct (HealthMetricViewSet.joined types m) eqn:E.
  - assert (IH' : Z.of_nat (length (HealthMetricViewSet.keys types rows))
                  = Z.of_nat (length rows))
      by (apply IH; intros x Hx; apply H; now right).
    cbn [length]. lia.
  - exfalso. exact (H m (or_introl eq_refl) E).
Qed.

Lemma Min_least (vs : list Q) (lo : Q) :
  Min vs = Some lo -> Forall (fun v => (lo <= v)%Q) vs.
Proof.
  destruct vs as [ | v vs]; [discriminate | ]. cbn. intros E. injection E as <-.
  assert (H : forall l m,
             (fold_left (fun m x => if Qltb x m then x else m) l m <= m)%Q /\
             Forall (fun v => (fold_left (fun m x => if Qltb x m then x else m) l m
                               <= v)%Q) l).
  { induction l as [ | x l IH]; intros m; cbn [fold_left].
    - split; [apply Qle_refl | constructor].
    - destruct (IH (if Qltb x m then x else m)) as [H1 H2].
      destruct (Qltb x m) eqn:Ex;
        [apply Qltb_lt in Ex | apply Qltb_ge in Ex];
        (split; [lra | constructor; [lra | exact H2]]). }
  destruct (H vs v) as [H1 H2]. now constructor.
Qed.

Lemma Max_greatest (vs : list Q) (hi : Q) :
  Max vs = Some hi -> Forall (fun v => (v <= hi)%Q) vs.
Proof.
  destruct vs as [ | v vs]; [discriminate | ]. cbn. intros E. injection E as <-.
  assert (H : forall l m,
             (m <= fold_left (fun m x => if Qltb m x then x else m) l m)%Q /\
             Forall (fun v => (v <= fold_left (fun m x => if Qltb m x then x else m)
                                      l m)%Q) l).
  { induction l as [ | x l IH]; intros m; cbn [fold_left].
    - split; [apply Qle_refl | constructor].
    - destruct (IH (if Qltb m x then x else m)) as [H1 H2].
      destruct (Qltb m x) eqn:Ex;
        [apply Qltb_lt in Ex | apply Qltb_ge in Ex];
        (split; [lra | constructor; [lra | exact H2]]). }
  destruct (H vs v) as [H1 H2]. now constructor.
Qed.

Lemma Min_In (vs : list Q) (lo : Q) : Min vs = Some lo -> In lo vs.
Proof.
  destruct vs as [ | v vs]; [discriminate | ]. cbn [Min]. intros E. injection E as <-.
  revert v. induction vs as [ | x vs IH]; intros v; cbn [fold_left]; [now left | ].
  destruct (IH (if Qltb x v then x else v)) as [E | H].
  - rewrite <- E. destruct (Qltb x v); [right; now left | now left].
  - right. now right.
Qed.

Lemma Max_In (vs : list Q) (hi : Q) : Max vs = Some hi -> In hi vs.
Proof.
  destruct vs as [ | v vs]; [discriminate | ]. cbn [Max]. intros E. injection E as <-.
  revert v. induction vs as [ | x vs IH]; intros v; cbn [fold_left]; [now left | ].
  destruct (IH (if Qltb v x then x else v)) as [E | H].
  - rewrite <- E. destruct (Qltb v x); [right; now left | now left].
  - right. now right.
Qed.

(** The aggregates of a group that is not empty: none is null, and the
    minimum and the maximum are values of the group. *)
Lemma aggregates (vs : list Q) :
  vs <> [] ->
  exists a t lo hi,
    Avg vs = Some a /\ Sum vs = Some t /\ Min vs = Some lo /\ Max vs = Some hi /\
    In lo vs /\ In hi vs /\
    Forall (fun v => (lo <= v <= hi)%Q) vs.
Proof.
  intros Hne. destruct vs as [ | v vs]; [congruence | ].
  destruct (Min (v :: vs)) as [lo | ] eqn:Elo; [ | discriminate].
  destruct (Max (v :: vs)) as [hi | ] eqn:Ehi; [ | discriminate].
  do 4 eexists. split; [reflexivity | ]. split; [reflexivity | ].
  split; [reflexivity | ]. split; [reflexivity | ].
  split; [now apply Min_In | ]. split; [now apply Max_In | ].
  pose proof (Min_least _ _ Elo) as Hlo. pose proof (Max_greatest _ _ Ehi) as Hhi.
  rewrite Forall_forall in *. intros x Hx. split; auto.
Qed.

End SummaryFacts.
Import SummaryFacts.

(** X21: [summary] reports one row for each metric type the user has
    observations of in the period, which ends today and starts the given
    number of days (7 by default) earlier. A row counts at least one
    observation and none of its aggregates is null; its minimum and its
    maximum are values of observations of the user in the period that have
    the name and unit of the row, and every such value lies between them;
    the counts of the rows add up to the number of observations in the
    period. *)
Theorem summary_rows (db : Database) (user : Z) (today : date)
    (days metric_type : option Z) :
  let n := match days with Some d => d | None => 7 end in
  valid today -> 0 <= n < toordinal today ->
  (forall m, In m (health_metrics db) ->
             HealthMetricViewSet.joined (metric_types db) m <> None) ->
  exists resp,
    HealthMetricViewSet.summary db user today days metric_type = Ok resp /\
    HealthMetricViewSet.summary_period_end resp = today /\
    toordinal (HealthMetricViewSet.summary_period_start resp) = toordinal today - n /\
    let in_period (m : HealthMetric.t) :=
      (HealthMetric.user m =? user)
      && Date.leb (HealthMetricViewSet.summary_period_start resp)
           (HealthMetric.recorded_date m)
      && match metric_type with
         | Some id => HealthMetric.metric_type m =? id
         | None => true
         end in
    NoDup (map (fun r => (HealthMetricViewSet.metric_type__name r,
                          HealthMetricViewSet.metric_type__unit r))
             (HealthMetricViewSet.metrics resp)) /\
    Forall (fun r =>
              let group :=
                filter (HealthMetricViewSet.has_key (metric_types db)
                          (HealthMetricViewSet.metric_type__name r,
                           HealthMetricViewSet.metric_type__unit r))
                  (filter in_period (health_metrics db)) in
              1 <= HealthMetricViewSet.row_count r /\
              HealthMetricViewSet.row_count r = count group /\
              exists a t lo hi,
                HealthMetricViewSet.average r = Some a /\
                HealthMetricViewSet.total r = Some t /\
                HealthMetricViewSet.min_value r = Some lo /\
                HealthMetricViewSet.max_value r = Some hi /\
                In lo (map HealthMetric.value group) /\
                In hi (map HealthMetric.value group) /\
                Forall (fun m => (lo <= HealthMetric.value m <= hi)%Q) group)
      (HealthMetricViewSet.metrics resp) /\
    fold_right Z.add 0 (map HealthMetricViewSet.row_count
                          (HealthMetricViewSet.metrics resp))
    = count (filter in_period (health_metrics db)).
Proof.
  cbv zeta. intros Hv Hn Hfk. unfold HealthMetricViewSet.summary.
  destruct (sub_days_ok today _ Hv Hn) as (start & -> & Hvs & Hord).
  cbn [bind]. eexists. split; [reflexivity | ].
  cbn [HealthMetricViewSet.summary_period_end HealthMetricViewSet.summary_period_start
       HealthMetricViewSet.metrics].
  split; [reflexivity | ]. split; [exact Hord | ].
  set (rows := match metric_type with
               | Some id => filter _ _
               | None => _
               end).
  assert (Erows : rows
                  = filter (fun m =>
                              (HealthMetric.user m =? user)
                              && Date.leb start (HealthMetric.recorded_date m)
                              && match metric_type with
                                 | Some id => HealthMetric.metric_type m =? id
                                 | None => true
                                 end)
                      (health_metrics db)).
  { unfold rows, HealthMetricViewSet.get_queryset.
    destruct metric_type as [id | ]; rewrite ?filter_and; apply filter_ext;
      intros m; [now rewrite andb_assoc | now rewrite andb_true_r]. }
  assert (Hrows : forall m, In m rows ->
                            HealthMetricViewSet.joined (metric_types db) m <> None).
  { intros m Hm. apply Hfk. rewrite Erows in Hm. now apply filter_In in Hm. }
  rewrite <- Erows. clearbody rows. unfold HealthMetricViewSet.annotate.
  set (ks := HealthMetricViewSet.distinct
               (HealthMetricViewSet.keys (metric_types db) rows)).
  split; [ | split].
  - rewrite map_map. cbn [HealthMetricViewSet.metric_type__name
      HealthMetricViewSet.metric_type__unit].
    rewrite (map_ext _ (fun k : string * string => k))
      by (intros [k1 k2]; reflexivity).
    rewrite map_id. apply NoDup_distinct.
  - apply Forall_forall. intros r Hr. apply in_map_iff in Hr.
    destruct Hr as (k & <- & Hk).
    cbn [HealthMetricViewSet.row_count HealthMetricViewSet.average
         HealthMetricViewSet.total HealthMetricViewSet.min_value
         HealthMetricViewSet.max_value HealthMetricViewSet.metric_type__name
         HealthMetricViewSet.metric_type__unit].
    rewrite <- surjective_pairing.
    apply In_distinct, In_keys in Hk. destruct Hk as (m & Hm & Ek).
    set (group := filter (HealthMetricViewSet.has_key (metric_types db) k) rows).
    assert (Hin : In (HealthMetric.value m) (map HealthMetric.value group)).
    { apply in_map, filter_In. split; [exact Hm | now apply has_key_iff]. }
    split; [ | split].
    + unfold count. destruct (map HealthMetric.value group);
        [contradiction | cbn [length]; lia].
    + unfold count. now rewrite length_map.
    + destruct (aggregates (map HealthMetric.value group))
        as (a & t & lo & hi & Ea & Et & Elo & Ehi & Ilo & Ihi & Hall).
      { intros E. rewrite E in Hin. contradiction. }
      exists a, t, lo, hi. repeat (split; [assumption | ]).
      rewrite Forall_forall in *. intros x Hx. apply Hall. now apply in_map.
  - rewrite map_map. cbn [HealthMetricViewSet.row_count].
    rewrite (map_ext _ (fun k => count (filter (HealthMetricViewSet.has_key
                                               (metric_types db) k) rows)))
      by (intros k; unfold count; now rewrite length_map).
    rewrite <- (keys_all (metric_types db) rows Hrows).
    apply group_counts; [apply NoDup_distinct | ].
    intros k Hk. now apply In_distinct.
Qed.

Lemma summary_rows_witness :
  valid Sample.today /\
  exists resp,
    HealthMetricViewSet.summary Sample.db 1 Sample.today None None = Ok resp /\
    map HealthMetricViewSet.row_count (HealthMetricViewSet.metrics resp) = [2] /\
    map HealthMetricViewSet.min_value (HealthMetricViewSet.metrics resp)
    = [Some 4000%Q] /\
    map HealthMetricViewSet.max_value (HealthMetricViewSet.metrics resp)
    = [Some 8000%Q].
Proof.
  assert (Hv : valid Sample.today) by (repeat split; discriminate).
  split; [exact Hv | ].
  destruct (summary_rows Sample.db 1 Sample.today None None Hv)
    as (resp & Hresp & _).
  - split; [discriminate | reflexivity].
  - intros m Hin. cbn in Hin.
    repeat (destruct Hin as [<- | Hin]; [discriminate | ]). contradiction.
  - exists resp. split; [exact Hresp | ].
    vm_compute in Hresp. injection Hresp as <-. repeat split; reflexivity.
Defined.
